(** * Moral Foundations LLM Analyzer: scoring, aggregation and persistence

    A shallow embedding of [moral_foundations_analyzer.py] and of the
    statistics, the table and the question blocks of
    [generate_html_report.py], with the properties of the response
    scorer, the query step, the aggregator, the persisted JSON format,
    the dashboard index, the constructor, the loader and the report.

    Python text is embedded as [string]: a sequence of code points below
    256, each [ascii] standing for the code point of the same number (the
    Latin-1 range of Unicode).  Character classes of the [re] library and
    [str.lower] are given for exactly this range. *)

From Stdlib Require Import ZArith NArith Ascii String List Bool Lia.
From Stdlib Require Import DecimalFacts DecimalString DecimalN.
From stdpp Require Import base option list sorting strings gmap.

Local Open Scope Z_scope.

(* ===================================================================== *)
(** * Part I: the program *)
(* ===================================================================== *)

(** ** Python text: character classes and [str.lower] *)

Module Py.

(** The code point of a character. *)
Definition code (c : ascii) : N := N_of_ascii c.

Definition between (lo hi : N) (c : ascii) : bool :=
  ((lo <=? code c) && (code c <=? hi))%N.

(** [[0-9]] *)
Definition is_digit (c : ascii) : bool := between 48 57 c.

(** [str.isalnum] on one character: letters and the characters with a
    numeric value (digits, superscripts, vulgar fractions). *)
Definition isalnum (c : ascii) : bool :=
  between 48 57 c || between 65 90 c || between 97 122 c
  || between 170 170 c || between 178 179 c || between 181 181 c
  || between 185 186 c || between 188 190 c
  || between 192 214 c || between 216 246 c || between 248 255 c.

(** [\w] of [re] on [str] patterns: alphanumeric or the underscore. *)
Definition is_word (c : ascii) : bool := isalnum c || between 95 95 c.

(** [\s] of [re] on [str] patterns: tab, line feed, vertical tab, form
    feed, carriage return, the four separators 0x1c-0x1f, space, NEL and
    the no-break space. *)
Definition is_space (c : ascii) : bool :=
  between 9 13 c || between 28 32 c || between 133 133 c
  || between 160 160 c.

(** [str.lower] on one character: A-Z and the capital letters
    0xc0-0xde (the multiplication sign 0xd7 apart) move up by 32. *)
Definition lower_char (c : ascii) : ascii :=
  if between 65 90 c || (between 192 222 c && negb (between 215 215 c))
  then ascii_of_N (code c + 32)
  else c.

(** [str.lower] on a text of this range, where it works character by
    character.  Beyond the range it does not: U+0130 lowers to two code
    points, the second no word character.  So the places the scorer
    finds are places of the lowered text, and the statements about them
    are made of the lowered text. *)
Fixpoint lower (s : string) : string :=
  match s with
  | EmptyString => EmptyString
  | String c s' => String (lower_char c) (lower s')
  end.

(** [int(x)] for a one-character string [x] holding a decimal digit. *)
Definition int_of_digit (c : ascii) : Z := Z.of_N (code c) - 48.

End Py.

(** ** The fragment of [re] the scorer uses *)

Module Re.

(** The pieces the four patterns are made of, outside the capture
    group. *)
Inductive atom : Type :=
| Lit (c : ascii)                  (* an ordinary character *)
| OneOf (cls : ascii -> bool)      (* a set [[...]] *)
| Many1 (cls : ascii -> bool)      (* a set under a greedy [+] *)
| WordBoundary.                    (* [\b] *)

(** A pattern with one capture group around a single set:
    [before (group) after]. *)
Record pattern : Type := Pattern {
  before : list atom;
  group : ascii -> bool;
  after : list atom
}.

Definition word_opt (c : option ascii) : bool :=
  match c with
  | Some x => Py.is_word x
  | None => false
  end.

Definition first_char (s : string) : option ascii :=
  match s with
  | EmptyString => None
  | String c _ => Some c
  end.

(** [\b]: exactly one of the characters on the two sides of the
    position is a word character; outside the text counts as not a word
    character. *)
Definition at_boundary (prev : option ascii) (s : string) : bool :=
  xorb (word_opt prev) (word_opt (first_char s)).

(** One or more characters of [cls], the longest run first, giving back
    one character at a time while the rest of the pattern [k] fails. *)
Fixpoint many1 {R : Type} (cls : ascii -> bool)
    (k : option ascii -> string -> option R) (s : string) : option R :=
  match s with
  | EmptyString => None
  | String c s' =>
      if cls c then
        match many1 cls k s' with
        | Some r => Some r
        | None => k (Some c) s'
        end
      else None
  end.

(** Match [atoms] at the current position, then continue with [k].
    [prev] is the character before the position, [s] the text from the
    position on. *)
Fixpoint match_atoms {R : Type} (atoms : list atom)
    (k : option ascii -> string -> option R)
    (prev : option ascii) (s : string) : option R :=
  match atoms with
  | [] => k prev s
  | Lit c :: rest =>
      match s with
      | String x s' =>
          if Ascii.eqb x c then match_atoms rest k (Some x) s' else None
      | EmptyString => None
      end
  | OneOf cls :: rest =>
      match s with
      | String x s' =>
          if cls x then match_atoms rest k (Some x) s' else None
      | EmptyString => None
      end
  | Many1 cls :: rest =>
      many1 cls (fun prev' s' => match_atoms rest k prev' s') s
  | WordBoundary :: rest =>
      if at_boundary prev s then match_atoms rest k prev s else None
  end.

(** A match of the pattern starting exactly at the current position;
    the result is the text of group 1 (one character). *)
Definition match_here (p : pattern) (prev : option ascii) (s : string)
    : option ascii :=
  match_atoms (before p)
    (fun prev' s' =>
       match s' with
       | String x s'' =>
           if group p x
           then match_atoms (after p) (fun _ _ => Some x) (Some x) s''
           else None
       | EmptyString => None
       end)
    prev s.

(** [re.search]: the match at the leftmost start position, trying the
    positions from the current one to the end of the text. *)
Fixpoint search_from (p : pattern) (prev : option ascii) (s : string)
    : option ascii :=
  match match_here p prev s with
  | Some g => Some g
  | None =>
      match s with
      | EmptyString => None
      | String c s' => search_from p (Some c) s'
      end
  end.

Definition search (p : pattern) (s : string) : option ascii :=
  search_from p None s.

Definition lits (s : string) : list atom :=
  map Lit (list_ascii_of_string s).

End Re.

(** ** The response scorer *)

Module Scorer.

(** [[0-5]] *)
Definition digit05 (c : ascii) : bool := Py.between 48 53 c.

(** [[:\s]] *)
Definition colon_or_space (c : ascii) : bool :=
  Ascii.eqb c ":" || Py.is_space c.

(** [\b([0-5])\b] *)
Definition bare_digit : Re.pattern :=
  Re.Pattern [Re.WordBoundary] digit05 [Re.WordBoundary].

(** [label[:\s]+([0-5])] *)
Definition labeled (label : string) : Re.pattern :=
  Re.Pattern (Re.lits label ++ [Re.Many1 colon_or_space]) digit05 [].

Definition patterns : list Re.pattern :=
  [ bare_digit; labeled "rating"; labeled "score"; labeled "value" ].

(** The loop over the patterns: the first pattern with a match decides. *)
Fixpoint first_match (ps : list Re.pattern) (text : string) : Z :=
  match ps with
  | [] => -1
  | p :: ps' =>
      match Re.search p text with
      | Some g => Py.int_of_digit g
      | None => first_match ps' text
      end
  end.

Definition _extract_numeric_value (response : string) : Z :=
  first_match patterns (Py.lower response).

End Scorer.

(** ** Vocabulary for statements about response texts *)

Module Text.

(** The last character of [pre], or [prev] when [pre] is empty. *)
Fixpoint last_or (prev : option ascii) (pre : string) : option ascii :=
  match pre with
  | EmptyString => prev
  | String c pre' => last_or (Some c) pre'
  end.

(** In the text [pre ++ String d post] the character [d] is a digit 0-5
    with no word character (letter, digit, underscore) next to it; the
    start and the end of the text count as no word character. *)
Definition standalone (pre : string) (d : ascii) (post : string) : Prop :=
  Scorer.digit05 d = true
  /\ Re.word_opt (last_or None pre) = false
  /\ Re.word_opt (Re.first_char post) = false.

(** [pre], [d], [post] is the leftmost such place of the text [s]. *)
Definition leftmost_standalone (s pre : string) (d : ascii) (post : string)
    : Prop :=
  s = (pre ++ String d post)%string
  /\ standalone pre d post
  /\ forall pre' d' post',
       s = (pre' ++ String d' post')%string ->
       standalone pre' d' post' ->
       (String.length pre <= String.length pre')%nat.

(** The same with "no digit next to it" in place of "no word character
    next to it". *)
Definition digit_opt (c : option ascii) : bool :=
  match c with
  | Some x => Py.is_digit x
  | None => false
  end.

Definition digit_bounded (pre : string) (d : ascii) (post : string) : Prop :=
  Scorer.digit05 d = true
  /\ digit_opt (last_or None pre) = false
  /\ digit_opt (Re.first_char post) = false.

Definition leftmost_digit_bounded (s pre : string) (d : ascii)
    (post : string) : Prop :=
  s = (pre ++ String d post)%string
  /\ digit_bounded pre d post
  /\ forall pre' d' post',
       s = (pre' ++ String d' post')%string ->
       digit_bounded pre' d' post' ->
       (String.length pre <= String.length pre')%nat.

Fixpoint all_chars (cls : ascii -> bool) (s : string) : bool :=
  match s with
  | EmptyString => true
  | String c s' => cls c && all_chars cls s'
  end.

(** The text [t] holds [label], then one or more colons or white space
    characters, then the digit [d] in 0-5. *)
Definition labeled_digit (label t : string) (d : ascii) : Prop :=
  exists a sep b,
    t = (a ++ label ++ sep ++ String d b)%string
    /\ sep <> EmptyString
    /\ all_chars Scorer.colon_or_space sep = true
    /\ Scorer.digit05 d = true.

(** A labeled rating, whatever the case of the letters of the label. *)
Definition labeled_rating (s : string) (d : ascii) : Prop :=
  labeled_digit "rating" (Py.lower s) d
  \/ labeled_digit "score" (Py.lower s) d
  \/ labeled_digit "value" (Py.lower s) d.

(** The maximal runs of decimal digits of a text, from left to right. *)
Fixpoint digit_runs (s : string) : list string :=
  match s with
  | EmptyString => []
  | String c s' =>
      if Py.is_digit c then
        match s' with
        | String c' _ =>
            if Py.is_digit c' then
              match digit_runs s' with
              | r :: rs => String c r :: rs
              | [] => [String c EmptyString]
              end
            else String c EmptyString :: digit_runs s'
        | EmptyString => [String c EmptyString]
        end
      else digit_runs s'
  end.

(** The number a run of decimal digits denotes. *)
Fixpoint run_value_acc (acc : Z) (r : string) : Z :=
  match r with
  | EmptyString => acc
  | String c r' => run_value_acc (10 * acc + Py.int_of_digit c) r'
  end.

Definition run_value (r : string) : Z := run_value_acc 0 r.

(** Every number written in the text is greater than 5. *)
Definition numbers_above_5 (s : string) : Prop :=
  Forall (fun r => 5 < run_value r) (digit_runs s).

(** No character of the text is a digit 0-5. *)
Definition no_digit05 (s : string) : Prop :=
  all_chars (fun c => negb (Scorer.digit05 c)) s = true.

End Text.

(** ** Exceptions *)

Module Exn.

(** An instance of a subclass of [Exception]: its class and [str(e)].
    Interrupts and exits, which are not such instances, are no failure
    of a called function and are not part of the embedding. *)
Inductive exn : Type := Exception (cls : string) (message : string).

Definition str (e : exn) : string :=
  match e with Exception _ message => message end.

(** The outcome of a call: a value, or a raised exception. *)
Inductive result (A : Type) : Type :=
| Ok (a : A)
| Raise (e : exn).
Arguments Ok {A} a.
Arguments Raise {A} e.

#[global] Instance result_ret : MRet result := fun A a => Ok a.
#[global] Instance result_bind : MBind result := fun A B f m =>
  match m with
  | Ok a => f a
  | Raise e => Raise e
  end.

(** [try: body  except Exception as e: handler e] *)
Definition try_except {A : Type} (body : result A) (handler : exn -> result A)
    : result A :=
  match body with
  | Ok a => Ok a
  | Raise e => handler e
  end.

(** A loop that threads an accumulator and stops at the first raise. *)
Fixpoint foldM {A B : Type} (f : B -> A -> result B) (b : B) (l : list A)
    : result B :=
  match l with
  | [] => Ok b
  | x :: l' => b' ← f b x; foldM f b' l'
  end.

End Exn.
Export Exn (exn, Exception, result, Ok, Raise).

(** ** Questions and query results *)

Module Question.
(** The dict [load_questions] builds for one row of the data set. *)
Record t : Type := Make {
  question : string;
  part : Z;
  moral_foundation : string;
  expected_output : string
}.
End Question.

Module QueryResult.
(** The dict [query_llm] returns. *)
Record t : Type := Make {
  llm : string;
  question : string;
  part : Z;
  moral_foundation : string;
  response : string;
  extracted_value : Z;
  timestamp : string
}.
End QueryResult.

(** ** The query step *)

Module Analyzer.

Inductive message : Type :=
| SystemMessage (content : string)
| HumanMessage (content : string).

(** What [llm.invoke] gives back. *)
Record response : Type := Response { content : string }.

(** A configured model: [invoke] returns a response or raises. *)
Record client : Type := Client {
  invoke : list message -> result response
}.

(** The fields of [self] the query step reads. *)
Record analyzer : Type := MoralFoundationsAnalyzer {
  part1_prompt : string;
  part2_prompt : string;
  questions : list Question.t;
  llms : list (string * client);
  results : list QueryResult.t
}.

Definition _create_prompt (self : analyzer) (question : Question.t)
    : list message :=
  let system_prompt :=
    if Question.part question =? 1 then part1_prompt self
    else part2_prompt self in
  [ SystemMessage system_prompt;
    HumanMessage (Question.question question) ].

(** [now] is [datetime.now().isoformat()] at the time the record is
    built.  Progress reporting ([print]) is left out. *)
Definition query_llm (self : analyzer) (llm_name : string) (llm : client)
    (question : Question.t) (now : string) : result QueryResult.t :=
  let messages := _create_prompt self question in
  Exn.try_except
    (response ← invoke llm messages;
     let response_text := content response in
     let numeric_value := Scorer._extract_numeric_value response_text in
     mret (QueryResult.Make llm_name (Question.question question)
             (Question.part question)
             (Question.moral_foundation question)
             response_text numeric_value now))
    (fun e =>
       mret (QueryResult.Make llm_name (Question.question question)
               (Question.part question)
               (Question.moral_foundation question)
               ("ERROR: " ++ Exn.str e)%string (-1) now)).

(** [self.questions[:limit] if limit else self.questions] *)
Definition questions_to_analyze (self : analyzer) (limit : option Z)
    : list Question.t :=
  match limit with
  | None => questions self
  | Some n =>
      if n =? 0 then questions self
      else if 0 <? n then take (Z.to_nat n) (questions self)
      else take (length (questions self) - Z.to_nat (- n)) (questions self)
  end.

(** The body of the inner loop of [analyze_all]: one question, one
    model.  The state is the list of results and the number of queries
    made; [clock k] is the time read by query number [k]. *)
Definition query_step (self : analyzer) (clock : nat -> string)
    (question : Question.t) (state : list QueryResult.t * nat)
    (model : string * client) : result (list QueryResult.t * nat) :=
  let '(results, query_count) := state in
  let '(llm_name, llm) := model in
  let query_count := S query_count in
  result ← query_llm self llm_name llm question (clock query_count);
  mret (results ++ [result], query_count).

(** The inner loop: one question, every model. *)
Definition query_models (self : analyzer) (clock : nat -> string)
    (question : Question.t) (state : list QueryResult.t * nat)
    : result (list QueryResult.t * nat) :=
  Exn.foldM (query_step self clock question) state (llms self).

Definition analyze_all (self : analyzer) (clock : nat -> string)
    (limit : option Z) : result (list QueryResult.t) :=
  out ← Exn.foldM
          (fun acc question => query_models self clock question acc)
          (results self, 0%nat)
          (questions_to_analyze self limit);
  mret (fst out).

End Analyzer.

(** ** The fragment of pandas the aggregation uses *)

Module Pandas.

(** A frame of query results.  A frame built from an empty list of
    dicts has no columns; selecting rows keeps the columns. *)
Record frame : Type := Frame {
  columns : list string;
  rows : list QueryResult.t
}.

Definition result_columns : list string :=
  [ "llm"; "question"; "part"; "moral_foundation"; "response";
    "extracted_value"; "timestamp" ]%string.

(** [pd.DataFrame(results)] *)
Definition DataFrame (results : list QueryResult.t) : frame :=
  Frame (match results with [] => [] | _ :: _ => result_columns end)
        results.

(** [df[name]]: the column, or [KeyError] when the frame has no such
    column. *)
Definition getitem {A : Type} (df : frame) (name : string)
    (field : QueryResult.t -> A) : result (list A) :=
  if bool_decide (name ∈ columns df)
  then Ok (map field (rows df))
  else Raise (Exception "KeyError" name).

Fixpoint select_rows {A : Type} (rs : list A) (mask : list bool) : list A :=
  match rs, mask with
  | r :: rs', b :: mask' =>
      if b then r :: select_rows rs' mask' else select_rows rs' mask'
  | _, _ => []
  end.

(** [df[mask]] for a boolean series [mask] *)
Definition select (df : frame) (mask : list bool) : frame :=
  Frame (columns df) (select_rows (rows df) mask).

(** [len(df)] *)
Definition len (df : frame) : Z := Z.of_nat (length (rows df)).

(** [series.unique()]: the distinct values in order of first
    appearance. *)
Fixpoint unique (l : list string) : list string :=
  match l with
  | [] => []
  | x :: l' => x :: List.filter (fun y => negb (String.eqb x y)) (unique l')
  end.

(** [sorted(...)] on strings: ascending by code points. *)
Definition sorted (l : list string) : list string :=
  merge_sort String.le l.

(** The 64-bit two's complement value of an integer. *)
Definition int64 (z : Z) : Z := (z + 2 ^ 63) mod 2 ^ 64 - 2 ^ 63.

(** [series.sum()] on a column of dtype int64: machine additions. *)
Definition sum (values : list Z) : Z :=
  fold_left (fun acc v => int64 (acc + v)) values 0.

End Pandas.

(** ** The statistics of the HTML report *)

Module Report.

(** [self.results], [self.df] and [self.valid_df] of
    [HTMLReportGenerator]. *)
Record generator : Type := HTMLReportGenerator {
  results : list QueryResult.t;
  df : Pandas.frame;
  valid_df : Pandas.frame
}.

(** The part of [_load_data] after [json.load]. *)
Definition load_results (loaded : list QueryResult.t) : result generator :=
  let df := Pandas.DataFrame loaded in
  values ← Pandas.getitem df "extracted_value" QueryResult.extracted_value;
  let valid_df := Pandas.select df (map (fun v => 0 <=? v) values) in
  mret (HTMLReportGenerator loaded df valid_df).

Record stats : Type := Stats {
  llms : list string;
  foundations : list string;
  by_llm_foundation : gmap string (gmap string Z);
  total_by_foundation : gmap string Z
}.

(** [frame[frame[name] == value]] *)
Definition where_eq (frame : Pandas.frame) (name : string)
    (field : QueryResult.t -> string) (value : string)
    : result Pandas.frame :=
  column ← Pandas.getitem frame name field;
  mret (Pandas.select frame (map (fun x => String.eqb x value) column)).

(** [int(frame['extracted_value'].sum())] *)
Definition sum_scores (frame : Pandas.frame) : result Z :=
  values ← Pandas.getitem frame "extracted_value"
             QueryResult.extracted_value;
  mret (Pandas.sum values).

Definition _calculate_statistics (self : generator) : result stats :=
  llm_column ← Pandas.getitem (df self) "llm" QueryResult.llm;
  let llms := Pandas.sorted (Pandas.unique llm_column) in
  foundation_column ← Pandas.getitem (valid_df self) "moral_foundation"
                        QueryResult.moral_foundation;
  let foundations := Pandas.sorted (Pandas.unique foundation_column) in
  by_llm_foundation ←
    Exn.foldM
      (fun (table : gmap string (gmap string Z)) llm =>
         llm_df ← where_eq (valid_df self) "llm" QueryResult.llm llm;
         row ← Exn.foldM
                 (fun (row : gmap string Z) foundation =>
                    foundation_df ← where_eq llm_df "moral_foundation"
                                      QueryResult.moral_foundation
                                      foundation;
                    sum_score ← sum_scores foundation_df;
                    mret (<[foundation := sum_score]> row))
                 ∅ foundations;
         mret (<[llm := row]> table))
      ∅ llms;
  total_by_foundation ←
    Exn.foldM
      (fun (total : gmap string Z) foundation =>
         foundation_df ← where_eq (valid_df self) "moral_foundation"
                           QueryResult.moral_foundation foundation;
         sum_score ← sum_scores foundation_df;
         mret (<[foundation := sum_score]> total))
      ∅ foundations;
  mret (Stats llms foundations by_llm_foundation total_by_foundation).

(** The statistics of a list of results as the report computes them. *)
Definition statistics (loaded : list QueryResult.t) : result stats :=
  self ← load_results loaded;
  _calculate_statistics self.

End Report.

(** ** The scores of the text summary *)

Module Summary.

(** What [_generate_summary] writes for one model: its name, the counts
    of valid and of all its responses, and one score per foundation. *)
Record section : Type := Section_ {
  llm : string;
  valid_responses : Z;
  all_responses : Z;
  scores : list (string * Z)
}.

(** The loop of [_generate_summary] over the models, on
    [self.results]. *)
Definition _generate_summary (results : list QueryResult.t)
    : result (list section) :=
  let df := Pandas.DataFrame results in
  llm_column ← Pandas.getitem df "llm" QueryResult.llm;
  values ← Pandas.getitem df "extracted_value" QueryResult.extracted_value;
  let valid_df := Pandas.select df (map (fun v => 0 <=? v) values) in
  Exn.foldM
    (fun sections llm =>
       llm_df ← Report.where_eq valid_df "llm" QueryResult.llm llm;
       all_df ← Report.where_eq df "llm" QueryResult.llm llm;
       scores ←
         (if 0 <? Pandas.len llm_df then
            foundation_column ← Pandas.getitem llm_df "moral_foundation"
                                  QueryResult.moral_foundation;
            Exn.foldM
              (fun lines foundation =>
                 foundation_df ← Report.where_eq llm_df "moral_foundation"
                                   QueryResult.moral_foundation foundation;
                 sum_score ← Report.sum_scores foundation_df;
                 mret (lines ++ [(foundation, sum_score)]))
              [] (Pandas.sorted (Pandas.unique foundation_column))
          else mret []);
       mret (sections
             ++ [Section_ llm (Pandas.len llm_df) (Pandas.len all_df)
                   scores]))
    [] (Pandas.sorted (Pandas.unique llm_column)).

End Summary.

(** ** Vocabulary for statements about aggregates *)

Module Aggregate.

(** A valid response: the extracted value is not the sentinel. *)
Definition valid (r : QueryResult.t) : bool :=
  0 <=? QueryResult.extracted_value r.

(** A valid response of model [m] on foundation [f]. *)
Definition matching (m f : string) (r : QueryResult.t) : bool :=
  valid r && String.eqb (QueryResult.llm r) m
  && String.eqb (QueryResult.moral_foundation r) f.

Definition total (values : list Z) : Z := foldr Z.add 0 values.

(** The sum of the extracted values of the valid records of model [m]
    on foundation [f]. *)
Definition score_sum (results : list QueryResult.t) (m f : string) : Z :=
  total (map QueryResult.extracted_value
           (List.filter (matching m f) results)).

(** The same over all models. *)
Definition foundation_sum (results : list QueryResult.t) (f : string) : Z :=
  total (map QueryResult.extracted_value
           (List.filter
              (fun r => valid r
                        && String.eqb (QueryResult.moral_foundation r) f)
              results)).

(** The data model's invariant on a record, and the size a Python list
    can have. *)
Definition legal (r : QueryResult.t) : Prop :=
  -1 <= QueryResult.extracted_value r <= 5.

Definition legal_results (results : list QueryResult.t) : Prop :=
  Forall legal results /\ Z.of_nat (length results) < 2 ^ 60.

(** What the nested row selections of the aggregators come to. *)
Definition model_names (results : list QueryResult.t) : list string :=
  Pandas.sorted (Pandas.unique (map QueryResult.llm results)).

Definition foundation_names (results : list QueryResult.t) : list string :=
  Pandas.sorted
    (Pandas.unique
       (map QueryResult.moral_foundation (List.filter valid results))).

Definition frame_sum (results : list QueryResult.t) (m f : string) : Z :=
  Pandas.sum
    (map QueryResult.extracted_value
       (List.filter
          (fun r => String.eqb (QueryResult.moral_foundation r) f)
          (List.filter (fun r => String.eqb (QueryResult.llm r) m)
             (List.filter valid results)))).

Definition frame_total (results : list QueryResult.t) (f : string) : Z :=
  Pandas.sum
    (map QueryResult.extracted_value
       (List.filter
          (fun r => String.eqb (QueryResult.moral_foundation r) f)
          (List.filter valid results))).

(** The section of the text summary for model [m]. *)
Definition section_of (results : list QueryResult.t) (m : string)
    : Summary.section :=
  let llm_rows :=
    List.filter (fun r => String.eqb (QueryResult.llm r) m)
      (List.filter valid results) in
  Summary.Section_ m
    (Z.of_nat (length llm_rows))
    (Z.of_nat
       (length
          (List.filter (fun r => String.eqb (QueryResult.llm r) m)
             results)))
    (if 0 <? Z.of_nat (length llm_rows)
     then map (fun f => (f, frame_sum results m f))
            (Pandas.sorted
               (Pandas.unique
                  (map QueryResult.moral_foundation llm_rows)))
     else []).

(** [stats['by_llm_foundation'][m][f]], [None] standing for a missing
    key. *)
Definition entry (st : Report.stats) (m f : string) : option Z :=
  row ← Report.by_llm_foundation st !! m; row !! f.

End Aggregate.

(** ** The fragment of [json] the persisted format uses *)

Module Json.

(** What [json.load] returns.  An object keeps its members as read, in
    order; a number with a fraction or an exponent, [NaN] and the
    infinities keep the text they were read from. *)
#[warnings="-register-all"]
Inductive value : Type :=
| Null
| Bool (b : bool)
| Int (z : Z)
| Float (literal : string)
| Str (s : string)
| Arr (items : list value)
| Obj (members : list (string * value)).

(** [d[key]] and [d.get(key)] on an object: of members with the same
    key the last one read counts. *)
Fixpoint get (members : list (string * value)) (key : string)
    : option value :=
  match members with
  | [] => None
  | (k, v) :: rest =>
      match get rest key with
      | Some v' => Some v'
      | None => if String.eqb k key then Some v else None
      end
  end.

(** *** Writing *)

(** The double quote. *)
Definition quote : ascii := ascii_of_N 34.

Definition hex_digit (n : N) : ascii :=
  if (n <? 10)%N then ascii_of_N (48 + n) else ascii_of_N (87 + n).

(** One character of a string, as [ensure_ascii] writes it. *)
Definition escape_char (c : ascii) : string :=
  let n := Py.code c in
  if Ascii.eqb c quote then String "\" (String quote "")
  else if Ascii.eqb c "\" then "\\"
  else if (n =? 10)%N then "\n"
  else if (n =? 13)%N then "\r"
  else if (n =? 9)%N then "\t"
  else if (n =? 8)%N then "\b"
  else if (n =? 12)%N then "\f"
  else if (n <? 32)%N || (126 <? n)%N then
    String "\" (String "u" (String "0" (String "0"
      (String (hex_digit (n / 16)) (String (hex_digit (n mod 16)) "")))))
  else String c "".

Fixpoint escape (s : string) : string :=
  match s with
  | EmptyString => EmptyString
  | String c s' => (escape_char c ++ escape s')%string
  end.

Definition encode_string (s : string) : string :=
  (String quote (escape s) ++ String quote "")%string.

(** [repr] of an integer. *)
Definition digits (n : N) : string :=
  NilEmpty.string_of_uint (N.to_uint n).

Definition encode_int (z : Z) : string :=
  if z <? 0 then String "-" (digits (Z.abs_N z)) else digits (Z.abs_N z).

Definition newline : ascii := ascii_of_N 10.

Fixpoint spaces (n : nat) : string :=
  match n with
  | O => EmptyString
  | S n' => String " " (spaces n')
  end.

(** A line break and the indentation of nesting level [level], two
    spaces a level. *)
Definition newline_indent (level : nat) : string :=
  String newline (spaces (2 * level)).

Fixpoint join (sep : string) (parts : list string) : string :=
  match parts with
  | [] => EmptyString
  | [p] => p
  | p :: rest => (p ++ sep ++ join sep rest)%string
  end.

(** [json.dumps(v, indent=2)] at nesting level [level]. *)
Fixpoint dumps_at (level : nat) (v : value) : string :=
  match v with
  | Null => "null"
  | Bool true => "true"
  | Bool false => "false"
  | Int z => encode_int z
  | Float literal => literal
  | Str s => encode_string s
  | Arr [] => "[]"
  | Arr items =>
      (String "[" (newline_indent (S level))
       ++ join (String "," (newline_indent (S level)))
            (List.map (dumps_at (S level)) items)
       ++ newline_indent level ++ "]")%string
  | Obj [] => "{}"
  | Obj members =>
      (String "{" (newline_indent (S level))
       ++ join (String "," (newline_indent (S level)))
            (List.map
               (fun kv : string * value =>
                  (encode_string (fst kv) ++ ": "
                   ++ dumps_at (S level) (snd kv))%string)
               members)
       ++ newline_indent level ++ "}")%string
  end.

Definition dumps (v : value) : string := dumps_at 0 v.

(** *** Reading *)

Definition is_ws (c : ascii) : bool :=
  let n := Py.code c in
  (n =? 32)%N || (n =? 9)%N || (n =? 10)%N || (n =? 13)%N.

Fixpoint skip_ws (s : string) : string :=
  match s with
  | EmptyString => EmptyString
  | String c s' => if is_ws c then skip_ws s' else s
  end.

Definition hex_value (c : ascii) : option N :=
  let n := Py.code c in
  if Py.between 48 57 c then Some (n - 48)%N
  else if Py.between 97 102 c then Some (n - 87)%N
  else if Py.between 65 70 c then Some (n - 55)%N
  else None.

(** The character an escape other than [\u] stands for. *)
Definition unescape (e : ascii) : option ascii :=
  if Ascii.eqb e quote then Some quote
  else if Ascii.eqb e "\" then Some "\"%char
  else if Ascii.eqb e "/" then Some "/"%char
  else if Ascii.eqb e "b" then Some (ascii_of_N 8)
  else if Ascii.eqb e "f" then Some (ascii_of_N 12)
  else if Ascii.eqb e "n" then Some (ascii_of_N 10)
  else if Ascii.eqb e "r" then Some (ascii_of_N 13)
  else if Ascii.eqb e "t" then Some (ascii_of_N 9)
  else None.

(** The text of a string from after its opening quote: the string and
    what follows the closing quote.  A control character in the string
    is an error.  A [\u] escape above 00ff stands for a character
    outside the embedded range of code points and is refused here. *)
Fixpoint scan_string (s : string) : option (string * string) :=
  match s with
  | EmptyString => None
  | String c s' =>
      if Ascii.eqb c quote then Some (EmptyString, s')
      else if Ascii.eqb c "\" then
        match s' with
        | String e s'' =>
            if Ascii.eqb e "u" then
              match s'' with
              | String h1 (String h2 (String h3 (String h4 s3))) =>
                  match hex_value h1, hex_value h2, hex_value h3,
                        hex_value h4 with
                  | Some a, Some b, Some c', Some d =>
                      let n := (((a * 16 + b) * 16 + c') * 16 + d)%N in
                      if (n <? 256)%N then
                        match scan_string s3 with
                        | Some (str, rest) =>
                            Some (String (ascii_of_N n) str, rest)
                        | None => None
                        end
                      else None
                  | _, _, _, _ => None
                  end
              | _ => None
              end
            else
              match unescape e with
              | Some x =>
                  match scan_string s'' with
                  | Some (str, rest) => Some (String x str, rest)
                  | None => None
                  end
              | None => None
              end
        | EmptyString => None
        end
      else if (Py.code c <? 32)%N then None
      else
        match scan_string s' with
        | Some (str, rest) => Some (String c str, rest)
        | None => None
        end
  end.

(** The text starts with the character [c]. *)
Definition starts_with (c : ascii) (s : string) : bool :=
  match s with
  | EmptyString => false
  | String x _ => Ascii.eqb x c
  end.

(** The text after its first character. *)
Definition tail (s : string) : string :=
  match s with
  | EmptyString => EmptyString
  | String _ s' => s'
  end.

(** The longest run of decimal digits at the start of a text, and the
    rest. *)
Fixpoint span_digits (s : string) : string * string :=
  match s with
  | EmptyString => (EmptyString, EmptyString)
  | String c s' =>
      if Py.is_digit c then
        let '(ds, rest) := span_digits s' in (String c ds, rest)
      else (EmptyString, s)
  end.

Definition number_of_digits (ds : string) : N :=
  match NilEmpty.uint_of_string ds with
  | Some d => N.of_uint d
  | None => 0%N
  end.

(** The fraction of a number, when there is one: a full stop and one
    or more digits. *)
Definition scan_fraction (s : string) : string * string :=
  if starts_with "." s then
    match span_digits (tail s) with
    | (EmptyString, _) => (EmptyString, s)
    | (ds, rest) => (String "." ds, rest)
    end
  else (EmptyString, s).

(** The exponent of a number, when there is one: [e] or [E], an
    optional sign and one or more digits. *)
Definition scan_exponent (s : string) : string * string :=
  match s with
  | String e s' =>
      if Ascii.eqb e "e" || Ascii.eqb e "E" then
        let '(sign, s'') :=
          match s' with
          | String x r =>
              if Ascii.eqb x "+" || Ascii.eqb x "-"
              then (String x EmptyString, r)
              else (EmptyString, s')
          | EmptyString => (EmptyString, s')
          end in
        match span_digits s'' with
        | (EmptyString, _) => (EmptyString, s)
        | (ds, rest) => (String e (sign ++ ds), rest)
        end
      else (EmptyString, s)
  | EmptyString => (EmptyString, s)
  end.

(** A number whose integer part is [int_part] (digits), negative when
    [negative], followed by [s]. *)
Definition finish_number (negative : bool) (int_part : string) (s : string)
    : value * string :=
  let '(fraction, s1) := scan_fraction s in
  let '(exponent, s2) := scan_exponent s1 in
  match fraction, exponent with
  | EmptyString, EmptyString =>
      let n := Z.of_N (number_of_digits int_part) in
      (Int (if negative then - n else n), s2)
  | _, _ =>
      (Float ((if negative then String "-" int_part else int_part)
              ++ fraction ++ exponent),
       s2)
  end.

(** The integer part is [0], or a digit from 1 to 9 and more digits. *)
Definition scan_number (negative : bool) (s : string)
    : option (value * string) :=
  match s with
  | String c s' =>
      if Ascii.eqb c "0" then Some (finish_number negative "0" s')
      else if Py.is_digit c then
        let '(ds, rest) := span_digits s' in
        Some (finish_number negative (String c ds) rest)
      else None
  | EmptyString => None
  end.

(** [s] starts with [word]: what follows it. *)
Fixpoint strip_prefix (word s : string) : option string :=
  match word, s with
  | EmptyString, _ => Some s
  | String a word', String b s' =>
      if Ascii.eqb a b then strip_prefix word' s' else None
  | String _ _, EmptyString => None
  end.

(** The scanner.  [fuel] bounds the depth of the calls; the length of
    the text is always enough (see [loads]). *)
Fixpoint scan_value (fuel : nat) (s : string) : option (value * string) :=
  match fuel with
  | O => None
  | S fuel' =>
      match s with
      | EmptyString => None
      | String c s' =>
          if Ascii.eqb c quote then
            match scan_string s' with
            | Some (str, rest) => Some (Str str, rest)
            | None => None
            end
          else if Ascii.eqb c "{" then
            if starts_with "}" (skip_ws s') then
              Some (Obj [], tail (skip_ws s'))
            else
              match scan_members fuel' (skip_ws s') with
              | Some (members, rest) => Some (Obj members, rest)
              | None => None
              end
          else if Ascii.eqb c "[" then
            if starts_with "]" (skip_ws s') then
              Some (Arr [], tail (skip_ws s'))
            else
              match scan_items fuel' (skip_ws s') with
              | Some (items, rest) => Some (Arr items, rest)
              | None => None
              end
          else if Ascii.eqb c "n" then
            option_map (fun rest => (Null, rest)) (strip_prefix "ull" s')
          else if Ascii.eqb c "t" then
            option_map (fun rest => (Bool true, rest))
              (strip_prefix "rue" s')
          else if Ascii.eqb c "f" then
            option_map (fun rest => (Bool false, rest))
              (strip_prefix "alse" s')
          else if Ascii.eqb c "N" then
            option_map (fun rest => (Float "NaN", rest))
              (strip_prefix "aN" s')
          else if Ascii.eqb c "I" then
            option_map (fun rest => (Float "Infinity", rest))
              (strip_prefix "nfinity" s')
          else if Ascii.eqb c "-" then
            match scan_number true s' with
            | Some r => Some r
            | None =>
                option_map (fun rest => (Float "-Infinity", rest))
                  (strip_prefix "Infinity" s')
            end
          else scan_number false s
      end
  end

(** The items of an array from its first item on, to after the closing
    bracket. *)
with scan_items (fuel : nat) (s : string)
    : option (list value * string) :=
  match fuel with
  | O => None
  | S fuel' =>
      match scan_value fuel' s with
      | Some (v, rest) =>
          if starts_with "]" (skip_ws rest) then
            Some ([v], tail (skip_ws rest))
          else if starts_with "," (skip_ws rest) then
            match scan_items fuel' (skip_ws (tail (skip_ws rest))) with
            | Some (vs, rest') => Some (v :: vs, rest')
            | None => None
            end
          else None
      | None => None
      end
  end

(** The members of an object from the opening quote of its first key
    on, to after the closing brace. *)
with scan_members (fuel : nat) (s : string)
    : option (list (string * value) * string) :=
  match fuel with
  | O => None
  | S fuel' =>
      match s with
      | String c s' =>
          if Ascii.eqb c quote then
            match scan_string s' with
            | Some (key, rest) =>
                if starts_with ":" (skip_ws rest) then
                  match scan_value fuel' (skip_ws (tail (skip_ws rest))) with
                  | Some (v, rest') =>
                      if starts_with "}" (skip_ws rest') then
                        Some ([(key, v)], tail (skip_ws rest'))
                      else if starts_with "," (skip_ws rest') then
                        match scan_members fuel'
                                (skip_ws (tail (skip_ws rest'))) with
                        | Some (ms, rest'') => Some ((key, v) :: ms, rest'')
                        | None => None
                        end
                      else None
                  | None => None
                  end
                else None
            | None => None
            end
          else None
      | EmptyString => None
      end
  end.

(** [json.loads]: one value, white space around it allowed, nothing
    else.  The text of the exception is not modelled, nor are the
    limits of the interpreter: the depth of recursion (about 1000
    nested lists or dicts by default) and the 4300 digits of an integer,
    beyond which the library raises. *)
Definition loads (s : string) : result value :=
  match scan_value (S (String.length s)) (skip_ws s) with
  | Some (v, rest) =>
      match skip_ws rest with
      | EmptyString => Ok v
      | String _ _ => Raise (Exception "JSONDecodeError" "Extra data")
      end
  | None => Raise (Exception "JSONDecodeError" "Expecting value")
  end.

(** *** Vocabulary for statements about written values *)

(** A bound on the depth of the calls that read the value back. *)
Fixpoint size (v : value) : nat :=
  match v with
  | Arr items => S (list_sum (List.map (fun x => S (size x)) items))
  | Obj members =>
      S (list_sum (List.map (fun kv : string * value => S (size (snd kv)))
                     members))
  | _ => 1
  end.

(** The value holds no float. *)
Fixpoint float_free (v : value) : bool :=
  match v with
  | Float _ => false
  | Arr items => forallb float_free items
  | Obj members =>
      forallb (fun kv : string * value => float_free (snd kv)) members
  | _ => true
  end.

(** A character a written value can start with. *)
Definition value_start (c : ascii) : bool :=
  Ascii.eqb c quote || Ascii.eqb c "{" || Ascii.eqb c "["
  || Ascii.eqb c "n" || Ascii.eqb c "t" || Ascii.eqb c "f"
  || Ascii.eqb c "-" || Py.is_digit c.

(** What can follow a written value: nothing, a comma or a line break. *)
Definition follows (rest : string) : bool :=
  match rest with
  | EmptyString => true
  | String c _ => Ascii.eqb c "," || Ascii.eqb c newline
  end.

End Json.

(** ** The persisted result file *)

Module Persist.

(** The keys and values of a query result, in the order [query_llm]
    sets them. *)
Definition record_members (r : QueryResult.t) : list (string * Json.value) :=
  [ ("llm"%string, Json.Str (QueryResult.llm r));
    ("question"%string, Json.Str (QueryResult.question r));
    ("part"%string, Json.Int (QueryResult.part r));
    ("moral_foundation"%string, Json.Str (QueryResult.moral_foundation r));
    ("response"%string, Json.Str (QueryResult.response r));
    ("extracted_value"%string, Json.Int (QueryResult.extracted_value r));
    ("timestamp"%string, Json.Str (QueryResult.timestamp r)) ].

(** A query result as the dict [json.dump] writes. *)
Definition record_to_json (r : QueryResult.t) : Json.value :=
  Json.Obj (record_members r).

(** The text [save_results] writes to the JSON file:
    [json.dump(self.results, f, indent=2)]. *)
Definition save_results (results : list QueryResult.t) : string :=
  Json.dumps (Json.Arr (List.map record_to_json results)).

Definition get_str (members : list (string * Json.value)) (key : string)
    : option string :=
  match Json.get members key with
  | Some (Json.Str s) => Some s
  | _ => None
  end.

Definition get_int (members : list (string * Json.value)) (key : string)
    : option Z :=
  match Json.get members key with
  | Some (Json.Int z) => Some z
  | _ => None
  end.

(** One row of [pd.DataFrame(self.results)] for loaded data: a dict
    that gives every column of a query result a value of its type. *)
Definition record_of_json (v : Json.value) : option QueryResult.t :=
  match v with
  | Json.Obj members =>
      llm ← get_str members "llm";
      question ← get_str members "question";
      part ← get_int members "part";
      moral_foundation ← get_str members "moral_foundation";
      response ← get_str members "response";
      extracted_value ← get_int members "extracted_value";
      timestamp ← get_str members "timestamp";
      Some (QueryResult.Make llm question part moral_foundation response
              extracted_value timestamp)
  | _ => None
  end.

(** The rows of the frame built from loaded data.  Data that is no list
    of such dicts is not what [save_results] writes; it is outside the
    embedding and modelled as a raise. *)
Definition records_of_json (loaded : Json.value)
    : result (list QueryResult.t) :=
  match loaded with
  | Json.Arr items =>
      match mapM record_of_json items with
      | Some records => Ok records
      | None => Raise (Exception "ValueError" "not a list of query results")
      end
  | _ => Raise (Exception "ValueError" "not a list of query results")
  end.

(** [HTMLReportGenerator._load_data] on the text of the file at
    [json_path]. *)
Definition _load_data (text : string) : result Report.generator :=
  loaded ← Json.loads text;
  records ← records_of_json loaded;
  Report.load_results records.

(** The statistics the report shows for the file. *)
Definition statistics_of_file (text : string) : result Report.stats :=
  self ← _load_data text;
  Report._calculate_statistics self.

End Persist.

(** ** The dashboard index *)

Module Dashboard.

(** A file matched by [moral_foundations_results_*.json]: its path, its
    text and [datetime.fromtimestamp(os.path.getmtime(path)).isoformat()]. *)
Record file : Type := File {
  path : string;
  content : string;
  mtime : string
}.

Record entry : Type := Entry {
  filename : string;
  filepath : string;
  timestamp : option Json.value;
  llms : list string;
  llm_count : Z;
  foundations : list string;
  question_count : Z;
  total_responses : Z;
  valid_responses : Z;
  date_generated : string
}.

(** What the function prints. *)
Inductive line : Type :=
| Warning (json_file : string) (e : exn)
| Updated (reports : Z).

(** The mantissa of a float literal holds a digit other than 0; [NaN]
    and the infinities count as such.  Underflow to zero is not
    modelled. *)
Fixpoint mantissa_nonzero (literal : string) : bool :=
  match literal with
  | EmptyString => false
  | String c rest =>
      if Ascii.eqb c "e" || Ascii.eqb c "E" then false
      else if Ascii.eqb c "N" || Ascii.eqb c "I" then true
      else Py.between 49 57 c || mantissa_nonzero rest
  end.

(** [bool(v)] *)
Definition truthy (v : Json.value) : bool :=
  match v with
  | Json.Null => false
  | Json.Bool b => b
  | Json.Int z => negb (z =? 0)
  | Json.Float literal => mantissa_nonzero literal
  | Json.Str s => negb (String.eqb s "")
  | Json.Arr items => match items with [] => false | _ :: _ => true end
  | Json.Obj members => match members with [] => false | _ :: _ => true end
  end.

(** [for r in data] with [r] used as a dict: [data] is a list and every
    item a dict, or [TypeError] is raised. *)
Definition as_dict (v : Json.value) : result (list (string * Json.value)) :=
  match v with
  | Json.Obj members => Ok members
  | _ => Raise (Exception "TypeError" "indices must be integers")
  end.

Definition records (data : Json.value)
    : result (list (list (string * Json.value))) :=
  match data with
  | Json.Arr items => mapM as_dict items
  | _ => Raise (Exception "TypeError" "indices must be integers")
  end.

(** [r[key]] where a name is expected: [KeyError] without the key,
    [TypeError] for a list or a dict, which [set] cannot hold.  Other
    values that are no string are not what [save_results] writes; they
    are outside the embedding and modelled as a raise too. *)
Definition name_of (key : string) (r : list (string * Json.value))
    : result string :=
  match Json.get r key with
  | None => Raise (Exception "KeyError" key)
  | Some (Json.Str s) => Ok s
  | Some _ => Raise (Exception "TypeError" "unhashable or unorderable")
  end.

(** [r.get('extracted_value', -1) >= 0] *)
Definition is_valid (r : list (string * Json.value)) : result bool :=
  match Json.get r "extracted_value" with
  | None => Ok false
  | Some (Json.Int z) => Ok (0 <=? z)
  | Some (Json.Bool _) => Ok true
  | Some (Json.Float literal) =>
      Ok (match literal with
          | String "N" _ => false
          | String "-" _ => negb (mantissa_nonzero literal)
          | _ => true
          end)
  | Some _ => Raise (Exception "TypeError" "'>=' not supported")
  end.

(** [[r.get('timestamp') for r in data if r.get('timestamp')]] *)
Fixpoint timestamps (rs : list (list (string * Json.value)))
    : list Json.value :=
  match rs with
  | [] => []
  | r :: rs' =>
      match Json.get r "timestamp" with
      | Some v => if truthy v then v :: timestamps rs' else timestamps rs'
      | None => timestamps rs'
      end
  end.

(** [s.replace(old, new)] for single characters. *)
Fixpoint replace_char (old new : ascii) (s : string) : string :=
  match s with
  | EmptyString => EmptyString
  | String c s' =>
      String (if Ascii.eqb c old then new else c) (replace_char old new s')
  end.

(** [os.path.basename]: what follows the last slash.  [current] is what
    follows the last slash seen so far. *)
Fixpoint basename_from (current s : string) : string :=
  match s with
  | EmptyString => current
  | String c s' =>
      if Ascii.eqb c "/" then basename_from s' s' else basename_from current s'
  end.

Definition basename (s : string) : string := basename_from s s.

(** The body of the [try] for one file: the entry to append, or [None]
    when the loop goes on at once because the data is empty. *)
Definition process (f : file) : result (option entry) :=
  data ← Json.loads (content f);
  if negb (truthy data) then mret None
  else
    rs ← records data;
    llm_names ← mapM (name_of "llm") rs;
    let llms := Pandas.sorted (Pandas.unique llm_names) in
    foundation_names ← mapM (name_of "moral_foundation") rs;
    let foundations := Pandas.sorted (Pandas.unique foundation_names) in
    let timestamps := timestamps rs in
    validity ← mapM is_valid rs;
    let valid_responses := List.filter (fun b : bool => b) validity in
    let relative_path := String "/" (replace_char "\" "/" (path f)) in
    questions ← mapM (name_of "question") rs;
    mret (Some
            (Entry (basename (path f)) relative_path
               (head timestamps)
               llms (Z.of_nat (length llms))
               foundations
               (Z.of_nat (length (Pandas.unique questions)))
               (Z.of_nat (length rs))
               (Z.of_nat (length valid_responses))
               (mtime f))).

(** One turn of the loop over the files: the index and the printed
    lines so far. *)
Definition step (state : list entry * list line) (f : file)
    : list entry * list line :=
  let '(index, printed) := state in
  match process f with
  | Ok (Some e) => (index ++ [e], printed)
  | Ok None => (index, printed)
  | Raise e => (index, printed ++ [Warning (path f) e])
  end.

(** [sorted(json_files, reverse=True)] *)
Definition newest_first (files : list file) : list file :=
  merge_sort (fun a b => String.le (path b) (path a)) files.

(** The index written to [index.json] and the lines printed, for the
    files that [glob] finds. *)
Definition update_dashboard_index (files : list file)
    : list entry * list line :=
  let '(index, printed) := fold_left step (newest_first files) ([], []) in
  (index, printed ++ [Updated (Z.of_nat (length index))]).

(** What one file adds to the index, and the warning it causes. *)
Definition indexed (f : file) : option entry :=
  match process f with
  | Ok (Some e) => Some e
  | _ => None
  end.

Definition warned (f : file) : option line :=
  match process f with
  | Raise e => Some (Warning (path f) e)
  | Ok _ => None
  end.

(** The earliest of a list of timestamps in ISO format: the least in
    the order of strings. *)
Fixpoint earliest (ts : list string) : option string :=
  match ts with
  | [] => None
  | t :: ts' =>
      match earliest ts' with
      | Some m => Some (if String.leb t m then t else m)
      | None => Some t
      end
  end.

(** The timestamps of the records that carry one. *)
Definition stamps (results : list QueryResult.t) : list string :=
  List.filter (fun t => negb (String.eqb t ""))
    (List.map QueryResult.timestamp results).

(** The entry of a file that holds the list [results]. *)
Definition entry_of_results (f : file) (results : list QueryResult.t)
    : entry :=
  Entry (basename (path f))
    (String "/" (replace_char "\" "/" (path f)))
    (head (List.map Json.Str (stamps results)))
    (Aggregate.model_names results)
    (Z.of_nat (length (Aggregate.model_names results)))
    (Pandas.sorted
       (Pandas.unique (List.map QueryResult.moral_foundation results)))
    (Z.of_nat
       (length (Pandas.unique (List.map QueryResult.question results))))
    (Z.of_nat (length results))
    (Z.of_nat (length (List.filter Aggregate.valid results)))
    (mtime f).

(** A file as [save_results] writes it for a non-empty list of results. *)
Definition result_file (f : file) (results : list QueryResult.t) : Prop :=
  results <> [] /\ content f = Persist.save_results results.

End Dashboard.

(** ** More of Python's [str] and [int] *)

Module Str.

(** [s.lstrip()], [s.rstrip()] and [s.strip()] for the characters of the
    class [cls]. *)
Fixpoint lstrip_of (cls : ascii -> bool) (s : string) : string :=
  match s with
  | EmptyString => EmptyString
  | String c s' => if cls c then lstrip_of cls s' else s
  end.

Fixpoint rstrip_of (cls : ascii -> bool) (s : string) : string :=
  match s with
  | EmptyString => EmptyString
  | String c s' =>
      match rstrip_of cls s' with
      | EmptyString => if cls c then EmptyString else String c EmptyString
      | String c' t => String c (String c' t)
      end
  end.

Definition strip_of (cls : ascii -> bool) (s : string) : string :=
  rstrip_of cls (lstrip_of cls s).

(** [s.strip()]: the white space is that of [str.isspace]. *)
Definition strip (s : string) : string := strip_of Py.is_space s.

(** [s.startswith(prefix)] *)
Fixpoint startswith (prefix s : string) : bool :=
  match prefix, s with
  | EmptyString, _ => true
  | String a prefix', String b s' => Ascii.eqb a b && startswith prefix' s'
  | String _ _, EmptyString => false
  end.

(** [s[:n]] for [n >= 0] *)
Fixpoint take (n : nat) (s : string) : string :=
  match n, s with
  | S n', String c s' => String c (take n' s')
  | _, _ => EmptyString
  end.

(** [s.replace(old, new)] for a non-empty [old]: the occurrences of
    [old] are replaced from left to right, and an occurrence that
    overlaps a replaced one does not count.  [skip] is the number of
    characters of a replaced occurrence still to pass over. *)
Fixpoint replace_from (skip : nat) (old new s : string) : string :=
  match s with
  | EmptyString => EmptyString
  | String c s' =>
      match skip with
      | S skip' => replace_from skip' old new s'
      | O =>
          if startswith old s
          then (new ++ replace_from (String.length old - 1) old new s')%string
          else String c (replace_from 0 old new s')
      end
  end.

(** For an empty [old], [new] is put before every character and at the
    end. *)
Fixpoint interleave (new s : string) : string :=
  match s with
  | EmptyString => new
  | String c s' => (new ++ String c (interleave new s'))%string
  end.

Definition replace (old new s : string) : string :=
  match old with
  | EmptyString => interleave new s
  | String _ _ => replace_from 0 old new s
  end.

(** [c in s] for a character [c] *)
Fixpoint contains (c : ascii) (s : string) : bool :=
  match s with
  | EmptyString => false
  | String x s' => Ascii.eqb x c || contains c s'
  end.

(** [old in s] for a text [old] *)
Fixpoint occurs (old s : string) : bool :=
  startswith old s
  || match s with
     | EmptyString => false
     | String _ s' => occurs old s'
     end.

(** [str.isprintable] on one character *)
Definition isprintable (c : ascii) : bool :=
  negb (Py.between 0 31 c || Py.between 127 160 c || Py.between 173 173 c).

(** One character of [repr(s)] between the quotes [q]. *)
Definition repr_char (q c : ascii) : string :=
  let n := Py.code c in
  if Ascii.eqb c q || Ascii.eqb c "\" then String "\" (String c "")
  else if (n =? 9)%N then "\t"
  else if (n =? 10)%N then "\n"
  else if (n =? 13)%N then "\r"
  else if isprintable c then String c ""
  else String "\" (String "x"
         (String (Json.hex_digit (n / 16))
            (String (Json.hex_digit (n mod 16)) ""))).

Fixpoint repr_chars (q : ascii) (s : string) : string :=
  match s with
  | EmptyString => EmptyString
  | String c s' => (repr_char q c ++ repr_chars q s')%string
  end.

(** [repr(s)]: in single quotes, or in double quotes when the text holds
    a single quote and no double quote. *)
Definition repr (s : string) : string :=
  let q := if contains "'" s && negb (contains Json.quote s)
           then Json.quote else "'"%char in
  (String q (repr_chars q s) ++ String q "")%string.

(** The white space [int] passes over at both ends of its argument. *)
Definition int_space (c : ascii) : bool :=
  Py.between 9 13 c || Py.between 32 32 c || Py.between 133 133 c
  || Py.between 160 160 c.

(** The digits that follow a digit of a decimal literal, single
    underscores between digits allowed: the value, the number of digits
    and the rest of the text, or [None] where an underscore is not
    followed by a digit.  [acc] and [count] are the value and the number
    of the digits read so far. *)
Fixpoint scan_digits (acc : Z) (count : N) (s : string)
    : option (Z * N * string) :=
  match s with
  | EmptyString => Some (acc, count, s)
  | String c s' =>
      if Py.is_digit c
      then scan_digits (10 * acc + Py.int_of_digit c) (count + 1) s'
      else if Ascii.eqb c "_" then
        match s' with
        | String c' s'' =>
            if Py.is_digit c'
            then scan_digits (10 * acc + Py.int_of_digit c') (count + 1) s''
            else None
        | EmptyString => None
        end
      else Some (acc, count, s)
  end.

(** [int(s)] for a text [s], as of Python 3.11: white space at both
    ends, a sign, decimal digits; a text that is no such literal and a
    literal of more than 4300 digits raise [ValueError]. *)
Definition int (s : string) : result Z :=
  let invalid :=
    Raise (Exception "ValueError"
             ("invalid literal for int() with base 10: " ++ repr s)) in
  let t := strip_of int_space s in
  let '(negative, body) :=
    match t with
    | String c t' =>
        if Ascii.eqb c "-" then (true, t')
        else if Ascii.eqb c "+" then (false, t')
        else (false, t)
    | EmptyString => (false, t)
    end in
  match body with
  | String c body' =>
      if Py.is_digit c then
        match scan_digits (Py.int_of_digit c) 1 body' with
        | Some (value, count, rest) =>
            if (4300 <? count)%N then
              Raise (Exception "ValueError"
                       ("Exceeds the limit (4300 digits) for integer string conversion: value has "
                        ++ Json.digits count
                        ++ " digits; use sys.set_int_max_str_digits() to increase the limit"))
            else
              match rest with
              | EmptyString => Ok (if negative then - value else value)
              | String _ _ => invalid
              end
        | None => invalid
        end
      else invalid
  | EmptyString => invalid
  end.

End Str.

(** ** The constructor of the analyzer *)

Module Setup.

(** The chat models of the three libraries, as they are configured:
    the model, the temperature as it is written in the source, and the
    key read from the environment.  What the constructors of the
    libraries do with them is not part of the embedding. *)
Inductive chat_model : Type :=
| ChatOpenAI (model temperature : string) (api_key : option string)
| ChatAnthropic (model temperature : string) (api_key : option string)
| ChatGoogleGenerativeAI (model temperature : string)
    (google_api_key : option string).

(** The truth value of what [os.getenv] returns. *)
Definition is_set (v : option string) : bool :=
  match v with
  | Some (String _ _) => true
  | Some EmptyString | None => false
  end.

(** [_initialize_llms]: [getenv] is [os.getenv]; the result is the dict
    [llms], its items in the order of insertion. *)
Definition _initialize_llms (getenv : string -> option string)
    : result (list (string * chat_model)) :=
  let llms := [] in
  let llms :=
    if is_set (getenv "OPENAI_API_KEY") then
      llms ++ [ ("gpt-4"%string,
                 ChatOpenAI "gpt-4" "0.7" (getenv "OPENAI_API_KEY"));
                ("gpt-3.5-turbo"%string,
                 ChatOpenAI "gpt-3.5-turbo" "0.7"
                   (getenv "OPENAI_API_KEY")) ]
    else llms in
  let llms :=
    if is_set (getenv "ANTHROPIC_API_KEY") then
      llms ++ [ ("claude-sonnet-4"%string,
                 ChatAnthropic "claude-sonnet-4-20250514" "0.7"
                   (getenv "ANTHROPIC_API_KEY")) ]
    else llms in
  let llms :=
    if is_set (getenv "GOOGLE_API_KEY") then
      llms ++ [ ("gemini-2.5-pro"%string,
                 ChatGoogleGenerativeAI "gemini-2.5-pro" "0.7"
                   (getenv "GOOGLE_API_KEY")) ]
    else llms in
  match llms with
  | [] =>
      Raise (Exception "ValueError"
               "No API keys found. Please set at least one API key in .env file")
  | _ :: _ => Ok llms
  end.

(** [_load_prompt]: [read filename] is the text of the file, or the
    exception that [open] or [f.read] raises. *)
Definition _load_prompt (read : string -> result string) (filename : string)
    : result string :=
  text ← read filename;
  mret (Str.strip text).

(** [MoralFoundationsAnalyzer.__init__]; [connect] stands for the
    clients the libraries build.  The path of the data set is only
    stored and is left out. *)
Definition __init__ (read : string -> result string)
    (getenv : string -> option string)
    (connect : chat_model -> Analyzer.client) : result Analyzer.analyzer :=
  let questions := [] in
  part1_prompt ← _load_prompt read "moral_foundations_part1_prompt";
  part2_prompt ← _load_prompt read "moral_foundations_part2_prompt";
  let results := [] in
  llms ← _initialize_llms getenv;
  mret (Analyzer.MoralFoundationsAnalyzer part1_prompt part2_prompt
          questions
          (List.map (fun item : string * chat_model =>
                       (fst item, connect (snd item))) llms)
          results).

End Setup.

(** ** Loading the questions *)

Module Loader.

(** A row as [csv.DictReader] yields it: a value for every field of the
    header, [None] for a field the line is too short for.  What a line
    holds beyond the header goes under the key [None], which the loop
    does not read. *)
Definition row : Type := gmap string (option string).

(** [row[key]] *)
Definition getitem (r : row) (key : string) : result (option string) :=
  match r !! key with
  | Some v => Ok v
  | None => Raise (Exception "KeyError" (Str.repr key))
  end.

(** The dict built for one row; the foundation and the expected output
    are [None] when the line stops before them. *)
Record entry : Type := Entry {
  question : string;
  part : Z;
  moral_foundation : option string;
  expected_output : option string
}.

(** The body of the loop of [load_questions]. *)
Definition load_row (r : row) : result entry :=
  field ← getitem r "Question";
  text ← match field with
         | Some text => Ok text
         | None =>
             Raise (Exception "AttributeError"
                      "'NoneType' object has no attribute 'replace'")
         end;
  let question_text :=
    Str.strip (Str.replace (String Json.newline "") " " text) in
  part_field ← getitem r "Part";
  part ← match part_field with
         | Some part_text => Str.int part_text
         | None =>
             Raise (Exception "TypeError"
                      "int() argument must be a string, a bytes-like object or a real number, not 'NoneType'")
         end;
  moral ← getitem r "Moral";
  outputs ← getitem r "Outputs";
  mret (Entry question_text part moral outputs).

(** [load_questions] on the rows of the file: [questions] is
    [self.questions] before the call, the result is the list afterwards,
    which is what is returned. *)
Definition load_questions (questions : list entry) (rows : list row)
    : result (list entry) :=
  Exn.foldM (fun questions r => q ← load_row r; mret (questions ++ [q]))
    questions rows.

(** A loaded dict as a question of the query step, when the line gave a
    foundation and an expected output. *)
Definition to_question (e : entry) : option Question.t :=
  moral ← moral_foundation e;
  outputs ← expected_output e;
  Some (Question.Make (question e) (part e) moral outputs).

(** The choice of [main]: [typed] is what [input] returns. *)
Definition limit_map : list (string * option Z) :=
  [ ("1"%string, None); ("2"%string, Some 5); ("3"%string, Some 10) ].

Fixpoint get {V : Type} (d : list (string * V)) (key : string) (default : V)
    : V :=
  match d with
  | [] => default
  | (k, v) :: d' => if String.eqb k key then v else get d' key default
  end.

Definition limit_of_choice (typed : string) : option Z :=
  let choice :=
    match Str.strip typed with
    | EmptyString => "1"%string
    | String c s => String c s
    end in
  get limit_map choice None.

End Loader.

(** ** The tables and the question blocks of the HTML report *)

Module Html.

(** [generate_html]: the path the report is written to. *)
Definition output_path (json_path : string) (given : option string)
    : string :=
  match given with
  | None => Str.replace ".json" ".html" json_path
  | Some path => path
  end.

(** [name="value"] *)
Definition attr (name value : string) : string :=
  (name ++ "=" ++ String Json.quote value ++ String Json.quote "")%string.

(** [stats['by_llm_foundation'][llm]] *)
Definition row_of (st : Report.stats) (llm : string)
    : result (gmap string Z) :=
  match Report.by_llm_foundation st !! llm with
  | Some row => Ok row
  | None => Raise (Exception "KeyError" (Str.repr llm))
  end.

Definition _build_foundation_table (st : Report.stats) : result string :=
  let html := "<table><thead><tr><th>LLM</th>"%string in
  let html :=
    fold_left
      (fun html foundation => (html ++ "<th>" ++ foundation ++ "</th>")%string)
      (Report.foundations st) html in
  let html := (html ++ "</tr></thead><tbody>")%string in
  html ←
    Exn.foldM
      (fun html llm =>
         let html :=
           (html ++ "<tr><td><span " ++ attr "class" "llm-badge" ++ ">"
            ++ llm ++ "</span></td>")%string in
         html ←
           Exn.foldM
             (fun html foundation =>
                row ← row_of st llm;
                let score := default 0 (row !! foundation) in
                mret (html ++ "<td " ++ attr "class" "score-cell" ++ ">"
                      ++ Json.encode_int score ++ "</td>")%string)
             html (Report.foundations st);
         mret (html ++ "</tr>")%string)
      html (Report.llms st);
  mret (html ++ "</tbody></table>")%string.

(** The table written out for the models [ms], the foundations [fs] and
    the scores [score]. *)
Definition header_cells (fs : list string) : string :=
  foldr (fun f rest => ("<th>" ++ f ++ "</th>" ++ rest)%string) "" fs.

Definition score_cells (score : string -> Z) (fs : list string) : string :=
  foldr
    (fun f rest =>
       ("<td " ++ attr "class" "score-cell" ++ ">"
        ++ Json.encode_int (score f) ++ "</td>" ++ rest)%string)
    "" fs.

Definition table_rows (score : string -> string -> Z) (ms fs : list string)
    : string :=
  foldr
    (fun m rest =>
       ("<tr><td><span " ++ attr "class" "llm-badge" ++ ">" ++ m
        ++ "</span></td>" ++ score_cells (score m) fs ++ "</tr>"
        ++ rest)%string)
    "" ms.

Definition table_of (score : string -> string -> Z) (ms fs : list string)
    : string :=
  ("<table><thead><tr><th>LLM</th>" ++ header_cells fs
   ++ "</tr></thead><tbody>" ++ table_rows score ms fs
   ++ "</tbody></table>")%string.

(** A value of [questions_dict] in [_build_detailed_responses]. *)
Record group : Type := Group {
  moral_foundation : string;
  part : Z;
  responses : list QueryResult.t
}.

(** [questions_dict]: a dict from question texts to groups, its items
    in the order of insertion. *)
Definition questions : Type := list (string * group).

(** [q in questions_dict] *)
Fixpoint has_key (q : string) (d : questions) : bool :=
  match d with
  | [] => false
  | (k, _) :: d' => String.eqb k q || has_key q d'
  end.

(** [questions_dict[q]['responses'].append(result)] *)
Fixpoint append_response (q : string) (result : QueryResult.t)
    (d : questions) : questions :=
  match d with
  | [] => []
  | (k, g) :: d' =>
      if String.eqb k q
      then (k, Group (moral_foundation g) (part g) (responses g ++ [result]))
           :: d'
      else (k, g) :: append_response q result d'
  end.

(** The body of the loop that groups the responses by question. *)
Definition group_step (d : questions) (result : QueryResult.t) : questions :=
  let q := QueryResult.question result in
  let d :=
    if has_key q d then d
    else d ++ [(q, Group (QueryResult.moral_foundation result)
                     (QueryResult.part result) [])] in
  append_response q result d.

Definition questions_dict (results : list QueryResult.t) : questions :=
  fold_left group_step results [].

(** [sorted(responses, key=lambda x: x['llm'])]: records with the same
    model keep their order. *)
Fixpoint insert_by_llm (r : QueryResult.t) (l : list QueryResult.t)
    : list QueryResult.t :=
  match l with
  | [] => [r]
  | x :: l' =>
      if String.leb (QueryResult.llm r) (QueryResult.llm x)
      then r :: x :: l'
      else x :: insert_by_llm r l'
  end.

Definition sorted_by_llm (l : list QueryResult.t) : list QueryResult.t :=
  foldr insert_by_llm [] l.

(** [question[:100] + '...' if len(question) > 100 else question] *)
Definition question_short (question : string) : string :=
  if (100 <? String.length question)%nat
  then (Str.take 100 question ++ "...")%string
  else question.

(** What the block of one response shows: the model, the class and the
    text of the value badge, the response and the timestamp. *)
Record card : Type := Card {
  llm : string;
  val_class : string;
  value : string;
  response : string;
  timestamp : string
}.

Definition card_of (response : QueryResult.t) : card :=
  let extracted_val := QueryResult.extracted_value response in
  Card (QueryResult.llm response)
    (if 0 <=? extracted_val then "valid-value" else "invalid-value")
    (if 0 <=? extracted_val then Json.encode_int extracted_val else "N/A")
    (QueryResult.response response)
    (QueryResult.timestamp response).

(** What the block of one question shows: its number, the tags of the
    foundation and of the part, the shortened and the full question, and
    the blocks of the responses. *)
Record item : Type := Item {
  number : Z;
  foundation_tag : string;
  part_tag : Z;
  question_text : string;
  full_question : string;
  cards : list card
}.

(** The blocks [_build_detailed_responses] renders, in their order.
    The markup around them is not part of the embedding. *)
Definition detailed_responses (results : list QueryResult.t) : list item :=
  imap
    (fun idx (entry : string * group) =>
       let '(question, data) := entry in
       Item (Z.of_nat idx + 1) (moral_foundation data) (part data)
         (question_short question) question
         (List.map card_of (sorted_by_llm (responses data))))
    (questions_dict results).

(** The group of the question [q] a list of results comes to. *)
Definition group_of (results : list QueryResult.t) (q : string) : group :=
  let rs :=
    List.filter (fun r => String.eqb (QueryResult.question r) q) results in
  Group
    (from_option QueryResult.moral_foundation "" (head rs))
    (from_option QueryResult.part 0 (head rs))
    rs.

End Html.

(** ** Vocabulary for statements about labeled ratings *)

Module Labels.

(** [a], [sep], [d], [b] is the leftmost place of the text [t] where
    [label] is followed by the colons and white space [sep] and the
    digit [d] in 0-5. *)
Definition leftmost_labeled (label t a sep : string) (d : ascii)
    (b : string) : Prop :=
  t = (a ++ label ++ sep ++ String d b)%string
  /\ sep <> EmptyString
  /\ Text.all_chars Scorer.colon_or_space sep = true
  /\ Scorer.digit05 d = true
  /\ forall a' sep' d' b',
       t = (a' ++ label ++ sep' ++ String d' b')%string ->
       sep' <> EmptyString ->
       Text.all_chars Scorer.colon_or_space sep' = true ->
       Scorer.digit05 d' = true ->
       (String.length a <= String.length a')%nat.

End Labels.

(** ** Vocabulary for statements about files *)

Module Bounded.

(** The keys of a dict are distinct. *)
Fixpoint distinct (keys : list string) : bool :=
  match keys with
  | [] => true
  | k :: rest => negb (existsb (String.eqb k) rest) && distinct rest
  end.

(** A value well within what the interpreter writes and reads with its
    default limits: lists and dicts nested at most [depth] deep, dicts
    with distinct keys, integers of at most 4300 digits, no float. *)
Fixpoint value (depth : nat) (v : Json.value) {struct depth} : bool :=
  match v with
  | Json.Null | Json.Bool _ | Json.Str _ => true
  | Json.Int z => Z.abs z <? 10 ^ 4300
  | Json.Float _ => false
  | Json.Arr items =>
      match depth with
      | O => false
      | S depth' => forallb (value depth') items
      end
  | Json.Obj members =>
      match depth with
      | O => false
      | S depth' =>
          distinct (List.map fst members)
          && forallb (fun kv : string * Json.value => value depth' (snd kv))
               members
      end
  end.

(** A record of a result file whose model, foundation and question are
    texts. *)
Definition named_record (v : Json.value) : Prop :=
  exists members llm foundation question,
    v = Json.Obj members
    /\ Json.get members "llm" = Some (Json.Str llm)
    /\ Json.get members "moral_foundation" = Some (Json.Str foundation)
    /\ Json.get members "question" = Some (Json.Str question).

End Bounded.

(* ===================================================================== *)
(** * Part II: properties *)
(* ===================================================================== *)

(** ** Characters *)

Ltac each_char c :=
  destruct c as [[] [] [] [] [] [] [] []]; vm_compute; try reflexivity;
  try discriminate; auto.

Lemma lower_char_word (c : ascii) :
  Py.is_word (Py.lower_char c) = Py.is_word c.
Proof. each_char c. Qed.

Lemma lower_char_digit (c : ascii) :
  Py.is_digit (Py.lower_char c) = Py.is_digit c.
Proof. each_char c. Qed.

Lemma lower_char_digit_fix (c : ascii) :
  Py.is_digit c = true -> Py.lower_char c = c.
Proof. each_char c. Qed.

Lemma digit05_digit (c : ascii) :
  Scorer.digit05 c = true -> Py.is_digit c = true.
Proof. each_char c. Qed.

Lemma digit_word (c : ascii) : Py.is_digit c = true -> Py.is_word c = true.
Proof. each_char c. Qed.

Lemma digit05_value (c : ascii) :
  Scorer.digit05 c = true -> 0 <= Py.int_of_digit c <= 5.
Proof.
  destruct c as [[] [] [] [] [] [] [] []]; intros H;
    try (vm_compute in H; discriminate H);
    vm_compute; split; discriminate.
Qed.

Lemma digit_not_sep (c : ascii) :
  Scorer.digit05 c = true -> Scorer.colon_or_space c = false.
Proof. each_char c. Qed.

Lemma lower_char_digit05 (c : ascii) :
  Scorer.digit05 (Py.lower_char c) = Scorer.digit05 c.
Proof. each_char c. Qed.

Lemma digit05_word (c : ascii) :
  Scorer.digit05 c = true -> Py.is_word c = true.
Proof. intros H. apply digit_word, digit05_digit, H. Qed.

(** ** Strings *)

Lemma app_nil_l (s : string) : ("" ++ s)%string = s.
Proof. reflexivity. Qed.

Lemma app_cons (c : ascii) (a b : string) :
  (String c a ++ b)%string = String c (a ++ b)%string.
Proof. reflexivity. Qed.

Lemma app_assoc_s (a b c : string) :
  ((a ++ b) ++ c)%string = (a ++ (b ++ c))%string.
Proof.
  induction a as [|x a IH]; [reflexivity|].
  rewrite !app_cons, IH. reflexivity.
Qed.

Lemma lower_app (a b : string) :
  Py.lower (a ++ b)%string = (Py.lower a ++ Py.lower b)%string.
Proof.
  induction a as [|x a IH]; [reflexivity|].
  rewrite app_cons. simpl. rewrite IH, app_cons. reflexivity.
Qed.

Lemma last_or_lower_word (prev : option ascii) (s : string) :
  Re.word_opt (Text.last_or (option_map Py.lower_char prev) (Py.lower s))
  = Re.word_opt (Text.last_or prev s).
Proof.
  revert prev. induction s as [|x s IH]; intros prev; simpl.
  - destruct prev; simpl; [apply lower_char_word | reflexivity].
  - apply (IH (Some x)).
Qed.

Lemma first_char_lower_word (s : string) :
  Re.word_opt (Re.first_char (Py.lower s)) = Re.word_opt (Re.first_char s).
Proof. destruct s; simpl; [reflexivity | apply lower_char_word]. Qed.

(** ** The matcher *)

(** Whatever a match returns was returned by the continuation. *)
Lemma many1_post {R : Type} (cls : ascii -> bool)
    (k : option ascii -> string -> option R) (Q : R -> Prop) :
  (forall prev s r, k prev s = Some r -> Q r) ->
  forall s r, Re.many1 cls k s = Some r -> Q r.
Proof.
  intros Hk s. induction s as [|c s IH]; intros r; simpl; [discriminate|].
  destruct (cls c); [|discriminate].
  destruct (Re.many1 cls k s) as [r'|] eqn:E.
  - intros [= <-]. apply (IH r' eq_refl).
  - apply Hk.
Qed.

Lemma match_atoms_post {R : Type} (atoms : list Re.atom) (Q : R -> Prop) :
  forall (k : option ascii -> string -> option R),
  (forall prev s r, k prev s = Some r -> Q r) ->
  forall prev s r, Re.match_atoms atoms k prev s = Some r -> Q r.
Proof.
  induction atoms as [|a atoms IH]; intros k Hk prev s r; simpl.
  - apply Hk.
  - destruct a as [c|cls|cls|].
    + destruct s as [|x s]; [discriminate|].
      destruct (Ascii.eqb x c); [|discriminate]. apply (IH k Hk).
    + destruct s as [|x s]; [discriminate|].
      destruct (cls x); [|discriminate]. apply (IH k Hk).
    + apply many1_post. intros prev' s' r'. apply (IH k Hk).
    + destruct (Re.at_boundary prev s); [|discriminate]. apply (IH k Hk).
Qed.

(** The group of a match holds a character of the group's set. *)
Lemma match_here_group (p : Re.pattern) (prev : option ascii) (s : string)
    (g : ascii) :
  Re.match_here p prev s = Some g -> Re.group p g = true.
Proof.
  unfold Re.match_here.
  apply (match_atoms_post (Re.before p) (fun g => Re.group p g = true)).
  intros prev' s' r. destruct s' as [|x s'']; [discriminate|].
  destruct (Re.group p x) eqn:Hg; [|discriminate].
  intros H.
  assert (r = x) as ->; [|exact Hg].
  revert H. apply (match_atoms_post (Re.after p) (fun r => r = x)).
  intros _ _ r' [= <-]. reflexivity.
Qed.

Lemma search_from_group (p : Re.pattern) (s : string) :
  forall prev g, Re.search_from p prev s = Some g -> Re.group p g = true.
Proof.
  induction s as [|c s IH]; intros prev g; simpl.
  - destruct (Re.match_here p prev "") eqn:E; [|discriminate].
    intros [= <-]. eapply match_here_group, E.
  - destruct (Re.match_here p prev (String c s)) eqn:E.
    + intros [= <-]. eapply match_here_group, E.
    + apply IH.
Qed.

(** Rule 1 at one position. *)
Lemma match_here_bare (prev : option ascii) (s : string) :
  Re.match_here Scorer.bare_digit prev s
  = match s with
    | EmptyString => None
    | String x s' =>
        if Scorer.digit05 x && negb (Re.word_opt prev)
           && negb (Re.word_opt (Re.first_char s'))
        then Some x else None
    end.
Proof.
  unfold Re.match_here. simpl. destruct s as [|x s'].
  - destruct (Re.at_boundary prev ""); reflexivity.
  - unfold Re.at_boundary. simpl.
    destruct (Scorer.digit05 x) eqn:Hx.
    + rewrite (digit05_word x Hx). simpl.
      destruct (Re.word_opt prev); simpl; [reflexivity|].
      destruct (Re.word_opt (Re.first_char s')); reflexivity.
    + simpl. destruct (xorb _ _); reflexivity.
Qed.

(** Rule 1 finds the leftmost standalone digit. *)
Lemma search_bare_leftmost (pre : string) :
  forall (prev : option ascii) (d : ascii) (post : string),
  Scorer.digit05 d = true ->
  Re.word_opt (Text.last_or prev pre) = false ->
  Re.word_opt (Re.first_char post) = false ->
  (forall pre' d' post',
     (pre ++ String d post)%string = (pre' ++ String d' post')%string ->
     Scorer.digit05 d' = true ->
     Re.word_opt (Text.last_or prev pre') = false ->
     Re.word_opt (Re.first_char post') = false ->
     (String.length pre <= String.length pre')%nat) ->
  Re.search_from Scorer.bare_digit prev (pre ++ String d post)%string
  = Some d.
Proof.
  induction pre as [|c pre IH]; intros prev d post Hd Hl Hr Hmin.
  - rewrite app_nil_l. simpl. rewrite match_here_bare.
    simpl in Hl. rewrite Hd, Hl, Hr. reflexivity.
  - rewrite app_cons.
    change (Re.search_from Scorer.bare_digit prev
              (String c (pre ++ String d post)%string))
      with (match Re.match_here Scorer.bare_digit prev
                    (String c (pre ++ String d post)%string) with
            | Some g => Some g
            | None => Re.search_from Scorer.bare_digit (Some c)
                        (pre ++ String d post)%string
            end).
    rewrite match_here_bare.
    destruct (Scorer.digit05 c && negb (Re.word_opt prev)
              && negb (Re.word_opt
                         (Re.first_char (pre ++ String d post)%string)))
      eqn:E.
    + apply andb_prop in E as [E E3]. apply andb_prop in E as [E1 E2].
      apply negb_true_iff in E2, E3.
      specialize (Hmin EmptyString c (pre ++ String d post)%string
                    eq_refl E1 E2 E3).
      simpl in Hmin. lia.
    + apply IH; auto.
      intros pre' d' post' Heq Hd' Hl' Hr'.
      specialize (Hmin (String c pre') d' post').
      rewrite !app_cons, Heq in Hmin.
      specialize (Hmin eq_refl Hd' Hl' Hr'). simpl in Hmin. lia.
Qed.

(** A match of rule 1 is a standalone digit of the text. *)
Lemma search_bare_sound (s : string) :
  forall (prev : option ascii) (g : ascii),
  Re.search_from Scorer.bare_digit prev s = Some g ->
  exists pre post,
    s = (pre ++ String g post)%string
    /\ Scorer.digit05 g = true
    /\ Re.word_opt (Text.last_or prev pre) = false
    /\ Re.word_opt (Re.first_char post) = false.
Proof.
  induction s as [|c s IH]; intros prev g; simpl;
    rewrite match_here_bare; [discriminate|].
  destruct (Scorer.digit05 c && negb (Re.word_opt prev)
            && negb (Re.word_opt (Re.first_char s))) eqn:E.
  - intros [= <-].
    apply andb_prop in E as [E E3]. apply andb_prop in E as [E1 E2].
    apply negb_true_iff in E2, E3.
    exists EmptyString, s. rewrite app_nil_l. auto.
  - intros H. destruct (IH _ _ H) as (pre & post & -> & Hd & Hl & Hr).
    exists (String c pre), post. rewrite app_cons. auto.
Qed.

(** The literal characters of a pattern are a prefix of the text. *)
Lemma match_lits {R : Type} (l : string) (rest : list Re.atom)
    (k : option ascii -> string -> option R) :
  forall prev s r,
  Re.match_atoms (Re.lits l ++ rest) k prev s = Some r ->
  exists s',
    s = (l ++ s')%string
    /\ Re.match_atoms rest k (Text.last_or prev l) s' = Some r.
Proof.
  induction l as [|c l IH]; intros prev s r H.
  - exists s. split; [reflexivity | exact H].
  - change (Re.lits (String c l) ++ rest)
      with (Re.Lit c :: (Re.lits l ++ rest)) in H.
    simpl in H. destruct s as [|x s]; [discriminate|].
    destruct (Ascii.eqb x c) eqn:E; [|discriminate].
    apply Ascii.eqb_eq in E as ->.
    destruct (IH _ _ _ H) as (s' & -> & H').
    exists s'. rewrite app_cons. split; [reflexivity | exact H'].
Qed.

(** A greedy run is a non-empty run of characters of the set. *)
Lemma many1_run {R : Type} (cls : ascii -> bool)
    (k : option ascii -> string -> option R) :
  forall s r,
  Re.many1 cls k s = Some r ->
  exists sep s' prev',
    s = (sep ++ s')%string
    /\ sep <> EmptyString
    /\ Text.all_chars cls sep = true
    /\ k prev' s' = Some r.
Proof.
  induction s as [|c s IH]; intros r; simpl; [discriminate|].
  destruct (cls c) eqn:Hc; [|discriminate].
  destruct (Re.many1 cls k s) as [r'|] eqn:E.
  - intros [= <-].
    destruct (IH r' eq_refl) as (sep & s' & prev' & -> & Hne & Hall & Hk).
    exists (String c sep), s', prev'. rewrite app_cons. simpl.
    rewrite Hc, Hall. repeat split; try done.
  - intros Hk. exists (String c EmptyString), s, (Some c).
    simpl. rewrite Hc. repeat split; try done.
Qed.

Lemma match_here_labeled (label : string) (prev : option ascii)
    (t : string) (g : ascii) :
  Re.match_here (Scorer.labeled label) prev t = Some g ->
  exists sep b,
    t = (label ++ sep ++ String g b)%string
    /\ sep <> EmptyString
    /\ Text.all_chars Scorer.colon_or_space sep = true
    /\ Scorer.digit05 g = true.
Proof.
  unfold Re.match_here. simpl Re.before. simpl Re.after. simpl Re.group.
  intros H. apply match_lits in H as (s' & -> & H).
  simpl in H.
  apply many1_run in H as (sep & s'' & prev' & -> & Hne & Hall & H).
  destruct s'' as [|x b]; [discriminate|].
  destruct (Scorer.digit05 x) eqn:Hx; [|discriminate].
  injection H as <-.
  exists sep, b. auto.
Qed.

(** A match of a labeled rule is a labeled digit of the text. *)
Lemma search_labeled_sound (label : string) (t : string) :
  forall (prev : option ascii) (g : ascii),
  Re.search_from (Scorer.labeled label) prev t = Some g ->
  Text.labeled_digit label t g.
Proof.
  induction t as [|c t IH]; intros prev g; simpl.
  - destruct (Re.match_here (Scorer.labeled label) prev "") eqn:E;
      [|discriminate].
    intros [= <-].
    apply match_here_labeled in E as (sep & b & E & Hne & Hall & Hg).
    exists EmptyString, sep, b. rewrite app_nil_l. auto.
  - destruct (Re.match_here (Scorer.labeled label) prev (String c t)) eqn:E.
    + intros [= <-].
      apply match_here_labeled in E as (sep & b & E & Hne & Hall & Hg).
      exists EmptyString, sep, b. rewrite app_nil_l. auto.
    + intros H. destruct (IH _ _ H) as (a & sep & b & -> & Hne & Hall & Hg).
      exists (String c a), sep, b. rewrite app_cons. auto.
Qed.

(** ** Numbers written in a text *)

Lemma digit_runs_lower (s : string) :
  Text.digit_runs (Py.lower s) = Text.digit_runs s.
Proof.
  induction s as [|c s IH]; [reflexivity|].
  simpl. rewrite lower_char_digit.
  destruct (Py.is_digit c) eqn:Hc; [|exact IH].
  rewrite (lower_char_digit_fix c Hc).
  destruct s as [|c' s']; [reflexivity|].
  simpl Py.lower. cbv iota. rewrite lower_char_digit.
  destruct (Py.is_digit c') eqn:Hc'.
  - change (String (Py.lower_char c') (Py.lower s'))
      with (Py.lower (String c' s')).
    rewrite IH. reflexivity.
  - change (String (Py.lower_char c') (Py.lower s'))
      with (Py.lower (String c' s')).
    rewrite IH. reflexivity.
Qed.

Lemma digit_runs_head (c : ascii) (s : string) :
  Py.is_digit c = true -> Text.digit_runs (String c s) <> [].
Proof.
  intros Hc. simpl. rewrite Hc. destruct s as [|c' s']; [discriminate|].
  destruct (Py.is_digit c'); [|discriminate].
  destruct (Text.digit_runs (String c' s')); discriminate.
Qed.

(** Cutting a text after a character that is no digit cuts no run. *)
Lemma digit_runs_app (a b : string) :
  Text.digit_opt (Text.last_or None a) = false ->
  Text.digit_runs (a ++ b)%string = Text.digit_runs a ++ Text.digit_runs b.
Proof.
  induction a as [|c a IH]; intros Hl; [reflexivity|].
  rewrite app_cons.
  destruct a as [|c' a'].
  - simpl in Hl. rewrite app_nil_l. simpl. rewrite Hl. reflexivity.
  - assert (Ha : Text.digit_opt (Text.last_or None (String c' a')) = false)
      by exact Hl.
    specialize (IH Ha). rewrite app_cons in IH |- *.
    change (Text.digit_runs (String c (String c' (a' ++ b)%string)))
      with (if Py.is_digit c then
              if Py.is_digit c' then
                match Text.digit_runs (String c' (a' ++ b)%string) with
                | r :: rs => String c r :: rs
                | [] => [String c EmptyString]
                end
              else String c EmptyString
                   :: Text.digit_runs (String c' (a' ++ b)%string)
            else Text.digit_runs (String c' (a' ++ b)%string)).
    change (Text.digit_runs (String c (String c' a')))
      with (if Py.is_digit c then
              if Py.is_digit c' then
                match Text.digit_runs (String c' a') with
                | r :: rs => String c r :: rs
                | [] => [String c EmptyString]
                end
              else String c EmptyString :: Text.digit_runs (String c' a')
            else Text.digit_runs (String c' a')).
    rewrite IH.
    destruct (Py.is_digit c); [|reflexivity].
    destruct (Py.is_digit c') eqn:Hc'; [|reflexivity].
    pose proof (digit_runs_head c' a' Hc') as Hne.
    destruct (Text.digit_runs (String c' a')); [contradiction|reflexivity].
Qed.

(** A digit with no digit next to it is a run of its own. *)
Lemma digit_runs_single (pre : string) (d : ascii) (post : string) :
  Py.is_digit d = true ->
  Text.digit_opt (Text.last_or None pre) = false ->
  Text.digit_opt (Re.first_char post) = false ->
  In (String d EmptyString) (Text.digit_runs (pre ++ String d post)%string).
Proof.
  intros Hd Hl Hr. rewrite digit_runs_app by exact Hl.
  apply in_or_app. right. simpl. rewrite Hd.
  destruct post as [|c post]; [left; reflexivity|].
  simpl in Hr. rewrite Hr. left. reflexivity.
Qed.

Lemma word_opt_digit_opt (c : option ascii) :
  Re.word_opt c = false -> Text.digit_opt c = false.
Proof.
  destruct c as [x|]; simpl; [|reflexivity].
  intros H. destruct (Py.is_digit x) eqn:E; [|reflexivity].
  rewrite (digit_word x E) in H. discriminate.
Qed.

Lemma all_chars_app (cls : ascii -> bool) (a b : string) :
  Text.all_chars cls (a ++ b)%string
  = Text.all_chars cls a && Text.all_chars cls b.
Proof.
  induction a as [|x a IH]; [reflexivity|].
  rewrite app_cons. simpl. rewrite IH. apply andb_assoc.
Qed.

Lemma all_chars_lower_no05 (s : string) :
  Text.all_chars (fun c => negb (Scorer.digit05 c)) (Py.lower s)
  = Text.all_chars (fun c => negb (Scorer.digit05 c)) s.
Proof.
  induction s as [|x s IH]; [reflexivity|].
  simpl. rewrite lower_char_digit05, IH. reflexivity.
Qed.

(** ** The response scorer *)

Lemma extract_unfold (s : string) :
  Scorer._extract_numeric_value s
  = match Re.search Scorer.bare_digit (Py.lower s) with
    | Some g => Py.int_of_digit g
    | None =>
        match Re.search (Scorer.labeled "rating") (Py.lower s) with
        | Some g => Py.int_of_digit g
        | None =>
            match Re.search (Scorer.labeled "score") (Py.lower s) with
            | Some g => Py.int_of_digit g
            | None =>
                match Re.search (Scorer.labeled "value") (Py.lower s) with
                | Some g => Py.int_of_digit g
                | None => -1
                end
            end
        end
    end.
Proof. reflexivity. Qed.

Lemma patterns_group (p : Re.pattern) :
  In p Scorer.patterns -> Re.group p = Scorer.digit05.
Proof.
  unfold Scorer.patterns. simpl.
  intros [<-|[<-|[<-|[<-|[]]]]]; reflexivity.
Qed.

Lemma first_match_range (ps : list Re.pattern) (t : string) :
  (forall p, In p ps -> Re.group p = Scorer.digit05) ->
  Scorer.first_match ps t = -1 \/ 0 <= Scorer.first_match ps t <= 5.
Proof.
  induction ps as [|p ps IH]; intros Hg; simpl; [left; reflexivity|].
  destruct (Re.search p t) as [g|] eqn:E.
  - right. apply digit05_value. rewrite <- (Hg p (or_introl eq_refl)).
    eapply search_from_group, E.
  - apply IH. intros q Hq. apply Hg. right. exact Hq.
Qed.

Lemma first_match_none (ps : list Re.pattern) (t : string) :
  (forall p, In p ps -> Re.group p = Scorer.digit05) ->
  Scorer.first_match ps t = -1 <->
  (forall p, In p ps -> Re.search p t = None).
Proof.
  induction ps as [|p ps IH]; intros Hg; simpl.
  - split; [intros _ p [] | reflexivity].
  - assert (Hg' : forall q, In q ps -> Re.group q = Scorer.digit05)
      by (intros q Hq; apply Hg; right; exact Hq).
    destruct (Re.search p t) as [g|] eqn:E.
    + split.
      * intros H. exfalso.
        assert (Hd : Scorer.digit05 g = true).
        { rewrite <- (Hg p (or_introl eq_refl)).
          eapply search_from_group, E. }
        apply digit05_value in Hd. lia.
      * intros H. specialize (H p (or_introl eq_refl)). congruence.
    + rewrite (IH Hg'). split.
      * intros H q [<-|Hq]; [exact E | apply H, Hq].
      * intros H q Hq. apply H. right. exact Hq.
Qed.

(** The leftmost standalone digit decides, whatever else the text holds. *)
Lemma extract_leftmost_lowered (s pre : string) (d : ascii) (post : string) :
  Text.leftmost_standalone (Py.lower s) pre d post ->
  Scorer._extract_numeric_value s = Py.int_of_digit d.
Proof.
  intros (E & (Hd & Hl & Hr) & Hmin).
  rewrite extract_unfold. unfold Re.search. rewrite E.
  rewrite search_bare_leftmost; [reflexivity | exact Hd | exact Hl | exact Hr |].
  intros pre' d' post' Heq Hd' Hl' Hr'.
  apply (Hmin pre' d' post'); [rewrite E; exact Heq|].
  repeat split; assumption.
Qed.

(** A character of the text before the cut lies in the part before it. *)
Lemma split_before (pre : string) :
  forall (d : ascii) (post pre' : string) (d' : ascii) (post' : string),
  (pre ++ String d post)%string = (pre' ++ String d' post')%string ->
  (String.length pre' < String.length pre)%nat ->
  exists rest, pre = (pre' ++ String d' rest)%string.
Proof.
  induction pre as [|c pre IH]; intros d post pre' d' post' Heq Hlt;
    simpl in Hlt; [lia|].
  destruct pre' as [|c' pre'].
  - rewrite app_nil_l, app_cons in Heq. injection Heq as -> _.
    exists pre. reflexivity.
  - rewrite !app_cons in Heq. injection Heq as -> Heq. simpl in Hlt.
    destruct (IH _ _ _ _ _ Heq) as (rest & ->); [lia|].
    exists rest. reflexivity.
Qed.

Lemma int_of_digit_inj (c c' : ascii) :
  Py.int_of_digit c = Py.int_of_digit c' -> c = c'.
Proof.
  unfold Py.int_of_digit, Py.code. intros H.
  assert (E : N_of_ascii c = N_of_ascii c') by lia.
  rewrite <- (ascii_N_embedding c), <- (ascii_N_embedding c'), E.
  reflexivity.
Qed.

Lemma run_value_single (d : ascii) :
  Text.run_value (String d EmptyString) = Py.int_of_digit d.
Proof. unfold Text.run_value. simpl. lia. Qed.

(** No standalone digit 0-5 among numbers that are all above 5. *)
Lemma bare_none_of_numbers (s : string) :
  Text.numbers_above_5 s ->
  Re.search Scorer.bare_digit (Py.lower s) = None.
Proof.
  intros Hn. unfold Re.search.
  destruct (Re.search_from Scorer.bare_digit None (Py.lower s)) as [g|] eqn:E;
    [exfalso | reflexivity].
  apply search_bare_sound in E as (pre & post & E & Hg & Hl & Hr).
  pose proof (digit_runs_single pre g post (digit05_digit g Hg)
                (word_opt_digit_opt _ Hl) (word_opt_digit_opt _ Hr)) as Hin.
  rewrite <- E, digit_runs_lower in Hin.
  unfold Text.numbers_above_5 in Hn. rewrite Forall_forall in Hn.
  apply list_elem_of_In in Hin.
  specialize (Hn _ Hin). rewrite run_value_single in Hn.
  apply digit05_value in Hg. lia.
Qed.

(** What holds for every character of a text holds for each one. *)
Lemma all_chars_split (cls : ascii -> bool) (a : string) (x : ascii)
    (b : string) :
  Text.all_chars cls (a ++ String x b)%string = true -> cls x = true.
Proof.
  rewrite all_chars_app. simpl. intros H.
  apply andb_prop in H as [_ H]. apply andb_prop in H as [H _]. exact H.
Qed.

Lemma labeled_digit_no05 (label t : string) (d : ascii) :
  Text.all_chars (fun c => negb (Scorer.digit05 c)) t = true ->
  ~ Text.labeled_digit label t d.
Proof.
  intros Hall (a & sep & b & -> & _ & _ & Hd).
  rewrite <- !app_assoc_s in Hall.
  apply all_chars_split in Hall. rewrite Hd in Hall. discriminate.
Qed.

Lemma bare_none_of_no05 (t : string) :
  Text.all_chars (fun c => negb (Scorer.digit05 c)) t = true ->
  Re.search Scorer.bare_digit t = None.
Proof.
  intros Hall. unfold Re.search.
  destruct (Re.search_from Scorer.bare_digit None t) as [g|] eqn:E;
    [exfalso | reflexivity].
  apply search_bare_sound in E as (pre & post & -> & Hg & _).
  apply all_chars_split in Hall. rewrite Hg in Hall. discriminate.
Qed.

(** Completeness of the matcher: what the vocabulary describes is found. *)
Lemma match_lits_complete {R : Type} (l : string) (rest : list Re.atom)
    (k : option ascii -> string -> option R) :
  forall prev s',
  Re.match_atoms (Re.lits l ++ rest) k prev (l ++ s')%string
  = Re.match_atoms rest k (Text.last_or prev l) s'.
Proof.
  induction l as [|c l IH]; intros prev s'; [reflexivity|].
  change (Re.lits (String c l) ++ rest)
    with (Re.Lit c :: (Re.lits l ++ rest)).
  rewrite app_cons. simpl. rewrite Ascii.eqb_refl. apply IH.
Qed.

Lemma many1_complete {R : Type} (cls : ascii -> bool)
    (k : option ascii -> string -> option R) (d : ascii) (b : string)
    (r : R) :
  cls d = false ->
  (forall prev, k prev (String d b) = Some r) ->
  forall sep,
  sep <> EmptyString ->
  Text.all_chars cls sep = true ->
  Re.many1 cls k (sep ++ String d b)%string = Some r.
Proof.
  intros Hd Hk. induction sep as [|c sep IH]; intros Hne Hall; [done|].
  simpl in Hall. apply andb_prop in Hall as [Hc Hall].
  rewrite app_cons. simpl. rewrite Hc.
  destruct sep as [|c' sep'].
  - rewrite app_nil_l. simpl. rewrite Hd. apply Hk.
  - rewrite IH; [reflexivity | discriminate | exact Hall].
Qed.

Lemma match_here_labeled_complete (label : string) (prev : option ascii)
    (sep : string) (d : ascii) (b : string) :
  sep <> EmptyString ->
  Text.all_chars Scorer.colon_or_space sep = true ->
  Scorer.digit05 d = true ->
  Re.match_here (Scorer.labeled label) prev
    (label ++ sep ++ String d b)%string = Some d.
Proof.
  intros Hne Hall Hd. unfold Re.match_here.
  simpl Re.before. simpl Re.after. simpl Re.group.
  rewrite match_lits_complete. simpl.
  apply many1_complete; auto using digit_not_sep.
  intros prev'. rewrite Hd. reflexivity.
Qed.

Lemma search_labeled_complete (label t : string) (d : ascii) :
  Text.labeled_digit label t d ->
  forall prev, exists g, Re.search_from (Scorer.labeled label) prev t = Some g.
Proof.
  intros (a & sep & b & -> & Hne & Hall & Hd).
  induction a as [|c a IH]; intros prev.
  - rewrite app_nil_l. exists d.
    destruct (label ++ sep ++ String d b)%string eqn:E; simpl;
      rewrite <- E, match_here_labeled_complete; auto.
  - rewrite app_cons. simpl.
    destruct (Re.match_here (Scorer.labeled label) prev _) as [g|].
    + exists g. reflexivity.
    + apply IH.
Qed.

Lemma search_bare_complete (pre : string) :
  forall (prev : option ascii) (d : ascii) (post : string),
  Scorer.digit05 d = true ->
  Re.word_opt (Text.last_or prev pre) = false ->
  Re.word_opt (Re.first_char post) = false ->
  exists g,
    Re.search_from Scorer.bare_digit prev (pre ++ String d post)%string
    = Some g.
Proof.
  induction pre as [|c pre IH]; intros prev d post Hd Hl Hr.
  - exists d. rewrite app_nil_l. simpl. rewrite match_here_bare.
    simpl in Hl. rewrite Hd, Hl, Hr. reflexivity.
  - rewrite app_cons. simpl.
    destruct (Re.match_here Scorer.bare_digit prev _) as [g|].
    + exists g. reflexivity.
    + apply IH; assumption.
Qed.

Lemma bare_none_places (t : string) :
  Re.search Scorer.bare_digit t = None <->
  (forall pre d post,
     t = (pre ++ String d post)%string -> ~ Text.standalone pre d post).
Proof.
  split.
  - intros Hnone pre d post -> (Hd & Hl & Hr).
    destruct (search_bare_complete pre None d post Hd Hl Hr) as (g & Hg).
    unfold Re.search in Hnone. congruence.
  - intros Hno. unfold Re.search.
    destruct (Re.search_from Scorer.bare_digit None t) as [g|] eqn:E;
      [exfalso | reflexivity].
    apply search_bare_sound in E as (pre & post & E & Hg & Hl & Hr).
    apply (Hno pre g post E). repeat split; assumption.
Qed.

Lemma labeled_none_iff (label : string) (t : string) :
  Re.search (Scorer.labeled label) t = None <->
  (forall d, ~ Text.labeled_digit label t d).
Proof.
  split.
  - intros Hnone d Hl.
    destruct (search_labeled_complete label t d Hl None) as (g & Hg).
    unfold Re.search in Hnone. congruence.
  - intros Hno. unfold Re.search.
    destruct (Re.search_from (Scorer.labeled label) None t) as [g|] eqn:E;
      [exfalso | reflexivity].
    apply search_labeled_sound in E. exact (Hno g E).
Qed.

Lemma all_chars_impl (p q : ascii -> bool) (s : string) :
  (forall c, p c = true -> q c = true) ->
  Text.all_chars p s = true -> Text.all_chars q s = true.
Proof.
  intros Hpq. induction s as [|c s IH]; simpl; [reflexivity|].
  intros H. apply andb_prop in H as [Hc Hs].
  rewrite (Hpq c Hc), (IH Hs). reflexivity.
Qed.

(** With no digit 0-5 before it, a standalone digit is the leftmost one. *)
Lemma leftmost_of_no05_before (pre : string) (d : ascii) (post : string) :
  Text.standalone pre d post ->
  Text.all_chars (fun c => negb (Scorer.digit05 c)) pre = true ->
  Text.leftmost_standalone (pre ++ String d post)%string pre d post.
Proof.
  intros Hst Hno. split; [reflexivity|]. split; [exact Hst|].
  intros pre' d' post' Heq (Hd' & _ & _).
  destruct (Nat.le_gt_cases (String.length pre) (String.length pre'))
    as [Hle|Hlt]; [exact Hle | exfalso].
  destruct (split_before _ _ _ _ _ _ Heq Hlt) as (rest & ->).
  apply all_chars_split in Hno. rewrite Hd' in Hno. discriminate.
Qed.

(** A standalone digit with no digit 0-5 before it is returned. *)
Lemma extract_first_standalone (pre : string) (d : ascii) (post : string) :
  Text.standalone pre d post ->
  Text.all_chars (fun c => negb (Scorer.digit05 c)) pre = true ->
  Scorer._extract_numeric_value (pre ++ String d post)%string
  = Py.int_of_digit d.
Proof.
  intros (Hd & Hl & Hr) Hno.
  apply (extract_leftmost_lowered _ (Py.lower pre) d (Py.lower post)).
  rewrite lower_app. simpl Py.lower.
  rewrite (lower_char_digit_fix d (digit05_digit d Hd)).
  apply leftmost_of_no05_before.
  - repeat split; [exact Hd | |].
    + rewrite <- Hl. apply (last_or_lower_word None).
    + rewrite first_char_lower_word. exact Hr.
  - rewrite all_chars_lower_no05. exact Hno.
Qed.

(** C1 (as amended). The scorer looks at the lower-cased text.  When the
    lower-cased text holds a standalone digit 0-5 and a labeled rating,
    the scorer returns the leftmost standalone digit of the lower-cased
    text, whatever the labeled pattern says: the labeled digit is not
    returned when it differs from that digit.  The text "I'd say 3,
    though my rating: 5" yields 3. *)
Theorem scorer_bare_digit_precedes_label :
  (forall (s pre : string) (d : ascii) (post : string) (d' : ascii),
     Text.leftmost_standalone (Py.lower s) pre d post ->
     Text.labeled_rating s d' ->
     Scorer._extract_numeric_value s = Py.int_of_digit d
     /\ (d <> d' -> Scorer._extract_numeric_value s <> Py.int_of_digit d'))
  /\ Scorer._extract_numeric_value "I'd say 3, though my rating: 5" = 3.
Proof.
  split; [|reflexivity].
  intros s pre d post d' Hleft _.
  pose proof (extract_leftmost_lowered s pre d post Hleft) as E.
  split; [exact E|].
  intros Hne Heq. apply Hne, int_of_digit_inj. congruence.
Qed.

Lemma scorer_bare_digit_precedes_label_witness :
  Scorer._extract_numeric_value "I'd say 3, though my rating: 5"
  = Py.int_of_digit "3"
  /\ Scorer._extract_numeric_value "I'd say 3, though my rating: 5"
     <> Py.int_of_digit "5".
Proof.
  assert (Hleft : Text.leftmost_standalone
                    (Py.lower "I'd say 3, though my rating: 5")
                    "i'd say " "3" ", though my rating: 5").
  { apply (leftmost_of_no05_before "i'd say " "3" ", though my rating: 5").
    - repeat split.
    - reflexivity. }
  assert (Hlab : Text.labeled_rating "I'd say 3, though my rating: 5" "5").
  { left. exists "i'd say 3, though my ", ": ", "". repeat split. discriminate. }
  destruct (proj1 scorer_bare_digit_precedes_label _ _ _ _ _ Hleft Hlab)
    as [E Hne].
  split; [exact E | apply Hne; discriminate].
Defined.

(** C1, counterexample to the claim as stated: "rating: 5, I'd say 3" holds
    the standalone digit 3 and the differing labeled digit 5, and the
    scorer returns the labeled digit 5, which is itself standalone and
    further left. *)
Lemma labeled_digit_returned_counterexample :
  ("rating: 5, I'd say 3" = "rating: 5, I'd say " ++ String "3" "")%string
  /\ Text.standalone "rating: 5, I'd say " "3" ""
  /\ Text.labeled_rating "rating: 5, I'd say 3" "5"
  /\ "3"%char <> "5"%char
  /\ Scorer._extract_numeric_value "rating: 5, I'd say 3"
     = Py.int_of_digit "5".
Proof.
  split; [reflexivity|]. split; [repeat split|]. split.
  - left. exists "", ": ", ", i'd say 3". repeat split. discriminate.
  - split; [discriminate | reflexivity].
Qed.

(** C2 (as amended). The scorer looks at the lower-cased text.  When
    the lower-cased text holds a digit 0-5 with no word character
    (letter, digit or underscore) next to it, the start and the end of
    the text counting as none, the scorer returns the leftmost such
    digit; when that digit is the only digit of the lower-cased text, it
    is returned. *)
Theorem scorer_returns_leftmost_standalone_digit :
  (forall (s pre : string) (d : ascii) (post : string),
     Text.leftmost_standalone (Py.lower s) pre d post ->
     Scorer._extract_numeric_value s = Py.int_of_digit d
     /\ 0 <= Scorer._extract_numeric_value s <= 5)
  /\ (forall (s pre : string) (d : ascii) (post : string),
        Py.lower s = (pre ++ String d post)%string ->
        Text.standalone pre d post ->
        Text.all_chars (fun c => negb (Py.is_digit c)) pre = true ->
        Text.all_chars (fun c => negb (Py.is_digit c)) post = true ->
        Scorer._extract_numeric_value s = Py.int_of_digit d).
Proof.
  split.
  - intros s pre d post Hleft.
    rewrite (extract_leftmost_lowered s pre d post Hleft).
    split; [reflexivity|]. apply digit05_value.
    destruct Hleft as (_ & (Hd & _) & _). exact Hd.
  - intros s pre d post E Hst Hpre _.
    apply (extract_leftmost_lowered s pre d post).
    rewrite E. apply leftmost_of_no05_before; [exact Hst|].
    revert Hpre. apply all_chars_impl. intros c Hc.
    destruct (Scorer.digit05 c) eqn:E'; [|reflexivity].
    rewrite (digit05_digit c E') in Hc. discriminate.
Qed.

Lemma scorer_returns_leftmost_standalone_digit_witness :
  Scorer._extract_numeric_value "My answer is 4." = Py.int_of_digit "4".
Proof.
  apply (proj2 scorer_returns_leftmost_standalone_digit
           "My answer is 4." "my answer is " "4"%char ".").
  - reflexivity.
  - repeat split.
  - reflexivity.
  - reflexivity.
Defined.

(** C2, counterexample to the claim as stated: in "3rd" the only digit is
    3, it has no digit next to it, and the scorer returns -1 because the
    letter after it is a word character. *)
Lemma digit_bounded_not_returned_counterexample :
  Text.leftmost_digit_bounded "3rd" "" "3" "rd"
  /\ Text.all_chars (fun c => negb (Py.is_digit c)) "rd" = true
  /\ Scorer._extract_numeric_value "3rd" = -1
  /\ Scorer._extract_numeric_value "3rd" <> Py.int_of_digit "3".
Proof.
  split.
  - split; [reflexivity|]. split; [repeat split|].
    intros pre' d' post' _ _. simpl. lia.
  - split; [reflexivity|]. split; [reflexivity | discriminate].
Qed.

(** C3. The scorer returns -1 exactly when no rule matches, that is when
    the lower-cased text holds no standalone digit 0-5 and no labeled
    rating.  The empty text yields -1; a text in which every number
    written is above 5 (as in "9" and "42") and which holds no labeled
    rating yields -1; a text with no digit 0-5 at all yields -1. *)
Theorem scorer_unparseable :
  (forall s : string,
     Scorer._extract_numeric_value s = -1 <->
     (forall p, In p Scorer.patterns -> Re.search p (Py.lower s) = None))
  /\ (forall s : string,
        Scorer._extract_numeric_value s = -1 <->
        (forall pre d post,
           Py.lower s = (pre ++ String d post)%string ->
           ~ Text.standalone pre d post)
        /\ (forall d, ~ Text.labeled_rating s d))
  /\ Scorer._extract_numeric_value "" = -1
  /\ (forall s : string,
        Text.numbers_above_5 s ->
        (forall d, ~ Text.labeled_rating s d) ->
        Scorer._extract_numeric_value s = -1)
  /\ Scorer._extract_numeric_value "9" = -1
  /\ Scorer._extract_numeric_value "42" = -1
  /\ (forall s : string,
        Text.no_digit05 s -> Scorer._extract_numeric_value s = -1).
Proof.
  assert (H1 : forall s : string,
             Scorer._extract_numeric_value s = -1 <->
             (forall p, In p Scorer.patterns ->
                        Re.search p (Py.lower s) = None)).
  { intros s. apply first_match_none. exact patterns_group. }
  assert (H2 : forall s : string,
             Scorer._extract_numeric_value s = -1 <->
             (forall pre d post,
                Py.lower s = (pre ++ String d post)%string ->
                ~ Text.standalone pre d post)
             /\ (forall d, ~ Text.labeled_rating s d)).
  { intros s. rewrite H1. unfold Scorer.patterns, Text.labeled_rating.
    rewrite <- bare_none_places. split.
    - intros H. split; [apply H; simpl; auto|].
      intros d [Hd|[Hd|Hd]]; revert d Hd; apply labeled_none_iff, H;
        simpl; auto.
    - intros [Hb Hl] p [<-|[<-|[<-|[<-|[]]]]]; [exact Hb | | |];
        apply labeled_none_iff; intros d Hd; apply (Hl d); auto. }
  split; [exact H1|]. split; [exact H2|]. split; [reflexivity|].
  split; [|split; [reflexivity|split; [reflexivity|]]].
  - intros s Hn Hl. apply H2. split; [|exact Hl].
    apply bare_none_places, bare_none_of_numbers, Hn.
  - intros s Hno. unfold Text.no_digit05 in Hno.
    rewrite <- all_chars_lower_no05 in Hno.
    apply H1. intros p [<-|[<-|[<-|[<-|[]]]]];
      [apply bare_none_of_no05, Hno | | |];
      apply labeled_none_iff; intros d; apply labeled_digit_no05, Hno.
Qed.

Lemma scorer_unparseable_witness :
  Scorer._extract_numeric_value "about 42 or 10" = -1.
Proof.
  apply (proj1 (proj2 (proj2 (proj2 scorer_unparseable)))).
  - repeat constructor.
  - intros d [H|[H|H]]; revert d H; apply labeled_none_iff; reflexivity.
Defined.

(** C10. A digit 0-5 is extracted from a decimal or a negative number:
    the full stop and the minus sign are no word characters, so "4.5"
    yields 4 and "-3" yields 3, and so does every text that starts with a
    digit 0-5 and a full stop, or with a minus sign and a digit 0-5 that
    no word character follows. *)
Theorem scorer_reduces_decimal_and_negative :
  Scorer._extract_numeric_value "4.5" = 4
  /\ Scorer._extract_numeric_value "-3" = 3
  /\ Py.is_word "." = false
  /\ Py.is_word "-" = false
  /\ (forall (d : ascii) (frac : string),
        Scorer.digit05 d = true ->
        Scorer._extract_numeric_value (String d (String "." frac))
        = Py.int_of_digit d)
  /\ (forall (d : ascii) (rest : string),
        Scorer.digit05 d = true ->
        Re.word_opt (Re.first_char rest) = false ->
        Scorer._extract_numeric_value (String "-" (String d rest))
        = Py.int_of_digit d).
Proof.
  repeat (split; [reflexivity|]). split.
  - intros d frac Hd.
    apply (extract_first_standalone "" d (String "." frac)); [|reflexivity].
    repeat split. exact Hd.
  - intros d rest Hd Hr.
    apply (extract_first_standalone "-" d rest); [|reflexivity].
    repeat split; assumption.
Qed.

Lemma scorer_reduces_decimal_and_negative_witness :
  Scorer._extract_numeric_value "2.75 out of 5" = Py.int_of_digit "2"
  /\ Scorer._extract_numeric_value "-1 (strongly disagree)" = Py.int_of_digit "1".
Proof.
  split.
  - apply (proj1 (proj2 (proj2 (proj2 (proj2
             scorer_reduces_decimal_and_negative)))) "2"%char "75 out of 5").
    reflexivity.
  - apply (proj2 (proj2 (proj2 (proj2 (proj2
             scorer_reduces_decimal_and_negative)))) "1"%char
             " (strongly disagree)"); reflexivity.
Defined.

(** ** The query step *)

Lemma extract_range (s : string) :
  Scorer._extract_numeric_value s = -1
  \/ 0 <= Scorer._extract_numeric_value s <= 5.
Proof. apply first_match_range, patterns_group. Qed.

Lemma query_llm_cases (self : Analyzer.analyzer) (llm_name : string)
    (llm : Analyzer.client) (question : Question.t) (now : string) :
  Analyzer.query_llm self llm_name llm question now
  = Ok (match Analyzer.invoke llm (Analyzer._create_prompt self question) with
        | Ok response =>
            QueryResult.Make llm_name (Question.question question)
              (Question.part question) (Question.moral_foundation question)
              (Analyzer.content response)
              (Scorer._extract_numeric_value (Analyzer.content response))
              now
        | Raise e =>
            QueryResult.Make llm_name (Question.question question)
              (Question.part question) (Question.moral_foundation question)
              ("ERROR: " ++ Exn.str e)%string (-1) now
        end).
Proof.
  unfold Analyzer.query_llm.
  destruct (Analyzer.invoke llm _) as [response|e]; reflexivity.
Qed.

(** C4. The scorer returns -1 or an integer from 0 to 5 on every text, and
    every call of [query_llm] returns a record whose extracted value is -1
    or an integer from 0 to 5, on the success path and on the failure
    path. *)
Theorem extracted_value_is_rating_or_sentinel :
  (forall s : string,
     Scorer._extract_numeric_value s = -1
     \/ 0 <= Scorer._extract_numeric_value s <= 5)
  /\ (forall (self : Analyzer.analyzer) (llm_name : string)
             (llm : Analyzer.client) (question : Question.t) (now : string),
        exists r,
          Analyzer.query_llm self llm_name llm question now = Ok r
          /\ (QueryResult.extracted_value r = -1
              \/ 0 <= QueryResult.extracted_value r <= 5)).
Proof.
  split; [exact extract_range|].
  intros self llm_name llm question now.
  rewrite query_llm_cases. eexists. split; [reflexivity|].
  destruct (Analyzer.invoke llm _) as [response|e]; simpl.
  - apply extract_range.
  - left. reflexivity.
Qed.

Lemma bind_ok {A B : Type} (a : A) (f : A -> result B) :
  (Ok a ≫= f) = f a.
Proof. reflexivity. Qed.

Lemma query_step_ok (self : Analyzer.analyzer) (clock : nat -> string)
    (question : Question.t) (acc : list QueryResult.t) (n : nat)
    (llm_name : string) (llm : Analyzer.client) :
  exists r,
    Analyzer.query_step self clock question (acc, n) (llm_name, llm)
    = Ok (acc ++ [r], S n).
Proof.
  unfold Analyzer.query_step. rewrite query_llm_cases.
  eexists. reflexivity.
Qed.

Lemma query_models_ok (self : Analyzer.analyzer) (clock : nat -> string)
    (question : Question.t) (models : list (string * Analyzer.client)) :
  forall (acc : list QueryResult.t) (n : nat),
  exists new,
    Exn.foldM (Analyzer.query_step self clock question) (acc, n) models
    = Ok (acc ++ new, (n + length models)%nat)
    /\ length new = length models.
Proof.
  induction models as [|[llm_name llm] models IH]; intros acc n.
  - exists []. simpl. rewrite app_nil_r, Nat.add_0_r. auto.
  - cbn [Exn.foldM].
    destruct (query_step_ok self clock question acc n llm_name llm)
      as (r & ->).
    rewrite bind_ok.
    destruct (IH (acc ++ [r]) (S n)) as (new & -> & Hlen).
    exists (r :: new). split; [|simpl; congruence].
    rewrite <- app_assoc. simpl. rewrite Nat.add_succ_r. reflexivity.
Qed.

Lemma analyze_questions_ok (self : Analyzer.analyzer) (clock : nat -> string)
    (qs : list Question.t) :
  forall (acc : list QueryResult.t) (n : nat),
  exists new k,
    Exn.foldM (fun acc question =>
                 Analyzer.query_models self clock question acc)
      (acc, n) qs
    = Ok (acc ++ new, k)
    /\ length new = (length qs * length (Analyzer.llms self))%nat.
Proof.
  induction qs as [|q qs IH]; intros acc n.
  - exists [], n. simpl. rewrite app_nil_r. auto.
  - cbn [Exn.foldM].
    destruct (query_models_ok self clock q (Analyzer.llms self) acc n)
      as (new1 & Heq & Hlen1).
    change (Analyzer.query_models self clock q (acc, n))
      with (Exn.foldM (Analyzer.query_step self clock q) (acc, n)
              (Analyzer.llms self)).
    rewrite Heq, bind_ok.
    destruct (IH (acc ++ new1) (n + length (Analyzer.llms self))%nat)
      as (new2 & k & -> & Hlen2).
    exists (new1 ++ new2), k. rewrite <- app_assoc, length_app.
    split; [reflexivity | rewrite Hlen1, Hlen2; reflexivity].
Qed.

(** C5. [query_llm] returns a record whatever the client does.  When the
    client's [invoke] raises, the record has extracted value -1, the
    response text "ERROR: " followed by the text of the exception, and
    the model name, question, part and foundation of the query.  So
    [analyze_all] returns too, with one more record per question and
    model. *)
Theorem query_llm_never_raises :
  forall (self : Analyzer.analyzer) (llm_name : string)
         (llm : Analyzer.client) (question : Question.t) (now : string),
    (exists r, Analyzer.query_llm self llm_name llm question now = Ok r)
    /\ (forall e,
          Analyzer.invoke llm (Analyzer._create_prompt self question)
          = Raise e ->
          Analyzer.query_llm self llm_name llm question now
          = Ok (QueryResult.Make llm_name (Question.question question)
                  (Question.part question)
                  (Question.moral_foundation question)
                  ("ERROR: " ++ Exn.str e)%string (-1) now))
    /\ (forall (clock : nat -> string) (limit : option Z),
          exists new,
            Analyzer.analyze_all self clock limit
            = Ok (Analyzer.results self ++ new)
            /\ length new
               = (length (Analyzer.questions_to_analyze self limit)
                  * length (Analyzer.llms self))%nat).
Proof.
  intros self llm_name llm question now. split; [|split].
  - rewrite query_llm_cases. eexists. reflexivity.
  - intros e He. rewrite query_llm_cases, He. reflexivity.
  - intros clock limit. unfold Analyzer.analyze_all.
    destruct (analyze_questions_ok self clock
                (Analyzer.questions_to_analyze self limit)
                (Analyzer.results self) 0%nat) as (new & k & -> & Hlen).
    exists new. split; [reflexivity | exact Hlen].
Qed.

Lemma query_llm_never_raises_witness :
  let failing :=
    Analyzer.Client (fun _ => Raise (Exception "TimeoutError" "timeout")) in
  let self :=
    Analyzer.MoralFoundationsAnalyzer "Rate the relevance." "Rate the agreement."
      [] [("model-b", failing)] [] in
  let q := Question.Make "Whether or not someone suffered emotionally" 1
             "Harm-Care" "0-5" in
  Analyzer.query_llm self "model-b" failing q "2025-01-01T00:00:00"
  = Ok (QueryResult.Make "model-b"
          "Whether or not someone suffered emotionally" 1 "Harm-Care"
          "ERROR: timeout" (-1) "2025-01-01T00:00:00").
Proof.
  intros failing self q.
  apply (proj1 (proj2 (query_llm_never_raises self "model-b" failing q
                         "2025-01-01T00:00:00"))
           (Exception "TimeoutError" "timeout")).
  reflexivity.
Defined.

(** ** Frames *)

Lemma select_rows_map {A : Type} (p : A -> bool) (rs : list A) :
  Pandas.select_rows rs (map p rs) = List.filter p rs.
Proof.
  induction rs as [|r rs IH]; [reflexivity|].
  simpl. rewrite IH. reflexivity.
Qed.

Lemma getitem_ok {A : Type} (df : Pandas.frame) (name : string)
    (field : QueryResult.t -> A) :
  name ∈ Pandas.columns df ->
  Pandas.getitem df name field = Ok (map field (Pandas.rows df)).
Proof.
  intros H. unfold Pandas.getitem. rewrite bool_decide_eq_true_2 by exact H.
  reflexivity.
Qed.

Ltac known_column :=
  simpl;
  match goal with
  | |- ?P => apply (@bool_decide_unpack P _); vm_compute; exact I
  end.

Lemma where_eq_ok (rs : list QueryResult.t) (name : string)
    (field : QueryResult.t -> string) (value : string) :
  name ∈ Pandas.result_columns ->
  Report.where_eq (Pandas.Frame Pandas.result_columns rs) name field value
  = Ok (Pandas.Frame Pandas.result_columns
          (List.filter (fun r => String.eqb (field r) value) rs)).
Proof.
  intros H. unfold Report.where_eq. rewrite getitem_ok by exact H.
  rewrite bind_ok. unfold Pandas.select. simpl.
  rewrite map_map, select_rows_map. reflexivity.
Qed.

Lemma sum_scores_ok (rs : list QueryResult.t) :
  Report.sum_scores (Pandas.Frame Pandas.result_columns rs)
  = Ok (Pandas.sum (map QueryResult.extracted_value rs)).
Proof.
  unfold Report.sum_scores. rewrite getitem_ok by known_column.
  reflexivity.
Qed.

Lemma foldM_ok {A B : Type} (f : B -> A -> result B) (g : B -> A -> B)
    (l : list A) :
  (forall b x, f b x = Ok (g b x)) ->
  forall b, Exn.foldM f b l = Ok (fold_left g l b).
Proof.
  intros H. induction l as [|x l IH]; intros b; [reflexivity|].
  simpl. rewrite H, bind_ok. apply IH.
Qed.

(** ** Tables filled by a loop *)

Ltac cons_membership :=
  match goal with
  | H : ?k ∉ ?x :: ?l |- _ => rewrite not_elem_of_cons in H; tauto
  | H : ?k ∈ ?x :: ?l |- _ => rewrite elem_of_cons in H; tauto
  end.

Lemma lookup_fold_insert {V : Type} (g : string -> V) (keys : list string) :
  forall (table : gmap string V) (k : string),
  fold_left (fun t key => <[key := g key]> t) keys table !! k
  = if bool_decide (k ∈ keys) then Some (g k) else table !! k.
Proof.
  induction keys as [|key keys IH]; intros table k; simpl.
  - reflexivity.
  - rewrite IH. destruct (decide (k = key)) as [->|Hne].
    + rewrite lookup_insert_eq.
      repeat case_bool_decide; try reflexivity; exfalso; cons_membership.
    + rewrite lookup_insert_ne by congruence.
      repeat case_bool_decide; try reflexivity; exfalso; cons_membership.
Qed.

Lemma fold_insert_ext {V : Type} (g g' : string -> V) (keys : list string) :
  (forall k, k ∈ keys -> g k = g' k) ->
  forall table : gmap string V,
  fold_left (fun t key => <[key := g key]> t) keys table
  = fold_left (fun t key => <[key := g' key]> t) keys table.
Proof.
  induction keys as [|key keys IH]; intros H table; [reflexivity|].
  simpl. rewrite (H key) by (apply elem_of_cons; left; reflexivity).
  apply IH. intros k Hk. apply H, elem_of_cons. right. exact Hk.
Qed.

(** ** Sums *)

Lemma int64_small (z : Z) : - 2 ^ 63 <= z < 2 ^ 63 -> Pandas.int64 z = z.
Proof.
  intros H. unfold Pandas.int64. rewrite Z.mod_small; lia.
Qed.

Lemma pandas_sum_exact_from (values : list Z) :
  forall acc,
  0 <= acc ->
  Forall (fun v => 0 <= v <= 5) values ->
  acc + 5 * Z.of_nat (length values) < 2 ^ 63 ->
  fold_left (fun a v => Pandas.int64 (a + v)) values acc
  = acc + Aggregate.total values.
Proof.
  induction values as [|v values IH]; intros acc Hacc Hall Hlen; simpl.
  - lia.
  - apply Forall_cons in Hall as [Hv Hall].
    rewrite length_cons in Hlen.
    rewrite int64_small by lia.
    rewrite IH; [unfold Aggregate.total; simpl; lia | lia | exact Hall | lia].
Qed.

Lemma pandas_sum_exact (values : list Z) :
  Forall (fun v => 0 <= v <= 5) values ->
  Z.of_nat (length values) < 2 ^ 60 ->
  Pandas.sum values = Aggregate.total values.
Proof.
  intros Hall Hlen. unfold Pandas.sum.
  rewrite pandas_sum_exact_from; [lia | lia | exact Hall | lia].
Qed.

Lemma filter_filter {A : Type} (p q : A -> bool) (l : list A) :
  List.filter p (List.filter q l) = List.filter (fun x => q x && p x) l.
Proof.
  induction l as [|x l IH]; [reflexivity|].
  simpl. destruct (q x); simpl; [destruct (p x)|]; rewrite IH; reflexivity.
Qed.

Lemma filter_length_le {A : Type} (p : A -> bool) (l : list A) :
  (length (List.filter p l) <= length l)%nat.
Proof.
  induction l as [|x l IH]; simpl; [lia|].
  destruct (p x); simpl; lia.
Qed.

Lemma total_filter_perm {A : Type} (f : A -> Z) (p : A -> bool)
    (l l' : list A) :
  l ≡ₚ l' ->
  Aggregate.total (map f (List.filter p l))
  = Aggregate.total (map f (List.filter p l')).
Proof.
  unfold Aggregate.total.
  induction 1 as [|x l l' _ IH|x y l|l l' l'' _ IH1 _ IH2]; simpl.
  - reflexivity.
  - destruct (p x); simpl; lia.
  - destruct (p x), (p y); simpl; lia.
  - congruence.
Qed.

(** ** Distinct sorted names *)

Lemma elem_of_List_filter {A : Type} (p : A -> bool) (l : list A) (x : A) :
  x ∈ List.filter p l <-> x ∈ l /\ p x = true.
Proof. rewrite !list_elem_of_In. apply filter_In. Qed.

Lemma elem_of_unique (l : list string) (x : string) :
  x ∈ Pandas.unique l <-> x ∈ l.
Proof.
  induction l as [|y l IH]; simpl; [reflexivity|].
  rewrite !elem_of_cons, elem_of_List_filter, IH.
  destruct (String.eqb_spec y x) as [->|Hne]; simpl.
  - tauto.
  - split; [tauto|]. intros [->|H]; [left; reflexivity | right; tauto].
Qed.

Lemma NoDup_List_filter {A : Type} (p : A -> bool) (l : list A) :
  NoDup l -> NoDup (List.filter p l).
Proof.
  induction 1 as [|x l Hx _ IH]; simpl; [constructor|].
  destruct (p x); [|exact IH].
  constructor; [|exact IH].
  rewrite elem_of_List_filter. tauto.
Qed.

Lemma NoDup_unique (l : list string) : NoDup (Pandas.unique l).
Proof.
  induction l as [|y l IH]; simpl; constructor.
  - rewrite elem_of_List_filter. intros [_ H].
    rewrite String.eqb_refl in H. discriminate.
  - apply NoDup_List_filter, IH.
Qed.

Lemma elem_of_sorted (l : list string) (x : string) :
  x ∈ Pandas.sorted l <-> x ∈ l.
Proof. unfold Pandas.sorted. by rewrite merge_sort_Permutation. Qed.

Lemma sorted_unique_perm (l l' : list string) :
  l ≡ₚ l' ->
  Pandas.sorted (Pandas.unique l) = Pandas.sorted (Pandas.unique l').
Proof.
  intros Hp. unfold Pandas.sorted.
  apply (StronglySorted_unique String.le).
  - apply StronglySorted_merge_sort; apply _.
  - apply StronglySorted_merge_sort; apply _.
  - rewrite !merge_sort_Permutation.
    apply NoDup_Permutation; auto using NoDup_unique.
    intros x. rewrite !elem_of_unique. by rewrite Hp.
Qed.

Lemma List_filter_perm {A : Type} (p : A -> bool) (l l' : list A) :
  l ≡ₚ l' -> List.filter p l ≡ₚ List.filter p l'.
Proof.
  induction 1 as [|x l l' _ IH|x y l|l l' l'' _ IH1 _ IH2]; simpl.
  - reflexivity.
  - destruct (p x); [constructor|]; exact IH.
  - destruct (p x), (p y); try reflexivity. apply perm_swap.
  - etrans; eassumption.
Qed.

Lemma model_names_spec (rs : list QueryResult.t) (m : string) :
  m ∈ Aggregate.model_names rs <->
  exists r, r ∈ rs /\ QueryResult.llm r = m.
Proof.
  unfold Aggregate.model_names.
  rewrite elem_of_sorted, elem_of_unique, list_elem_of_fmap.
  split; intros (r & H1 & H2); exists r; auto.
Qed.

Lemma foundation_names_spec (rs : list QueryResult.t) (f : string) :
  f ∈ Aggregate.foundation_names rs <->
  exists r, r ∈ rs /\ Aggregate.valid r = true
            /\ QueryResult.moral_foundation r = f.
Proof.
  unfold Aggregate.foundation_names.
  rewrite elem_of_sorted, elem_of_unique, list_elem_of_fmap.
  split.
  - intros (r & -> & H). apply elem_of_List_filter in H as [H1 H2].
    exists r. auto.
  - intros (r & H1 & H2 & <-). exists r. split; [reflexivity|].
    apply elem_of_List_filter. auto.
Qed.

(** ** The statistics of the report *)

Lemma load_results_ok (r : QueryResult.t) (rs : list QueryResult.t) :
  Report.load_results (r :: rs)
  = Ok (Report.HTMLReportGenerator (r :: rs)
          (Pandas.Frame Pandas.result_columns (r :: rs))
          (Pandas.Frame Pandas.result_columns
             (List.filter Aggregate.valid (r :: rs)))).
Proof.
  unfold Report.load_results, Pandas.DataFrame.
  rewrite getitem_ok by known_column. rewrite bind_ok; cbv beta.
  unfold Pandas.select. cbn [Pandas.columns Pandas.rows].
  rewrite map_map, select_rows_map. reflexivity.
Qed.

Lemma row_loop_ok (rows : list QueryResult.t) (fs : list string) :
  Exn.foldM
    (fun (row : gmap string Z) foundation =>
       foundation_df ← Report.where_eq
                         (Pandas.Frame Pandas.result_columns rows)
                         "moral_foundation" QueryResult.moral_foundation
                         foundation;
       sum_score ← Report.sum_scores foundation_df;
       mret (<[foundation := sum_score]> row))
    ∅ fs
  = Ok (fold_left
          (fun row f =>
             <[f := Pandas.sum
                      (map QueryResult.extracted_value
                         (List.filter
                            (fun r =>
                               String.eqb (QueryResult.moral_foundation r) f)
                            rows))]> row)
          fs ∅).
Proof.
  apply foldM_ok. intros row f.
  rewrite where_eq_ok by known_column. rewrite bind_ok; cbv beta.
  rewrite sum_scores_ok, bind_ok; cbv beta. reflexivity.
Qed.

Lemma table_loop_ok (rows : list QueryResult.t) (ms fs : list string) :
  Exn.foldM
    (fun (table : gmap string (gmap string Z)) llm =>
       llm_df ← Report.where_eq (Pandas.Frame Pandas.result_columns rows)
                  "llm" QueryResult.llm llm;
       row ← Exn.foldM
               (fun (row : gmap string Z) foundation =>
                  foundation_df ← Report.where_eq llm_df "moral_foundation"
                                    QueryResult.moral_foundation foundation;
                  sum_score ← Report.sum_scores foundation_df;
                  mret (<[foundation := sum_score]> row))
               ∅ fs;
       mret (<[llm := row]> table))
    ∅ ms
  = Ok (fold_left
          (fun table m =>
             <[m := fold_left
                      (fun row f =>
                         <[f := Pandas.sum
                                  (map QueryResult.extracted_value
                                     (List.filter
                                        (fun r =>
                                           String.eqb
                                             (QueryResult.moral_foundation r)
                                             f)
                                        (List.filter
                                           (fun r =>
                                              String.eqb (QueryResult.llm r)
                                                m)
                                           rows)))]> row)
                      fs ∅]> table)
          ms ∅).
Proof.
  apply foldM_ok. intros table m.
  rewrite where_eq_ok by known_column. rewrite bind_ok; cbv beta.
  rewrite row_loop_ok, bind_ok; cbv beta. reflexivity.
Qed.

Lemma statistics_ok (r : QueryResult.t) (rs : list QueryResult.t) :
  Report.statistics (r :: rs)
  = Ok (Report.Stats
          (Aggregate.model_names (r :: rs))
          (Aggregate.foundation_names (r :: rs))
          (fold_left
             (fun table m =>
                <[m := fold_left
                         (fun row f =>
                            <[f := Aggregate.frame_sum (r :: rs) m f]> row)
                         (Aggregate.foundation_names (r :: rs)) ∅]> table)
             (Aggregate.model_names (r :: rs)) ∅)
          (fold_left
             (fun total f =>
                <[f := Aggregate.frame_total (r :: rs) f]> total)
             (Aggregate.foundation_names (r :: rs)) ∅)).
Proof.
  unfold Report.statistics. rewrite load_results_ok, bind_ok; cbv beta.
  unfold Report._calculate_statistics.
  cbn [Report.df Report.valid_df].
  rewrite (getitem_ok _ "llm") by known_column. rewrite bind_ok; cbv beta.
  rewrite (getitem_ok _ "moral_foundation") by known_column.
  rewrite bind_ok; cbv beta. cbn [Pandas.rows].
  rewrite table_loop_ok, bind_ok; cbv beta.
  rewrite row_loop_ok, bind_ok; cbv beta. reflexivity.
Qed.

(** ** The text summary *)

Lemma fold_left_snoc {A B : Type} (g : A -> B) (l : list A) :
  forall acc, fold_left (fun acc x => acc ++ [g x]) l acc = acc ++ map g l.
Proof.
  induction l as [|x l IH]; intros acc; simpl.
  - by rewrite app_nil_r.
  - rewrite IH, <- app_assoc. reflexivity.
Qed.

Lemma score_loop_ok (rows : list QueryResult.t) (fs : list string) :
  Exn.foldM
    (fun lines foundation =>
       foundation_df ← Report.where_eq
                         (Pandas.Frame Pandas.result_columns rows)
                         "moral_foundation" QueryResult.moral_foundation
                         foundation;
       sum_score ← Report.sum_scores foundation_df;
       mret (lines ++ [(foundation, sum_score)]))
    [] fs
  = Ok (map
          (fun f =>
             (f, Pandas.sum
                   (map QueryResult.extracted_value
                      (List.filter
                         (fun r =>
                            String.eqb (QueryResult.moral_foundation r) f)
                         rows))))
          fs).
Proof.
  erewrite foldM_ok.
  - rewrite fold_left_snoc. reflexivity.
  - intros lines f. rewrite where_eq_ok by known_column.
    rewrite bind_ok; cbv beta. rewrite sum_scores_ok, bind_ok; cbv beta.
    reflexivity.
Qed.

Lemma summary_ok (r : QueryResult.t) (rs : list QueryResult.t) :
  Summary._generate_summary (r :: rs)
  = Ok (map (Aggregate.section_of (r :: rs))
          (Aggregate.model_names (r :: rs))).
Proof.
  unfold Summary._generate_summary, Pandas.DataFrame.
  rewrite (getitem_ok _ "llm") by known_column. rewrite bind_ok; cbv beta.
  rewrite (getitem_ok _ "extracted_value") by known_column.
  rewrite bind_ok; cbv beta.
  unfold Pandas.select. cbn [Pandas.columns Pandas.rows].
  rewrite map_map, select_rows_map.
  erewrite foldM_ok.
  - rewrite fold_left_snoc. reflexivity.
  - intros sections m.
    rewrite !where_eq_ok by known_column. rewrite !bind_ok; cbv beta.
    unfold Pandas.len. cbn [Pandas.rows].
    destruct (0 <? Z.of_nat (length _)) eqn:E.
    + rewrite (getitem_ok _ "moral_foundation") by known_column.
      rewrite bind_ok; cbv beta. cbn [Pandas.rows].
      rewrite score_loop_ok, bind_ok; cbv beta.
      unfold Aggregate.section_of. cbv zeta.
      unfold Aggregate.valid in E |- *. rewrite E. reflexivity.
    + rewrite bind_ok; cbv beta.
      unfold Aggregate.section_of. cbv zeta.
      unfold Aggregate.valid in E |- *. rewrite E. reflexivity.
Qed.

(** ** Sums of legal results *)

Lemma frame_sum_matching (rs : list QueryResult.t) (m f : string) :
  Aggregate.frame_sum rs m f
  = Pandas.sum (map QueryResult.extracted_value
                  (List.filter (Aggregate.matching m f) rs)).
Proof.
  unfold Aggregate.frame_sum.
  rewrite (filter_filter _ Aggregate.valid), filter_filter. reflexivity.
Qed.

Lemma legal_valid_values (p : QueryResult.t -> bool) (rs : list QueryResult.t) :
  Forall Aggregate.legal rs ->
  (forall r, p r = true -> Aggregate.valid r = true) ->
  Forall (fun v => 0 <= v <= 5)
    (map QueryResult.extracted_value (List.filter p rs)).
Proof.
  intros Hall Hp. induction Hall as [|r rs Hr _ IH]; simpl; [constructor|].
  destruct (p r) eqn:E; [|exact IH].
  simpl. constructor; [|exact IH].
  apply Hp in E. unfold Aggregate.valid in E. unfold Aggregate.legal in Hr.
  lia.
Qed.

Lemma pandas_sum_filtered (p : QueryResult.t -> bool)
    (rs : list QueryResult.t) :
  Aggregate.legal_results rs ->
  (forall r, p r = true -> Aggregate.valid r = true) ->
  Pandas.sum (map QueryResult.extracted_value (List.filter p rs))
  = Aggregate.total (map QueryResult.extracted_value (List.filter p rs)).
Proof.
  intros [Hall Hlen] Hp. apply pandas_sum_exact.
  - apply legal_valid_values; assumption.
  - rewrite length_map. pose proof (filter_length_le p rs). lia.
Qed.

Lemma frame_sum_exact (rs : list QueryResult.t) (m f : string) :
  Aggregate.legal_results rs ->
  Aggregate.frame_sum rs m f = Aggregate.score_sum rs m f.
Proof.
  intros H. rewrite frame_sum_matching. apply pandas_sum_filtered; [exact H|].
  intros r Hr. unfold Aggregate.matching in Hr.
  apply andb_prop in Hr as [Hr _]. apply andb_prop in Hr as [Hr _]. exact Hr.
Qed.

Lemma frame_total_exact (rs : list QueryResult.t) (f : string) :
  Aggregate.legal_results rs ->
  Aggregate.frame_total rs f = Aggregate.foundation_sum rs f.
Proof.
  intros H. unfold Aggregate.frame_total. rewrite filter_filter.
  apply pandas_sum_filtered; [exact H|].
  intros r Hr. apply andb_prop in Hr as [Hr _]. exact Hr.
Qed.

Lemma score_sum_perm (rs rs' : list QueryResult.t) (m f : string) :
  rs' ≡ₚ rs -> Aggregate.score_sum rs' m f = Aggregate.score_sum rs m f.
Proof. apply total_filter_perm. Qed.

Lemma score_sum_none (rs : list QueryResult.t) (m f : string) :
  (forall r, r ∈ rs -> Aggregate.matching m f r = false) ->
  Aggregate.score_sum rs m f = 0.
Proof.
  intros H. unfold Aggregate.score_sum.
  induction rs as [|r rs IH]; [reflexivity|].
  simpl. rewrite (H r) by (apply elem_of_cons; left; reflexivity).
  apply IH. intros r' Hr'. apply H, elem_of_cons. right. exact Hr'.
Qed.

(** ** Order of the records *)

Lemma int64_add_l (x y : Z) :
  Pandas.int64 (Pandas.int64 x + y) = Pandas.int64 (x + y).
Proof.
  unfold Pandas.int64.
  replace ((x + 2 ^ 63) mod 2 ^ 64 - 2 ^ 63 + y + 2 ^ 63)
    with ((x + 2 ^ 63) mod 2 ^ 64 + y) by lia.
  rewrite Z.add_mod_idemp_l by lia.
  replace (x + 2 ^ 63 + y) with (x + y + 2 ^ 63) by lia. reflexivity.
Qed.

Lemma pandas_sum_from (values : list Z) :
  forall acc,
  fold_left (fun a v => Pandas.int64 (a + v)) values (Pandas.int64 acc)
  = Pandas.int64 (acc + Aggregate.total values).
Proof.
  induction values as [|v values IH]; intros acc; simpl.
  - by rewrite Z.add_0_r.
  - rewrite int64_add_l, IH. f_equal. unfold Aggregate.total. simpl. lia.
Qed.

Lemma pandas_sum_int64 (values : list Z) :
  Pandas.sum values = Pandas.int64 (Aggregate.total values).
Proof. apply (pandas_sum_from values 0). Qed.

Lemma frame_sum_perm (rs rs' : list QueryResult.t) (m f : string) :
  rs' ≡ₚ rs -> Aggregate.frame_sum rs' m f = Aggregate.frame_sum rs m f.
Proof.
  intros Hp. rewrite !frame_sum_matching, !pandas_sum_int64.
  f_equal. by apply total_filter_perm.
Qed.

Lemma frame_total_perm (rs rs' : list QueryResult.t) (f : string) :
  rs' ≡ₚ rs -> Aggregate.frame_total rs' f = Aggregate.frame_total rs f.
Proof.
  intros Hp. unfold Aggregate.frame_total.
  rewrite !filter_filter, !pandas_sum_int64.
  f_equal. by apply total_filter_perm.
Qed.

Lemma model_names_perm (rs rs' : list QueryResult.t) :
  rs' ≡ₚ rs -> Aggregate.model_names rs' = Aggregate.model_names rs.
Proof.
  intros Hp. apply sorted_unique_perm, Permutation_map, Hp.
Qed.

Lemma foundation_names_perm (rs rs' : list QueryResult.t) :
  rs' ≡ₚ rs -> Aggregate.foundation_names rs' = Aggregate.foundation_names rs.
Proof.
  intros Hp. apply sorted_unique_perm, Permutation_map, List_filter_perm, Hp.
Qed.

Lemma statistics_perm (rs rs' : list QueryResult.t) :
  rs' ≡ₚ rs -> Report.statistics rs' = Report.statistics rs.
Proof.
  intros Hp. destruct rs as [|r rs].
  - apply Permutation_nil_r in Hp. by subst.
  - destruct rs' as [|r' rs'].
    { by apply Permutation_nil_cons in Hp. }
    rewrite !statistics_ok.
    rewrite (model_names_perm _ _ Hp), (foundation_names_perm _ _ Hp).
    f_equal. f_equal.
    + apply fold_insert_ext. intros m _.
      apply fold_insert_ext. intros f _. apply frame_sum_perm, Hp.
    + apply fold_insert_ext. intros f _. apply frame_total_perm, Hp.
Qed.

Lemma section_of_perm (rs rs' : list QueryResult.t) (m : string) :
  rs' ≡ₚ rs -> Aggregate.section_of rs' m = Aggregate.section_of rs m.
Proof.
  intros Hp. unfold Aggregate.section_of. cbv zeta.
  assert (Hv : List.filter (fun r => String.eqb (QueryResult.llm r) m)
                 (List.filter Aggregate.valid rs')
               ≡ₚ List.filter (fun r => String.eqb (QueryResult.llm r) m)
                    (List.filter Aggregate.valid rs))
    by (do 2 apply List_filter_perm; exact Hp).
  assert (Ha : List.filter (fun r => String.eqb (QueryResult.llm r) m) rs'
               ≡ₚ List.filter (fun r => String.eqb (QueryResult.llm r) m) rs)
    by (apply List_filter_perm; exact Hp).
  rewrite (Permutation_length Hv), (Permutation_length Ha).
  rewrite (sorted_unique_perm _ _
             (Permutation_map QueryResult.moral_foundation Hv)).
  f_equal. destruct (0 <? _); [|reflexivity].
  apply map_ext. intros f. f_equal. apply frame_sum_perm, Hp.
Qed.

Lemma summary_perm (rs rs' : list QueryResult.t) :
  rs' ≡ₚ rs -> Summary._generate_summary rs' = Summary._generate_summary rs.
Proof.
  intros Hp. destruct rs as [|r rs].
  - apply Permutation_nil_r in Hp. by subst.
  - destruct rs' as [|r' rs'].
    { by apply Permutation_nil_cons in Hp. }
    rewrite !summary_ok, (model_names_perm _ _ Hp). f_equal.
    apply map_ext. intros m. apply section_of_perm, Hp.
Qed.

(** ** Entries of the table *)

Lemma entry_of_statistics (rs : list QueryResult.t) (st : Report.stats)
    (m f : string) :
  Report.statistics rs = Ok st ->
  Aggregate.entry st m f
  = if bool_decide (m ∈ Aggregate.model_names rs)
    then if bool_decide (f ∈ Aggregate.foundation_names rs)
         then Some (Aggregate.frame_sum rs m f) else None
    else None.
Proof.
  destruct rs as [|r rs]; [discriminate|].
  rewrite statistics_ok. intros [= <-].
  unfold Aggregate.entry. cbn [Report.by_llm_foundation].
  rewrite (lookup_fold_insert
             (fun m => fold_left
                         (fun row f =>
                            <[f := Aggregate.frame_sum (r :: rs) m f]> row)
                         (Aggregate.foundation_names (r :: rs)) ∅)).
  case_bool_decide; [|reflexivity]. simpl.
  rewrite (lookup_fold_insert
             (fun f => Aggregate.frame_sum (r :: rs) m f)).
  case_bool_decide; reflexivity.
Qed.

Lemma total_of_statistics (rs : list QueryResult.t) (st : Report.stats)
    (f : string) :
  Report.statistics rs = Ok st ->
  Report.total_by_foundation st !! f
  = if bool_decide (f ∈ Aggregate.foundation_names rs)
    then Some (Aggregate.frame_total rs f) else None.
Proof.
  destruct rs as [|r rs]; [discriminate|].
  rewrite statistics_ok. intros [= <-].
  cbn [Report.total_by_foundation].
  rewrite (lookup_fold_insert
             (fun f => Aggregate.frame_total (r :: rs) f)).
  case_bool_decide; reflexivity.
Qed.

Lemma matching_cases (m f : string) (r : QueryResult.t) :
  Aggregate.matching m f r = true <->
  Aggregate.valid r = true /\ QueryResult.llm r = m
  /\ QueryResult.moral_foundation r = f.
Proof.
  unfold Aggregate.matching. rewrite !andb_true_iff, !String.eqb_eq. tauto.
Qed.

Lemma score_sum_absent (rs : list QueryResult.t) (m f : string) :
  m ∉ Aggregate.model_names rs \/ f ∉ Aggregate.foundation_names rs ->
  Aggregate.score_sum rs m f = 0.
Proof.
  intros H. apply score_sum_none. intros r Hr.
  destruct (Aggregate.matching m f r) eqn:E; [exfalso | reflexivity].
  apply matching_cases in E as (Hv & Hm & Hf).
  destruct H as [H|H]; apply H.
  - apply model_names_spec. exists r. auto.
  - apply foundation_names_spec. exists r. auto.
Qed.

(** C6 (as amended). For every non-empty list of legal query results, the
    report's table holds, for every model [m] of the list and every
    foundation [f] of a valid record, the sum of the extracted values of
    exactly the valid records of [m] on [f] (0 when there is none); a
    pair with no entry has sum 0.  The per-foundation totals and the
    scores of the text summary are such sums too, and the statistics, the
    summary and the sums are the same for every permutation of the
    list. *)
Theorem aggregate_sums_of_results :
  forall rs : list QueryResult.t,
    rs <> [] ->
    Aggregate.legal_results rs ->
    exists st secs,
      Report.statistics rs = Ok st
      /\ Summary._generate_summary rs = Ok secs
      /\ (forall m f,
            (exists r, r ∈ rs /\ QueryResult.llm r = m) ->
            (exists r, r ∈ rs /\ Aggregate.valid r = true
                       /\ QueryResult.moral_foundation r = f) ->
            Aggregate.entry st m f = Some (Aggregate.score_sum rs m f))
      /\ (forall m f v,
            Aggregate.entry st m f = Some v ->
            v = Aggregate.score_sum rs m f)
      /\ (forall m f,
            Aggregate.entry st m f = None ->
            Aggregate.score_sum rs m f = 0)
      /\ (forall f,
            (exists r, r ∈ rs /\ Aggregate.valid r = true
                       /\ QueryResult.moral_foundation r = f) ->
            Report.total_by_foundation st !! f
            = Some (Aggregate.foundation_sum rs f))
      /\ (forall sec f v,
            sec ∈ secs -> (f, v) ∈ Summary.scores sec ->
            v = Aggregate.score_sum rs (Summary.llm sec) f)
      /\ (forall m f,
            (exists r, r ∈ rs /\ Aggregate.matching m f r = true) ->
            exists sec,
              sec ∈ secs /\ Summary.llm sec = m
              /\ (f, Aggregate.score_sum rs m f) ∈ Summary.scores sec)
      /\ (forall rs',
            rs' ≡ₚ rs ->
            Report.statistics rs' = Ok st
            /\ Summary._generate_summary rs' = Ok secs
            /\ forall m f,
                 Aggregate.score_sum rs' m f = Aggregate.score_sum rs m f).
Proof.
  intros rs Hne Hlegal.
  destruct rs as [|r0 rs0]; [contradiction|].
  set (rs := r0 :: rs0) in *.
  destruct (Report.statistics rs) as [st|e] eqn:Hst;
    [|unfold rs in Hst; rewrite statistics_ok in Hst; discriminate].
  exists st, (map (Aggregate.section_of rs) (Aggregate.model_names rs)).
  pose proof (fun m f => entry_of_statistics rs st m f Hst) as Hentry.
  split; [reflexivity|]. split; [apply summary_ok|].
  split; [|split; [|split; [|split; [|split; [|split]]]]].
  - intros m f Hm Hf. rewrite Hentry.
    rewrite !bool_decide_eq_true_2.
    + by rewrite frame_sum_exact.
    + by apply foundation_names_spec.
    + by apply model_names_spec.
  - intros m f v. rewrite Hentry.
    repeat case_bool_decide; try discriminate.
    intros [= <-]. by apply frame_sum_exact.
  - intros m f. rewrite Hentry.
    repeat case_bool_decide; try discriminate; intros _;
      apply score_sum_absent; auto.
  - intros f Hf. rewrite (total_of_statistics rs st f Hst).
    rewrite bool_decide_eq_true_2 by (by apply foundation_names_spec).
    by rewrite frame_total_exact.
  - intros sec f v Hsec Hfv.
    apply list_elem_of_fmap in Hsec as (m & -> & _).
    unfold Aggregate.section_of in Hfv |- *. cbv zeta in Hfv.
    cbn [Summary.scores Summary.llm] in Hfv |- *.
    destruct (0 <? _); [|by apply elem_of_nil in Hfv].
    apply list_elem_of_fmap in Hfv as (f' & [= -> ->] & _).
    by apply frame_sum_exact.
  - intros m f (r & Hr & Hmatch).
    pose proof Hmatch as (Hv & Hm & Hf)%matching_cases.
    exists (Aggregate.section_of rs m). split; [|split; [reflexivity|]].
    + apply list_elem_of_fmap. exists m. split; [reflexivity|].
      apply model_names_spec. exists r. auto.
    + assert (Hin : r ∈ List.filter
                          (fun r => String.eqb (QueryResult.llm r) m)
                          (List.filter Aggregate.valid rs)).
      { rewrite !elem_of_List_filter, String.eqb_eq. auto. }
      unfold Aggregate.section_of. cbv zeta. cbn [Summary.scores].
      destruct (0 <? _) eqn:E.
      * apply list_elem_of_fmap. exists f.
        split; [by rewrite frame_sum_exact|].
        rewrite elem_of_sorted, elem_of_unique.
        apply list_elem_of_fmap. exists r. auto.
      * exfalso. apply Z.ltb_ge in E.
        destruct (List.filter _ (List.filter Aggregate.valid rs));
          [by apply elem_of_nil in Hin | simpl in E; lia].
  - intros rs' Hp. split; [|split].
    + by rewrite (statistics_perm _ _ Hp).
    + rewrite (summary_perm _ _ Hp). apply summary_ok.
    + intros m f. by apply score_sum_perm.
Qed.

Lemma aggregate_sums_of_results_witness :
  let a1 := QueryResult.Make "model-a" "q1" 1 "Harm-Care" "4" 4 "t1" in
  let b1 := QueryResult.Make "model-b" "q1" 1 "Harm-Care" "ERROR: timeout"
              (-1) "t2" in
  let a2 := QueryResult.Make "model-a" "q2" 2 "Harm-Care" "4" 4 "t3" in
  let b2 := QueryResult.Make "model-b" "q2" 2 "Harm-Care" "ERROR: timeout"
              (-1) "t4" in
  exists st,
    Report.statistics [a1; b1; a2; b2] = Ok st
    /\ Aggregate.entry st "model-a" "Harm-Care" = Some 8
    /\ Aggregate.entry st "model-b" "Harm-Care" = Some 0
    /\ Report.statistics [b2; a2; b1; a1] = Ok st.
Proof.
  intros a1 b1 a2 b2.
  destruct (aggregate_sums_of_results [a1; b1; a2; b2])
    as (st & secs & Hst & _ & Hentry & _ & _ & _ & _ & _ & Hperm).
  - discriminate.
  - split; [|vm_compute; reflexivity].
    repeat constructor; vm_compute; discriminate.
  - exists st. split; [exact Hst|]. split; [|split].
    + apply (Hentry "model-a" "Harm-Care").
      * exists a1. split; [repeat constructor | reflexivity].
      * exists a1. split; [repeat constructor | split; reflexivity].
    + apply (Hentry "model-b" "Harm-Care").
      * exists b1. split; [repeat constructor | reflexivity].
      * exists a1. split; [repeat constructor | split; reflexivity].
    + apply (Hperm [b2; a2; b1; a1]).
      symmetry. apply (Permutation_rev [a1; b1; a2; b2]).
Defined.

(** C6, counterexample to the claim as stated: for the empty list the
    aggregators compute no sum, the frame built from it has no column
    and the first column access raises [KeyError]. *)
Lemma empty_results_not_aggregated_counterexample :
  Report.statistics [] = Raise (Exception "KeyError" "extracted_value")
  /\ Summary._generate_summary [] = Raise (Exception "KeyError" "llm")
  /\ (forall st, Report.statistics [] <> Ok st)
  /\ Aggregate.score_sum [] "model-a" "Harm-Care" = 0.
Proof.
  split; [reflexivity|]. split; [reflexivity|].
  split; [discriminate | reflexivity].
Qed.

(** ** Writing and reading strings *)

Lemma app_length_s (a b : string) :
  String.length (a ++ b)%string = (String.length a + String.length b)%nat.
Proof.
  induction a as [|x a IH]; [reflexivity|].
  rewrite app_cons. simpl. rewrite IH. reflexivity.
Qed.

Lemma app_nil_r_s (a : string) : (a ++ "")%string = a.
Proof.
  induction a as [|x a IH]; [reflexivity|].
  rewrite app_cons, IH. reflexivity.
Qed.

(** Reading one written character gives the character back. *)
Lemma scan_string_escape_char (c : ascii) (text : string) :
  Json.scan_string (Json.escape_char c ++ text)%string
  = match Json.scan_string text with
    | Some (str, rest) => Some (String c str, rest)
    | None => None
    end.
Proof. destruct c as [[] [] [] [] [] [] [] []]; reflexivity. Qed.

Lemma scan_string_quote (rest : string) :
  Json.scan_string (String Json.quote rest) = Some (EmptyString, rest).
Proof. reflexivity. Qed.

Lemma scan_string_escape (s rest : string) :
  Json.scan_string (Json.escape s ++ String Json.quote rest)%string
  = Some (s, rest).
Proof.
  induction s as [|c s IH].
  - rewrite app_nil_l. apply scan_string_quote.
  - simpl Json.escape. rewrite app_assoc_s, scan_string_escape_char, IH.
    reflexivity.
Qed.

Lemma skip_ws_spaces (n : nat) (s : string) :
  Json.skip_ws (Json.spaces n ++ s)%string = Json.skip_ws s.
Proof.
  induction n as [|n IH]; [reflexivity|].
  simpl Json.spaces. rewrite app_cons. simpl. exact IH.
Qed.

Lemma skip_ws_newline_indent (level : nat) (s : string) :
  Json.skip_ws (Json.newline_indent level ++ s)%string = Json.skip_ws s.
Proof.
  unfold Json.newline_indent. rewrite app_cons. simpl.
  apply skip_ws_spaces.
Qed.

Lemma skip_ws_start (c : ascii) (s : string) :
  Json.is_ws c = false -> Json.skip_ws (String c s) = String c s.
Proof. intros H. simpl. rewrite H. reflexivity. Qed.

(** ** Writing and reading integers *)

Lemma string_of_uint_digits (d : Decimal.uint) (rest : string) :
  Text.digit_opt (Re.first_char rest) = false ->
  Json.span_digits (NilEmpty.string_of_uint d ++ rest)%string
  = (NilEmpty.string_of_uint d, rest).
Proof.
  intros Hrest. induction d; simpl NilEmpty.string_of_uint;
    try (rewrite app_cons; simpl; rewrite IHd; reflexivity).
  rewrite app_nil_l. destruct rest as [|c rest]; [reflexivity|].
  simpl in Hrest |- *. rewrite Hrest. reflexivity.
Qed.

Lemma number_of_digits_digits (n : N) :
  Json.number_of_digits (Json.digits n) = n.
Proof.
  unfold Json.number_of_digits, Json.digits.
  rewrite NilEmpty.usu. apply DecimalN.Unsigned.of_to.
Qed.

(** A normal form that is not zero has no leading zero. *)
Lemma unorm_fix_head (u : Decimal.uint) :
  Decimal.unorm u = u -> u <> Decimal.zero ->
  match u with Decimal.D0 _ | Decimal.Nil => False | _ => True end.
Proof.
  intros Hfix Hnz. destruct u as [|u| | | | | | | | |]; try exact I.
  - discriminate Hfix.
  - rewrite DecimalFacts.unorm_D0 in Hfix.
    destruct u as [|u|u|u|u|u|u|u|u|u|u]; [by apply Hnz|..];
      match type of Hfix with
      | Decimal.unorm ?x = _ =>
          assert (Hx : x <> Decimal.Nil) by discriminate;
          pose proof (DecimalFacts.nb_digits_unorm x Hx) as Hlen;
          rewrite Hfix in Hlen; simpl in Hlen; lia
      end.
Qed.

Lemma to_uint_head (n : N) :
  n <> 0%N ->
  match N.to_uint n with Decimal.D0 _ | Decimal.Nil => False | _ => True end.
Proof.
  intros Hn. apply unorm_fix_head.
  - pose proof (DecimalN.Unsigned.to_of (N.to_uint n)) as H.
    rewrite DecimalN.Unsigned.of_to in H. symmetry. exact H.
  - intros H. apply Hn.
    apply DecimalN.Unsigned.to_uint_inj. rewrite H. reflexivity.
Qed.

Lemma follows_no_digit (rest : string) :
  Json.follows rest = true -> Text.digit_opt (Re.first_char rest) = false.
Proof.
  destruct rest as [|c rest]; [reflexivity|]. simpl.
  intros H. apply orb_true_iff in H as [H|H]; apply Ascii.eqb_eq in H;
    subst c; reflexivity.
Qed.

Lemma finish_number_int (negative : bool) (int_part rest : string) :
  Json.follows rest = true ->
  Json.finish_number negative int_part rest
  = (Json.Int (if negative
               then - Z.of_N (Json.number_of_digits int_part)
               else Z.of_N (Json.number_of_digits int_part)),
     rest).
Proof.
  destruct rest as [|c rest]; [reflexivity|]. simpl.
  intros H. apply orb_true_iff in H as [H|H]; apply Ascii.eqb_eq in H;
    subst c; reflexivity.
Qed.

Lemma scan_number_digits (negative : bool) (n : N) (rest : string) :
  Json.follows rest = true ->
  Json.scan_number negative (Json.digits n ++ rest)%string
  = Some (Json.Int (if negative then - Z.of_N n else Z.of_N n), rest).
Proof.
  intros Hrest.
  pose proof (number_of_digits_digits n) as Hnum.
  destruct (N.eq_dec n 0%N) as [->|Hn].
  - change (Json.digits 0%N) with "0"%string. rewrite app_cons, app_nil_l.
    simpl. rewrite finish_number_int by exact Hrest. reflexivity.
  - pose proof (to_uint_head n Hn) as Hhead. unfold Json.digits in *.
    destruct (N.to_uint n) as [|u|u|u|u|u|u|u|u|u|u]; try contradiction;
      simpl NilEmpty.string_of_uint in *; rewrite app_cons; simpl;
      rewrite (string_of_uint_digits u rest (follows_no_digit rest Hrest));
      rewrite finish_number_int by exact Hrest; rewrite Hnum; reflexivity.
Qed.

Lemma digits_cons (n : N) :
  exists c ds, Json.digits n = String c ds /\ Py.is_digit c = true.
Proof.
  destruct (N.eq_dec n 0%N) as [->|Hn].
  - exists "0"%char, EmptyString. split; reflexivity.
  - pose proof (to_uint_head n Hn) as Hhead. unfold Json.digits.
    destruct (N.to_uint n) as [|u|u|u|u|u|u|u|u|u|u]; try contradiction;
      simpl; eexists _, _; split; reflexivity.
Qed.

Lemma scan_value_digit (fuel : nat) (c : ascii) (s : string) :
  Py.is_digit c = true ->
  Json.scan_value (S fuel) (String c s) = Json.scan_number false (String c s).
Proof.
  destruct c as [[] [] [] [] [] [] [] []]; intros H;
    try (vm_compute in H; discriminate H); reflexivity.
Qed.

Lemma scan_value_int (fuel : nat) (z : Z) (rest : string) :
  Json.follows rest = true ->
  Json.scan_value (S fuel) (Json.encode_int z ++ rest)%string
  = Some (Json.Int z, rest).
Proof.
  intros Hrest. unfold Json.encode_int.
  destruct (z <? 0) eqn:Hz.
  - rewrite app_cons.
    change (Json.scan_value (S fuel)
              (String "-" (Json.digits (Z.abs_N z) ++ rest)%string))
      with (match Json.scan_number true
                    (Json.digits (Z.abs_N z) ++ rest)%string with
            | Some r => Some r
            | None =>
                option_map (fun rest => (Json.Float "-Infinity", rest))
                  (Json.strip_prefix "Infinity"
                     (Json.digits (Z.abs_N z) ++ rest)%string)
            end).
    rewrite scan_number_digits by exact Hrest.
    apply Z.ltb_lt in Hz. rewrite N2Z.inj_abs_N.
    do 3 f_equal. lia.
  - destruct (digits_cons (Z.abs_N z)) as (c & ds & Hd & Hc).
    rewrite Hd, app_cons, scan_value_digit by exact Hc.
    rewrite <- app_cons, <- Hd.
    rewrite scan_number_digits by exact Hrest.
    apply Z.ltb_ge in Hz. rewrite N2Z.inj_abs_N.
    do 3 f_equal. lia.
Qed.

Lemma scan_value_str (fuel : nat) (s rest : string) :
  Json.scan_value (S fuel) (Json.encode_string s ++ rest)%string
  = Some (Json.Str s, rest).
Proof.
  unfold Json.encode_string. rewrite !app_cons, app_assoc_s, app_cons.
  rewrite app_nil_l.
  change (Json.scan_value (S fuel)
            (String Json.quote (Json.escape s ++ String Json.quote rest)%string))
    with (match Json.scan_string
                  (Json.escape s ++ String Json.quote rest)%string with
          | Some (str, rest) => Some (Json.Str str, rest)
          | None => None
          end).
  rewrite scan_string_escape. reflexivity.
Qed.

(** ** Writing and reading values *)

Lemma size_pos (v : Json.value) : (1 <= Json.size v)%nat.
Proof. destruct v; simpl; lia. Qed.

Lemma value_start_cases (c : ascii) :
  Json.value_start c = true ->
  Json.is_ws c = false /\ Ascii.eqb c "]" = false
  /\ Ascii.eqb c "}" = false /\ Ascii.eqb c "," = false.
Proof.
  destruct c as [[] [] [] [] [] [] [] []]; intros H;
    try (vm_compute in H; discriminate H); repeat split.
Qed.

Lemma dumps_arr (level : nat) (x : Json.value) (xs : list Json.value) :
  Json.dumps_at level (Json.Arr (x :: xs))
  = (String "[" (Json.newline_indent (S level))
     ++ Json.join (String "," (Json.newline_indent (S level)))
          (List.map (Json.dumps_at (S level)) (x :: xs))
     ++ Json.newline_indent level ++ "]")%string.
Proof. reflexivity. Qed.

Lemma dumps_obj (level : nat) (m : string * Json.value)
    (ms : list (string * Json.value)) :
  Json.dumps_at level (Json.Obj (m :: ms))
  = (String "{" (Json.newline_indent (S level))
     ++ Json.join (String "," (Json.newline_indent (S level)))
          (List.map
             (fun kv : string * Json.value =>
                (Json.encode_string (fst kv) ++ ": "
                 ++ Json.dumps_at (S level) (snd kv))%string)
             (m :: ms))
     ++ Json.newline_indent level ++ "}")%string.
Proof. reflexivity. Qed.

(** A written value starts with a character no other token starts
    with. *)
Lemma dumps_head (v : Json.value) (level : nat) :
  Json.float_free v = true ->
  exists c t,
    Json.dumps_at level v = String c t /\ Json.value_start c = true.
Proof.
  intros Hff. destruct v as [|b|z|l|s|items|members].
  - eexists _, _. split; reflexivity.
  - destruct b; eexists _, _; split; reflexivity.
  - simpl. unfold Json.encode_int. destruct (z <? 0).
    + eexists _, _. split; reflexivity.
    + destruct (digits_cons (Z.abs_N z)) as (c & ds & -> & Hc).
      exists c, ds. split; [reflexivity|].
      unfold Json.value_start. rewrite Hc. apply orb_true_r.
  - discriminate Hff.
  - eexists _, _. split; reflexivity.
  - destruct items as [|x xs].
    + eexists _, _. split; reflexivity.
    + rewrite dumps_arr, app_cons. eexists _, _. split; reflexivity.
  - destruct members as [|m ms].
    + eexists _, _. split; reflexivity.
    + rewrite dumps_obj, app_cons. eexists _, _. split; reflexivity.
Qed.

Lemma join_one (sep p : string) : Json.join sep [p] = p.
Proof. reflexivity. Qed.

Lemma join_more (sep p q : string) (r : list string) :
  Json.join sep (p :: q :: r) = (p ++ sep ++ Json.join sep (q :: r))%string.
Proof. reflexivity. Qed.

Lemma scan_value_bracket (fuel : nat) (text : string) :
  Json.scan_value (S fuel) (String "[" text)
  = if Json.starts_with "]" (Json.skip_ws text)
    then Some (Json.Arr [], Json.tail (Json.skip_ws text))
    else match Json.scan_items fuel (Json.skip_ws text) with
         | Some (items, rest) => Some (Json.Arr items, rest)
         | None => None
         end.
Proof. reflexivity. Qed.

Lemma scan_value_brace (fuel : nat) (text : string) :
  Json.scan_value (S fuel) (String "{" text)
  = if Json.starts_with "}" (Json.skip_ws text)
    then Some (Json.Obj [], Json.tail (Json.skip_ws text))
    else match Json.scan_members fuel (Json.skip_ws text) with
         | Some (members, rest) => Some (Json.Obj members, rest)
         | None => None
         end.
Proof. reflexivity. Qed.

Lemma scan_items_step (fuel : nat) (text : string) :
  Json.scan_items (S fuel) text
  = match Json.scan_value fuel text with
    | Some (v, rest) =>
        if Json.starts_with "]" (Json.skip_ws rest) then
          Some ([v], Json.tail (Json.skip_ws rest))
        else if Json.starts_with "," (Json.skip_ws rest) then
          match Json.scan_items fuel
                  (Json.skip_ws (Json.tail (Json.skip_ws rest))) with
          | Some (vs, rest') => Some (v :: vs, rest')
          | None => None
          end
        else None
    | None => None
    end.
Proof. reflexivity. Qed.

Lemma scan_members_step (fuel : nat) (text : string) :
  Json.scan_members (S fuel) (String Json.quote text)
  = match Json.scan_string text with
    | Some (key, rest) =>
        if Json.starts_with ":" (Json.skip_ws rest) then
          match Json.scan_value fuel
                  (Json.skip_ws (Json.tail (Json.skip_ws rest))) with
          | Some (v, rest') =>
              if Json.starts_with "}" (Json.skip_ws rest') then
                Some ([(key, v)], Json.tail (Json.skip_ws rest'))
              else if Json.starts_with "," (Json.skip_ws rest') then
                match Json.scan_members fuel
                        (Json.skip_ws (Json.tail (Json.skip_ws rest'))) with
                | Some (ms, rest'') => Some ((key, v) :: ms, rest'')
                | None => None
                end
              else None
          | None => None
          end
        else None
    | None => None
    end.
Proof. reflexivity. Qed.

(** White space before a written value is skipped up to the value. *)
Lemma skip_ws_dumps (v : Json.value) (level : nat) (rest : string) :
  Json.float_free v = true ->
  Json.skip_ws (Json.dumps_at level v ++ rest)%string
  = (Json.dumps_at level v ++ rest)%string.
Proof.
  intros Hff. destruct (dumps_head v level Hff) as (c & t & -> & Hc).
  rewrite app_cons. apply skip_ws_start.
  apply value_start_cases in Hc. tauto.
Qed.

Lemma starts_with_dumps (v : Json.value) (level : nat) (rest : string)
    (c : ascii) :
  Json.float_free v = true ->
  c = "]"%char \/ c = "}"%char \/ c = ","%char ->
  Json.starts_with c (Json.dumps_at level v ++ rest)%string = false.
Proof.
  intros Hff Hc. destruct (dumps_head v level Hff) as (x & t & -> & Hx).
  rewrite app_cons. simpl. apply value_start_cases in Hx.
  destruct Hc as [->|[->| ->]]; tauto.
Qed.

Lemma join_cons_app (sep p : string) (ps : list string) (text : string) :
  exists z, (Json.join sep (p :: ps) ++ text)%string = (p ++ z)%string.
Proof.
  destruct ps as [|q r].
  - exists text. reflexivity.
  - exists (sep ++ Json.join sep (q :: r) ++ text)%string.
    rewrite join_more, !app_assoc_s. reflexivity.
Qed.

Lemma follows_newline_indent (level : nat) (text : string) :
  Json.follows (Json.newline_indent level ++ text)%string = true.
Proof. reflexivity. Qed.

Section ReadBack.

Variable k : nat.

(** Values of size up to [k] are read back. *)
Hypothesis read_back :
  forall v : Json.value,
    (Json.size v <= k)%nat ->
    Json.float_free v = true ->
    forall (fuel level : nat) (rest : string),
      (Json.size v <= fuel)%nat ->
      Json.follows rest = true ->
      Json.scan_value fuel (Json.dumps_at level v ++ rest)%string
      = Some (v, rest).

Lemma scan_items_dumps (items : list Json.value) :
  items <> [] ->
  Forall (fun x => (Json.size x <= k)%nat /\ Json.float_free x = true)
    items ->
  forall (fuel inner outer : nat) (rest : string),
    (list_sum (List.map (fun x => S (Json.size x)) items) <= fuel)%nat ->
    Json.scan_items fuel
      (Json.join (String "," (Json.newline_indent inner))
         (List.map (Json.dumps_at inner) items)
       ++ Json.newline_indent outer ++ String "]" rest)%string
    = Some (items, rest).
Proof.
  induction items as [|x items IH]; intros Hne Hall fuel inner outer rest Hf;
    [contradiction|].
  apply Forall_cons in Hall as [[Hx Hffx] Hall].
  simpl in Hf. destruct fuel as [|fuel]; [lia|].
  rewrite scan_items_step.
  destruct items as [|y items].
  - simpl List.map. rewrite join_one.
    rewrite read_back; [|exact Hx|exact Hffx|lia|apply follows_newline_indent].
    rewrite skip_ws_newline_indent. reflexivity.
  - cbn [List.map].
    rewrite join_more, !app_assoc_s, app_cons.
    rewrite read_back; [|exact Hx|exact Hffx|lia|reflexivity].
    change (Json.skip_ws (String "," ?t)) with (String "," t).
    cbn [Json.starts_with Json.tail].
    change (Ascii.eqb "," "]") with false.
    change (Ascii.eqb "," ",") with true. cbv iota.
    rewrite skip_ws_newline_indent.
    destruct (join_cons_app (String "," (Json.newline_indent inner))
                (Json.dumps_at inner y)
                (List.map (Json.dumps_at inner) items)
                (Json.newline_indent outer ++ String "]" rest)%string)
      as (z & Hz).
    rewrite Hz, skip_ws_dumps, <- Hz
      by (apply Forall_cons in Hall as [[_ H] _]; exact H).
    change (Json.dumps_at inner y :: List.map (Json.dumps_at inner) items)
      with (List.map (Json.dumps_at inner) (y :: items)).
    rewrite IH; [reflexivity | discriminate | exact Hall | simpl in Hf |- *; lia].
Qed.

Lemma member_text (key d text : string) :
  ((Json.encode_string key ++ ": " ++ d) ++ text)%string
  = String Json.quote
      (Json.escape key
       ++ String Json.quote (String ":" (String " " (d ++ text))))%string.
Proof.
  unfold Json.encode_string.
  rewrite !app_assoc_s, !app_cons, !app_nil_l. reflexivity.
Qed.

Lemma scan_members_dumps (members : list (string * Json.value)) :
  members <> [] ->
  Forall (fun kv : string * Json.value =>
            (Json.size (snd kv) <= k)%nat
            /\ Json.float_free (snd kv) = true)
    members ->
  forall (fuel inner outer : nat) (rest : string),
    (list_sum
       (List.map (fun kv : string * Json.value => S (Json.size (snd kv)))
          members) <= fuel)%nat ->
    Json.scan_members fuel
      (Json.join (String "," (Json.newline_indent inner))
         (List.map
            (fun kv : string * Json.value =>
               (Json.encode_string (fst kv) ++ ": "
                ++ Json.dumps_at inner (snd kv))%string)
            members)
       ++ Json.newline_indent outer ++ String "}" rest)%string
    = Some (members, rest).
Proof.
  induction members as [|[key v] members IH];
    intros Hne Hall fuel inner outer rest Hf; [contradiction|].
  apply Forall_cons in Hall as [[Hv Hffv] Hall]. simpl in Hv, Hffv.
  simpl in Hf. destruct fuel as [|fuel]; [lia|].
  destruct members as [|[key' v'] members].
  - simpl List.map. rewrite join_one, member_text.
    rewrite scan_members_step, scan_string_escape.
    change (Json.skip_ws (String ":" ?t)) with (String ":" t).
    cbn [Json.starts_with Json.tail].
    change (Ascii.eqb ":" ":") with true. cbv iota.
    change (Json.skip_ws (String " " ?t)) with (Json.skip_ws t).
    rewrite skip_ws_dumps by exact Hffv.
    rewrite read_back; [|exact Hv|exact Hffv|lia|apply follows_newline_indent].
    rewrite skip_ws_newline_indent. reflexivity.
  - set (line := fun kv : string * Json.value =>
                   (Json.encode_string (fst kv) ++ ": "
                    ++ Json.dumps_at inner (snd kv))%string) in *.
    cbn [List.map].
    rewrite join_more, !app_assoc_s.
    unfold line at 1. cbn [fst snd].
    rewrite member_text.
    rewrite scan_members_step, scan_string_escape.
    change (Json.skip_ws (String ":" ?t)) with (String ":" t).
    cbn [Json.starts_with Json.tail].
    change (Ascii.eqb ":" ":") with true. cbv iota.
    change (Json.skip_ws (String " " ?t)) with (Json.skip_ws t).
    rewrite skip_ws_dumps by exact Hffv.
    rewrite app_cons.
    rewrite read_back; [|exact Hv|exact Hffv|lia|reflexivity].
    change (Json.skip_ws (String "," ?t)) with (String "," t).
    cbn [Json.starts_with Json.tail].
    change (Ascii.eqb "," "}") with false.
    change (Ascii.eqb "," ",") with true. cbv iota.
    rewrite skip_ws_newline_indent.
    destruct (join_cons_app (String "," (Json.newline_indent inner))
                (line (key', v')) (List.map line members)
                (Json.newline_indent outer ++ String "}" rest)%string)
      as (z & Hz).
    assert (Hq : Json.skip_ws (line (key', v') ++ z)%string
                 = (line (key', v') ++ z)%string).
    { unfold line. cbn [fst snd]. rewrite member_text. reflexivity. }
    rewrite Hz, Hq, <- Hz.
    change (line (key', v') :: List.map line members)
      with (List.map line ((key', v') :: members)).
    rewrite IH; [reflexivity | discriminate | exact Hall | simpl in Hf |- *; lia].
Qed.

End ReadBack.

Lemma list_sum_member {A : Type} (f : A -> nat) (l : list A) (x : A) :
  In x l -> (f x <= list_sum (List.map f l))%nat.
Proof.
  induction l as [|y l IH]; intros Hin; [contradiction|].
  simpl. destruct Hin as [->|Hin]; [lia|].
  specialize (IH Hin). lia.
Qed.

Lemma items_bounds (k : nat) (items : list Json.value) :
  (list_sum (List.map (fun x => S (Json.size x)) items) <= k)%nat ->
  forallb Json.float_free items = true ->
  Forall (fun x => (Json.size x <= k)%nat /\ Json.float_free x = true) items.
Proof.
  intros Hsum Hff. apply Forall_forall. intros x Hx.
  apply list_elem_of_In in Hx. split.
  - pose proof (list_sum_member (fun x => S (Json.size x)) items x Hx) as H.
    cbv beta in H. lia.
  - rewrite forallb_forall in Hff. apply Hff, Hx.
Qed.

Lemma members_bounds (k : nat) (members : list (string * Json.value)) :
  (list_sum
     (List.map (fun kv : string * Json.value => S (Json.size (snd kv)))
        members) <= k)%nat ->
  forallb (fun kv : string * Json.value => Json.float_free (snd kv)) members
  = true ->
  Forall (fun kv : string * Json.value =>
            (Json.size (snd kv) <= k)%nat
            /\ Json.float_free (snd kv) = true)
    members.
Proof.
  intros Hsum Hff. apply Forall_forall. intros x Hx.
  apply list_elem_of_In in Hx. split.
  - pose proof (list_sum_member
                  (fun kv : string * Json.value => S (Json.size (snd kv)))
                  members x Hx) as H.
    cbv beta in H. lia.
  - rewrite forallb_forall in Hff. apply Hff, Hx.
Qed.

(** Every value without a float is read back from its text, with fuel
    from its size on. *)
Lemma scan_value_dumps (k : nat) :
  forall v : Json.value,
    (Json.size v <= k)%nat ->
    Json.float_free v = true ->
    forall (fuel level : nat) (rest : string),
      (Json.size v <= fuel)%nat ->
      Json.follows rest = true ->
      Json.scan_value fuel (Json.dumps_at level v ++ rest)%string
      = Some (v, rest).
Proof.
  induction k as [|k IHk]; intros v Hk Hff fuel level rest Hfuel Hrest.
  { pose proof (size_pos v). lia. }
  destruct fuel as [|fuel]; [pose proof (size_pos v); lia|].
  destruct v as [|b|z|l|s|items|members].
  - reflexivity.
  - destruct b; reflexivity.
  - apply scan_value_int, Hrest.
  - discriminate Hff.
  - apply scan_value_str.
  - destruct items as [|x xs]; [reflexivity|].
    change (Json.size (Json.Arr (x :: xs)))
      with (S (list_sum (List.map (fun x => S (Json.size x)) (x :: xs))))
      in Hk, Hfuel.
    change (Json.float_free (Json.Arr (x :: xs)))
      with (forallb Json.float_free (x :: xs)) in Hff.
    pose proof (items_bounds k (x :: xs) ltac:(lia) Hff) as Hall.
    rewrite dumps_arr, !app_assoc_s, !app_cons, app_nil_l.
    rewrite scan_value_bracket, skip_ws_newline_indent.
    destruct (join_cons_app (String "," (Json.newline_indent (S level)))
                (Json.dumps_at (S level) x)
                (List.map (Json.dumps_at (S level)) xs)
                (Json.newline_indent level ++ String "]" rest)%string)
      as (z & Hz).
    cbn [List.map].
    assert (Hffx : Json.float_free x = true)
      by (apply Forall_cons in Hall as [[_ H] _]; exact H).
    rewrite Hz, skip_ws_dumps, starts_with_dumps, <- Hz by auto.
    change (Json.dumps_at (S level) x
            :: List.map (Json.dumps_at (S level)) xs)
      with (List.map (Json.dumps_at (S level)) (x :: xs)).
    rewrite (scan_items_dumps k IHk); [reflexivity | discriminate | exact Hall | lia].
  - destruct members as [|m ms]; [reflexivity|].
    change (Json.size (Json.Obj (m :: ms)))
      with (S (list_sum
                 (List.map
                    (fun kv : string * Json.value => S (Json.size (snd kv)))
                    (m :: ms))))
      in Hk, Hfuel.
    change (Json.float_free (Json.Obj (m :: ms)))
      with (forallb (fun kv : string * Json.value =>
                       Json.float_free (snd kv)) (m :: ms)) in Hff.
    pose proof (members_bounds k (m :: ms) ltac:(lia) Hff) as Hall.
    rewrite dumps_obj, !app_assoc_s, !app_cons, app_nil_l.
    rewrite scan_value_brace, skip_ws_newline_indent.
    set (line := fun kv : string * Json.value =>
                   (Json.encode_string (fst kv) ++ ": "
                    ++ Json.dumps_at (S level) (snd kv))%string) in *.
    destruct (join_cons_app (String "," (Json.newline_indent (S level)))
                (line m) (List.map line ms)
                (Json.newline_indent level ++ String "}" rest)%string)
      as (z & Hz).
    cbn [List.map].
    assert (Hskip : Json.skip_ws (line m ++ z)%string
                    = (line m ++ z)%string).
    { unfold line. rewrite member_text. reflexivity. }
    assert (Hstart : Json.starts_with "}" (line m ++ z)%string = false).
    { unfold line. rewrite member_text. reflexivity. }
    rewrite Hz, Hskip, Hstart, <- Hz.
    change (line m :: List.map line ms) with (List.map line (m :: ms)).
    unfold line.
    rewrite (scan_members_dumps k IHk); [reflexivity | discriminate | exact Hall | lia].
Qed.

(** ** The text of a value is long enough to bound its reading *)

Lemma join_length (sep : string) (parts : list string) :
  (1 <= String.length sep)%nat ->
  (list_sum (List.map String.length parts) + length parts
   <= S (String.length (Json.join sep parts)))%nat.
Proof.
  intros Hsep. induction parts as [|p parts IH]; [simpl; lia|].
  destruct parts as [|q r].
  - simpl. lia.
  - rewrite join_more, !app_length_s.
    change (list_sum (List.map String.length (p :: q :: r)))
      with (String.length p + list_sum (List.map String.length (q :: r)))%nat.
    change (length (p :: q :: r)) with (S (length (q :: r))).
    lia.
Qed.

Lemma list_sum_le {A : Type} (f g : A -> nat) (l : list A) :
  Forall (fun x => (f x <= g x)%nat) l ->
  (list_sum (List.map f l) <= list_sum (List.map g l))%nat.
Proof.
  induction 1 as [|x l Hx _ IH]; simpl; lia.
Qed.

Lemma list_sum_S {A : Type} (f : A -> nat) (l : list A) :
  list_sum (List.map (fun x => S (f x)) l)
  = (list_sum (List.map f l) + length l)%nat.
Proof. induction l as [|x l IH]; simpl; lia. Qed.

Lemma newline_indent_length (level : nat) :
  (1 <= String.length (Json.newline_indent level))%nat.
Proof. simpl. lia. Qed.

Lemma size_le_length (k : nat) :
  forall v : Json.value,
    (Json.size v <= k)%nat ->
    Json.float_free v = true ->
    forall level : nat,
      (Json.size v <= String.length (Json.dumps_at level v))%nat.
Proof.
  induction k as [|k IHk]; intros v Hk Hff level.
  { pose proof (size_pos v). lia. }
  assert (Hscalar : Json.size v = 1%nat ->
                    (Json.size v <= String.length (Json.dumps_at level v))%nat).
  { intros ->. destruct (dumps_head v level Hff) as (c & t & -> & _).
    simpl. lia. }
  destruct v as [|b|z|l|s|items|members]; try (apply Hscalar; reflexivity).
  - destruct items as [|x xs]; [simpl; lia|].
    change (Json.size (Json.Arr (x :: xs)))
      with (S (list_sum (List.map (fun x => S (Json.size x)) (x :: xs))))
      in Hk |- *.
    change (Json.float_free (Json.Arr (x :: xs)))
      with (forallb Json.float_free (x :: xs)) in Hff.
    pose proof (items_bounds k (x :: xs) ltac:(lia) Hff) as Hall.
    rewrite dumps_arr, app_cons. cbn [String.length].
    rewrite !app_length_s.
    pose proof (join_length (String "," (Json.newline_indent (S level)))
                  (List.map (Json.dumps_at (S level)) (x :: xs))
                  ltac:(simpl; lia)) as Hj.
    rewrite List.map_map, length_map in Hj.
    assert (Hle : (list_sum (List.map Json.size (x :: xs))
                   <= list_sum
                        (List.map
                           (fun v => String.length (Json.dumps_at (S level) v))
                           (x :: xs)))%nat).
    { apply list_sum_le. eapply Forall_impl; [exact Hall|].
      intros v [Hv Hffv]. cbv beta. apply IHk; assumption. }
    rewrite list_sum_S.
    pose proof (newline_indent_length (S level)).
    pose proof (newline_indent_length level).
    change (String.length "]") with 1%nat. lia.
  - destruct members as [|m ms]; [simpl; lia|].
    change (Json.size (Json.Obj (m :: ms)))
      with (S (list_sum
                 (List.map
                    (fun kv : string * Json.value => S (Json.size (snd kv)))
                    (m :: ms))))
      in Hk |- *.
    change (Json.float_free (Json.Obj (m :: ms)))
      with (forallb (fun kv : string * Json.value =>
                       Json.float_free (snd kv)) (m :: ms)) in Hff.
    pose proof (members_bounds k (m :: ms) ltac:(lia) Hff) as Hall.
    rewrite dumps_obj, app_cons. cbn [String.length].
    rewrite !app_length_s.
    pose proof (join_length (String "," (Json.newline_indent (S level)))
                  (List.map
                     (fun kv : string * Json.value =>
                        (Json.encode_string (fst kv) ++ ": "
                         ++ Json.dumps_at (S level) (snd kv))%string)
                     (m :: ms))
                  ltac:(simpl; lia)) as Hj.
    rewrite List.map_map, length_map in Hj.
    assert (Hle : (list_sum
                     (List.map
                        (fun kv : string * Json.value => Json.size (snd kv))
                        (m :: ms))
                   <= list_sum
                        (List.map
                           (fun kv : string * Json.value =>
                              String.length
                                (Json.encode_string (fst kv) ++ ": "
                                 ++ Json.dumps_at (S level) (snd kv))%string)
                           (m :: ms)))%nat).
    { apply list_sum_le. eapply Forall_impl; [exact Hall|].
      intros kv [Hv Hffv]. cbv beta. rewrite !app_length_s.
      pose proof (IHk (snd kv) Hv Hffv (S level)). lia. }
    rewrite (list_sum_S (fun kv : string * Json.value => Json.size (snd kv))).
    pose proof (newline_indent_length (S level)).
    pose proof (newline_indent_length level).
    change (String.length "}") with 1%nat. lia.
Qed.

(** Reading what was written gives the value back. *)
Lemma loads_dumps (v : Json.value) :
  Json.float_free v = true -> Json.loads (Json.dumps v) = Ok v.
Proof.
  intros Hff. unfold Json.loads, Json.dumps.
  rewrite <- (app_nil_r_s (Json.dumps_at 0 v)) at 2.
  rewrite skip_ws_dumps by exact Hff.
  rewrite (scan_value_dumps (Json.size v) v (le_n _) Hff); [reflexivity| |reflexivity].
  pose proof (size_le_length (Json.size v) v (le_n _) Hff 0%nat). lia.
Qed.

(** ** The persisted result file *)

Lemma record_of_to_json (r : QueryResult.t) :
  Persist.record_of_json (Persist.record_to_json r) = Some r.
Proof. destruct r. reflexivity. Qed.

Lemma records_of_to_json (results : list QueryResult.t) :
  Persist.records_of_json
    (Json.Arr (List.map Persist.record_to_json results))
  = Ok results.
Proof.
  unfold Persist.records_of_json.
  assert (H : mapM Persist.record_of_json
                (List.map Persist.record_to_json results) = Some results).
  { induction results as [|r results IH]; [reflexivity|].
    cbn [List.map]. change (mapM ?f (?x :: ?l))
      with (y ← f x; k ← mapM f l; mret (y :: k)).
    rewrite record_of_to_json, IH. reflexivity. }
  rewrite H. reflexivity.
Qed.

Lemma saved_float_free (results : list QueryResult.t) :
  Json.float_free (Json.Arr (List.map Persist.record_to_json results)) = true.
Proof.
  change (forallb Json.float_free (List.map Persist.record_to_json results)
          = true).
  induction results as [|r results IH]; [reflexivity|].
  cbn [List.map forallb]. rewrite IH. reflexivity.
Qed.

Lemma loads_saved (results : list QueryResult.t) :
  Json.loads (Persist.save_results results)
  = Ok (Json.Arr (List.map Persist.record_to_json results)).
Proof. apply loads_dumps, saved_float_free. Qed.

(** C7. Writing a list of query results as [save_results] does and
    loading the text as [_load_data] does gives the same records, the same
    frames and the same statistics (models, foundations, the sums per
    model and foundation and the sums per foundation) as the list in
    memory. *)
Theorem saved_results_reproduce_statistics :
  forall results : list QueryResult.t,
    (loaded ← Json.loads (Persist.save_results results);
     Persist.records_of_json loaded) = Ok results
    /\ Persist._load_data (Persist.save_results results)
       = Report.load_results results
    /\ Persist.statistics_of_file (Persist.save_results results)
       = Report.statistics results
    /\ forall st,
         Report.statistics results = Ok st ->
         exists st',
           Persist.statistics_of_file (Persist.save_results results) = Ok st'
           /\ Report.total_by_foundation st' = Report.total_by_foundation st
           /\ forall m f, Aggregate.entry st' m f = Aggregate.entry st m f.
Proof.
  intros results.
  assert (H1 : (loaded ← Json.loads (Persist.save_results results);
                Persist.records_of_json loaded) = Ok results).
  { rewrite loads_saved, bind_ok. apply records_of_to_json. }
  assert (H2 : Persist._load_data (Persist.save_results results)
               = Report.load_results results).
  { unfold Persist._load_data. rewrite loads_saved, bind_ok; cbv beta.
    rewrite records_of_to_json, bind_ok. reflexivity. }
  assert (H3 : Persist.statistics_of_file (Persist.save_results results)
               = Report.statistics results).
  { unfold Persist.statistics_of_file, Report.statistics. rewrite H2.
    reflexivity. }
  repeat split; try assumption.
  intros st Hst. exists st. rewrite H3. auto.
Qed.

(** ** The dashboard index *)

Lemma mapM_cons {A B : Type} (f : A -> result B) (x : A) (l : list A) :
  mapM f (x :: l) = (y ← f x; k ← mapM f l; mret (y :: k)).
Proof. reflexivity. Qed.

Lemma mapM_ok_map {A B C : Type} (f : B -> result C) (g : A -> B)
    (h : A -> C) (l : list A) :
  (forall x, f (g x) = Ok (h x)) ->
  mapM f (List.map g l) = Ok (List.map h l).
Proof.
  intros H. induction l as [|x l IH]; [reflexivity|].
  cbn [List.map]. rewrite mapM_cons, H, bind_ok; cbv beta.
  rewrite IH, bind_ok. reflexivity.
Qed.

Lemma timestamps_saved (results : list QueryResult.t) :
  Dashboard.timestamps (List.map Persist.record_members results)
  = List.map Json.Str (Dashboard.stamps results).
Proof.
  unfold Dashboard.stamps.
  induction results as [|r results IH]; [reflexivity|].
  cbn [List.map Dashboard.timestamps List.filter].
  change (Json.get (Persist.record_members r) "timestamp")
    with (Some (Json.Str (QueryResult.timestamp r))).
  cbn [Dashboard.truthy].
  destruct (negb (String.eqb (QueryResult.timestamp r) "")); rewrite IH;
    reflexivity.
Qed.

Lemma filter_id_map {A : Type} (p : A -> bool) (l : list A) :
  length (List.filter (fun b : bool => b) (List.map p l))
  = length (List.filter p l).
Proof.
  induction l as [|x l IH]; [reflexivity|].
  simpl. destruct (p x); simpl; rewrite IH; reflexivity.
Qed.

(** The entry of a file written by [save_results]. *)
Lemma process_saved (f : Dashboard.file) (results : list QueryResult.t) :
  Dashboard.result_file f results ->
  Dashboard.process f = Ok (Some (Dashboard.entry_of_results f results)).
Proof.
  intros [Hne Hcontent]. unfold Dashboard.process.
  rewrite Hcontent, loads_saved, bind_ok; cbv beta.
  destruct results as [|r0 results0]; [contradiction|].
  set (results := r0 :: results0) in *.
  change (negb (Dashboard.truthy
                  (Json.Arr (List.map Persist.record_to_json results))))
    with false. cbv iota.
  assert (Hrs : Dashboard.records
                  (Json.Arr (List.map Persist.record_to_json results))
                = Ok (List.map Persist.record_members results)).
  { unfold Dashboard.records.
    apply (mapM_ok_map Dashboard.as_dict Persist.record_to_json
             Persist.record_members).
    reflexivity. }
  rewrite Hrs, bind_ok; cbv beta.
  rewrite (mapM_ok_map (Dashboard.name_of "llm") Persist.record_members
             QueryResult.llm) by reflexivity.
  rewrite bind_ok; cbv beta.
  rewrite (mapM_ok_map (Dashboard.name_of "moral_foundation")
             Persist.record_members QueryResult.moral_foundation)
    by reflexivity.
  rewrite bind_ok; cbv beta.
  rewrite (mapM_ok_map Dashboard.is_valid Persist.record_members
             Aggregate.valid) by reflexivity.
  rewrite bind_ok; cbv beta.
  rewrite (mapM_ok_map (Dashboard.name_of "question") Persist.record_members
             QueryResult.question) by reflexivity.
  rewrite bind_ok; cbv beta.
  rewrite timestamps_saved, filter_id_map, length_map.
  reflexivity.
Qed.

Lemma process_unparseable (f : Dashboard.file) (e : exn) :
  Json.loads (Dashboard.content f) = Raise e ->
  Dashboard.process f = Raise e.
Proof.
  intros H. unfold Dashboard.process. rewrite H. reflexivity.
Qed.

Lemma omap_cons {A B : Type} (f : A -> option B) (x : A) (l : list A) :
  omap f (x :: l)
  = match f x with Some y => y :: omap f l | None => omap f l end.
Proof. reflexivity. Qed.

Lemma fold_step (files : list Dashboard.file) :
  forall (index : list Dashboard.entry) (printed : list Dashboard.line),
  fold_left Dashboard.step files (index, printed)
  = (index ++ omap Dashboard.indexed files,
     printed ++ omap Dashboard.warned files).
Proof.
  induction files as [|f files IH]; intros index printed.
  - simpl. by rewrite !app_nil_r.
  - change (fold_left Dashboard.step (f :: files) (index, printed))
      with (fold_left Dashboard.step files
              (Dashboard.step (index, printed) f)).
    rewrite !omap_cons.
    unfold Dashboard.step, Dashboard.indexed at 1, Dashboard.warned at 1.
    destruct (Dashboard.process f) as [[e|]|e]; rewrite IH;
      rewrite <- ?app_assoc; reflexivity.
Qed.

Lemma update_unfold (files : list Dashboard.file) :
  Dashboard.update_dashboard_index files
  = (omap Dashboard.indexed (Dashboard.newest_first files),
     omap Dashboard.warned (Dashboard.newest_first files)
     ++ [Dashboard.Updated
           (Z.of_nat
              (length (omap Dashboard.indexed
                         (Dashboard.newest_first files))))]).
Proof.
  unfold Dashboard.update_dashboard_index. rewrite fold_step. reflexivity.
Qed.

Lemma newest_first_perm (files : list Dashboard.file) :
  Dashboard.newest_first files ≡ₚ files.
Proof. apply merge_sort_Permutation. Qed.

Lemma earliest_sorted (ts : list string) :
  StronglySorted String.le ts -> Dashboard.earliest ts = head ts.
Proof.
  induction 1 as [|t ts Hs IH Hall]; [reflexivity|].
  simpl. rewrite IH. destruct ts as [|t' ts]; [reflexivity|].
  simpl. apply Forall_cons in Hall as [Hle _].
  unfold String.le in Hle. apply Is_true_true in Hle. rewrite Hle.
  reflexivity.
Qed.

(** C8. Rebuilding the index goes through the files newest first; each
    file adds its entry, or nothing when its data is empty, or a warning
    when processing it raises.  A file whose text cannot be parsed adds no
    entry and one warning, and the other files are processed as without
    it.  For one file written by [save_results] from a non-empty list and
    one file that cannot be parsed, the index has exactly one entry, the
    one of the written file. *)
Theorem dashboard_index_skips_unparseable_files :
  (forall files : list Dashboard.file,
     Dashboard.update_dashboard_index files
     = (omap Dashboard.indexed (Dashboard.newest_first files),
        omap Dashboard.warned (Dashboard.newest_first files)
        ++ [Dashboard.Updated
              (Z.of_nat
                 (length (omap Dashboard.indexed
                            (Dashboard.newest_first files))))]))
  /\ (forall (f : Dashboard.file) (e : exn),
        Json.loads (Dashboard.content f) = Raise e ->
        Dashboard.indexed f = None
        /\ Dashboard.warned f = Some (Dashboard.Warning (Dashboard.path f) e))
  /\ (forall (files : list Dashboard.file) (entry : Dashboard.entry),
        entry ∈ fst (Dashboard.update_dashboard_index files) <->
        exists f, f ∈ files /\ Dashboard.process f = Ok (Some entry))
  /\ (forall (files : list Dashboard.file) (f : Dashboard.file) (e : exn),
        f ∈ files ->
        Json.loads (Dashboard.content f) = Raise e ->
        Dashboard.Warning (Dashboard.path f) e
        ∈ snd (Dashboard.update_dashboard_index files))
  /\ (forall (good bad : Dashboard.file) (results : list QueryResult.t)
             (e : exn),
        Dashboard.result_file good results ->
        Json.loads (Dashboard.content bad) = Raise e ->
        Dashboard.update_dashboard_index [good; bad]
        = ([Dashboard.entry_of_results good results],
           [Dashboard.Warning (Dashboard.path bad) e; Dashboard.Updated 1])).
Proof.
  assert (Hbad : forall (f : Dashboard.file) (e : exn),
             Json.loads (Dashboard.content f) = Raise e ->
             Dashboard.indexed f = None
             /\ Dashboard.warned f
                = Some (Dashboard.Warning (Dashboard.path f) e)).
  { intros f e H. unfold Dashboard.indexed, Dashboard.warned.
    rewrite (process_unparseable f e H). auto. }
  split; [exact update_unfold|]. split; [exact Hbad|].
  split; [|split].
  - intros files entry. rewrite update_unfold. cbn [fst].
    rewrite list_elem_of_omap. split.
    + intros (f & Hf & Hi). exists f. rewrite newest_first_perm in Hf.
      split; [exact Hf|]. unfold Dashboard.indexed in Hi.
      destruct (Dashboard.process f) as [[e'|]|e']; congruence.
    + intros (f & Hf & Hp). exists f. rewrite newest_first_perm.
      split; [exact Hf|]. unfold Dashboard.indexed. rewrite Hp. reflexivity.
  - intros files f e Hf Hload. rewrite update_unfold. cbn [snd].
    apply elem_of_app. left. apply list_elem_of_omap. exists f.
    rewrite newest_first_perm. split; [exact Hf|].
    apply (Hbad f e Hload).
  - intros good bad results e Hgood Hload. rewrite update_unfold.
    destruct (Hbad bad e Hload) as [Hi Hw].
    assert (Hgi : Dashboard.indexed good
                  = Some (Dashboard.entry_of_results good results)).
    { unfold Dashboard.indexed. rewrite (process_saved _ _ Hgood).
      reflexivity. }
    assert (Hgw : Dashboard.warned good = None).
    { unfold Dashboard.warned. rewrite (process_saved _ _ Hgood).
      reflexivity. }
    pose proof (newest_first_perm [good; bad]) as Hp. symmetry in Hp.
    apply Permutation_length_2_inv in Hp as [-> | ->];
      rewrite !omap_cons, Hi, Hw, Hgi, Hgw; reflexivity.
Qed.

Lemma dashboard_index_skips_unparseable_files_witness :
  let r := QueryResult.Make "model-a" "q1" 1 "Harm-Care" "4" 4
             "2025-01-01T10:00:00" in
  let good := Dashboard.File "results/moral_foundations_results_2.json"
                (Persist.save_results [r]) "2025-01-01T10:05:00" in
  let bad := Dashboard.File "results/moral_foundations_results_1.json"
               "[{" "2025-01-01T09:00:00" in
  Dashboard.update_dashboard_index [good; bad]
  = ([Dashboard.entry_of_results good [r]],
     [Dashboard.Warning "results/moral_foundations_results_1.json"
        (Exception "JSONDecodeError" "Expecting value");
      Dashboard.Updated 1]).
Proof.
  intros r good bad.
  apply (proj2 (proj2 (proj2 (proj2
           dashboard_index_skips_unparseable_files))) good bad [r]).
  - split; [discriminate | reflexivity].
  - reflexivity.
Defined.

(** C9 (as amended). For every file written by [save_results] from a
    non-empty list, the timestamp of its index entry is the first
    timestamp in the order of the records, among the records that carry
    one, and None when no record carries one; it is the earliest
    timestamp when the records are in the order of their timestamps. *)
Theorem dashboard_timestamp_is_first_stamp :
  forall (f : Dashboard.file) (results : list QueryResult.t),
    Dashboard.result_file f results ->
    exists e,
      Dashboard.process f = Ok (Some e)
      /\ Dashboard.timestamp e
         = head (List.map Json.Str (Dashboard.stamps results))
      /\ (Dashboard.stamps results = [] -> Dashboard.timestamp e = None)
      /\ (StronglySorted String.le (Dashboard.stamps results) ->
          Dashboard.timestamp e
          = option_map Json.Str
              (Dashboard.earliest (Dashboard.stamps results))).
Proof.
  intros f results Hf. exists (Dashboard.entry_of_results f results).
  split; [apply process_saved, Hf|]. split; [reflexivity|]. split.
  - intros H. unfold Dashboard.entry_of_results. cbn [Dashboard.timestamp].
    rewrite H. reflexivity.
  - intros Hs. rewrite (earliest_sorted _ Hs).
    unfold Dashboard.entry_of_results. cbn [Dashboard.timestamp].
    destruct (Dashboard.stamps results); reflexivity.
Qed.

Lemma dashboard_timestamp_is_first_stamp_witness :
  let r1 := QueryResult.Make "model-a" "q1" 1 "Harm-Care" "4" 4
              "2025-01-01T10:00:00" in
  let r2 := QueryResult.Make "model-a" "q2" 2 "Harm-Care" "3" 3
              "2025-01-01T10:00:07" in
  let f := Dashboard.File "results/moral_foundations_results_2.json"
             (Persist.save_results [r1; r2]) "2025-01-01T10:05:00" in
  exists e,
    Dashboard.process f = Ok (Some e)
    /\ Dashboard.timestamp e = Some (Json.Str "2025-01-01T10:00:00").
Proof.
  intros r1 r2 f.
  destruct (dashboard_timestamp_is_first_stamp f [r1; r2])
    as (e & Hp & Ht & _).
  - split; [discriminate | reflexivity].
  - exists e. split; [exact Hp | exact Ht].
Defined.

(** C9, counterexample to the claim as stated: a file whose two records
    are not in the order of their timestamps.  The entry carries the
    timestamp of the first record, which is not the earliest one. *)
Lemma first_stamp_not_earliest_counterexample :
  let r1 := QueryResult.Make "model-a" "q1" 1 "Harm-Care" "4" 4
              "2025-01-02T00:00:00" in
  let r2 := QueryResult.Make "model-a" "q2" 2 "Harm-Care" "3" 3
              "2025-01-01T00:00:00" in
  let f := Dashboard.File "results/moral_foundations_results_2.json"
             (Persist.save_results [r1; r2]) "2025-01-03T00:00:00" in
  Dashboard.result_file f [r1; r2]
  /\ Dashboard.earliest (Dashboard.stamps [r1; r2])
     = Some "2025-01-01T00:00:00"%string
  /\ exists e,
       Dashboard.process f = Ok (Some e)
       /\ Dashboard.timestamp e = Some (Json.Str "2025-01-02T00:00:00")
       /\ Dashboard.timestamp e
          <> option_map Json.Str
               (Dashboard.earliest (Dashboard.stamps [r1; r2])).
Proof.
  intros r1 r2 f.
  assert (Hf : Dashboard.result_file f [r1; r2])
    by (split; [discriminate | reflexivity]).
  split; [exact Hf|]. split; [reflexivity|].
  exists (Dashboard.entry_of_results f [r1; r2]).
  split; [apply process_saved, Hf|]. split; [reflexivity | discriminate].
Qed.

(* ===================================================================== *)
(** * Part III: further properties of the program *)
(* ===================================================================== *)

(** ** The batch of queries *)

Lemma query_step_record (self : Analyzer.analyzer) (clock : nat -> string)
    (question : Question.t) (acc : list QueryResult.t) (n : nat)
    (llm_name : string) (llm : Analyzer.client) :
  exists r,
    Analyzer.query_llm self llm_name llm question (clock (S n)) = Ok r
    /\ Analyzer.query_step self clock question (acc, n) (llm_name, llm)
       = Ok (acc ++ [r], S n).
Proof.
  unfold Analyzer.query_step. rewrite query_llm_cases.
  eexists. split; reflexivity.
Qed.

Lemma query_models_records (self : Analyzer.analyzer) (clock : nat -> string)
    (question : Question.t) (models : list (string * Analyzer.client)) :
  forall (acc : list QueryResult.t) (n : nat),
  exists new,
    Exn.foldM (Analyzer.query_step self clock question) (acc, n) models
    = Ok (acc ++ new, (n + length models)%nat)
    /\ length new = length models
    /\ forall j llm_name llm,
         models !! j = Some (llm_name, llm) ->
         exists r,
           new !! j = Some r
           /\ Analyzer.query_llm self llm_name llm question
                (clock (S (n + j))) = Ok r.
Proof.
  induction models as [|[llm_name llm] models IH]; intros acc n.
  - exists []. simpl. rewrite app_nil_r, Nat.add_0_r.
    repeat split. intros j a b H. discriminate H.
  - cbn [Exn.foldM].
    destruct (query_step_record self clock question acc n llm_name llm)
      as (r & Hr & ->).
    rewrite bind_ok.
    destruct (IH (acc ++ [r]) (S n)) as (new & -> & Hlen & Hnew).
    exists (r :: new). split; [|split].
    + rewrite <- app_assoc. simpl. rewrite Nat.add_succ_r. reflexivity.
    + simpl. congruence.
    + intros [|j] a b Hj; simpl in Hj.
      * injection Hj as <- <-. exists r. rewrite Nat.add_0_r. auto.
      * destruct (Hnew j a b Hj) as (r' & Hr' & Hq). exists r'.
        split; [exact Hr'|]. rewrite Nat.add_succ_r. exact Hq.
Qed.

Lemma analyze_questions_records (self : Analyzer.analyzer)
    (clock : nat -> string) (qs : list Question.t) :
  forall (acc : list QueryResult.t) (n : nat),
  exists new k,
    Exn.foldM (fun acc question =>
                 Analyzer.query_models self clock question acc)
      (acc, n) qs
    = Ok (acc ++ new, k)
    /\ forall i j question llm_name llm,
         qs !! i = Some question ->
         Analyzer.llms self !! j = Some (llm_name, llm) ->
         exists r,
           new !! (i * length (Analyzer.llms self) + j)%nat = Some r
           /\ Analyzer.query_llm self llm_name llm question
                (clock (S (n + i * length (Analyzer.llms self) + j)))
              = Ok r.
Proof.
  induction qs as [|q qs IH]; intros acc n.
  - exists [], n. simpl. rewrite app_nil_r. split; [reflexivity|].
    intros i j a b c H. discriminate H.
  - cbn [Exn.foldM].
    destruct (query_models_records self clock q (Analyzer.llms self) acc n)
      as (new1 & Heq & Hlen1 & Hnew1).
    change (Analyzer.query_models self clock q (acc, n))
      with (Exn.foldM (Analyzer.query_step self clock q) (acc, n)
              (Analyzer.llms self)).
    rewrite Heq, bind_ok.
    destruct (IH (acc ++ new1) (n + length (Analyzer.llms self))%nat)
      as (new2 & k & -> & Hnew2).
    exists (new1 ++ new2), k. rewrite <- app_assoc.
    split; [reflexivity|].
    intros [|i] j a b c Hi Hj; simpl in Hi.
    + injection Hi as <-.
      destruct (Hnew1 j b c Hj) as (r & Hr & Hq). exists r.
      rewrite Nat.mul_0_l, Nat.add_0_l, Nat.add_0_r.
      split; [|exact Hq].
      rewrite lookup_app_l; [exact Hr|].
      apply lookup_lt_Some in Hr. exact Hr.
    + destruct (Hnew2 i j a b c Hi Hj) as (r & Hr & Hq). exists r. split.
      * rewrite lookup_app_r by (rewrite Hlen1; simpl; lia).
        rewrite Hlen1.
        replace (S i * length (Analyzer.llms self) + j
                 - length (Analyzer.llms self))%nat
          with (i * length (Analyzer.llms self) + j)%nat by (simpl; lia).
        exact Hr.
      * replace (n + S i * length (Analyzer.llms self) + j)%nat
          with (n + length (Analyzer.llms self)
                + i * length (Analyzer.llms self) + j)%nat by (simpl; lia).
        exact Hq.
Qed.

(** X1. [analyze_all] appends the new records question by question and,
    for each question, model by model: with [L] models, the record at
    place [i * L + j] of the new records is the one [query_llm] returns
    for question [i] and model [j], stamped with the time read by query
    number [i * L + j + 1]. *)
Theorem analyze_all_record_order :
  forall (self : Analyzer.analyzer) (clock : nat -> string)
         (limit : option Z),
  exists new,
    Analyzer.analyze_all self clock limit = Ok (Analyzer.results self ++ new)
    /\ forall i j question llm_name llm,
         Analyzer.questions_to_analyze self limit !! i = Some question ->
         Analyzer.llms self !! j = Some (llm_name, llm) ->
         exists r,
           new !! (i * length (Analyzer.llms self) + j)%nat = Some r
           /\ Analyzer.query_llm self llm_name llm question
                (clock (S (i * length (Analyzer.llms self) + j))) = Ok r.
Proof.
  intros self clock limit. unfold Analyzer.analyze_all.
  destruct (analyze_questions_records self clock
              (Analyzer.questions_to_analyze self limit)
              (Analyzer.results self) 0%nat) as (new & k & -> & Hnew).
  exists new. split; [reflexivity|]. exact Hnew.
Qed.






(** ** The labeled rules of the scorer *)

Lemma search_labeled_leftmost (label a sep : string) (d : ascii) (b : string) :
  forall t prev,
  Labels.leftmost_labeled label t a sep d b ->
  Re.search_from (Scorer.labeled label) prev t = Some d.
Proof.
  induction a as [|c a IH]; intros t prev (-> & Hne & Hall & Hd & Hmin).
  - rewrite app_nil_l.
    destruct (label ++ sep ++ String d b)%string eqn:E; simpl;
      rewrite <- E, match_here_labeled_complete; auto.
  - rewrite app_cons. simpl.
    destruct (Re.match_here (Scorer.labeled label) prev _) as [g|] eqn:E.
    + exfalso.
      apply match_here_labeled in E as (sep' & b' & E & Hne' & Hall' & Hg).
      assert (H : (String.length (String c a) <= String.length "")%nat).
      { apply (Hmin EmptyString sep' g b'); auto. }
      simpl in H. lia.
    + apply IH. repeat split; auto.
      intros a' sep' d' b' E' Hne' Hall' Hd'.
      assert (H : (String.length (String c a)
                   <= String.length (String c a'))%nat).
      { apply (Hmin (String c a') sep' d' b'); auto.
        rewrite app_cons, app_cons, E'. reflexivity. }
      simpl in H. lia.
Qed.

(** X3. The scorer looks at the lower-cased text.  When the lower-cased
    text holds no standalone digit 0-5 the labels decide in the order
    rating, score, value, wherever they stand in it: the result is the
    digit at the leftmost place where "rating" is followed by colons or
    white space and a digit 0-5; without such a place, the
    digit at the leftmost such place for "score"; without that, for
    "value".  What follows the digit plays no part, so "Rating: 42"
    gives 4. *)
Theorem scorer_label_priority :
  (forall s : string,
     (forall pre d post,
        Py.lower s = (pre ++ String d post)%string ->
        ~ Text.standalone pre d post) ->
     (forall a sep d b,
        Labels.leftmost_labeled "rating" (Py.lower s) a sep d b ->
        Scorer._extract_numeric_value s = Py.int_of_digit d)
     /\ ((forall d, ~ Text.labeled_digit "rating" (Py.lower s) d) ->
         forall a sep d b,
           Labels.leftmost_labeled "score" (Py.lower s) a sep d b ->
           Scorer._extract_numeric_value s = Py.int_of_digit d)
     /\ ((forall d, ~ Text.labeled_digit "rating" (Py.lower s) d) ->
         (forall d, ~ Text.labeled_digit "score" (Py.lower s) d) ->
         forall a sep d b,
           Labels.leftmost_labeled "value" (Py.lower s) a sep d b ->
           Scorer._extract_numeric_value s = Py.int_of_digit d))
  /\ Scorer._extract_numeric_value "Score: 2x, then rating: 4x" = 4
  /\ Scorer._extract_numeric_value "Rating: 42" = 4.
Proof.
  split; [|split; reflexivity].
  intros s Hbare. apply bare_none_places in Hbare.
  split; [|split].
  - intros a sep d b H. rewrite extract_unfold, Hbare.
    unfold Re.search. rewrite (search_labeled_leftmost _ _ _ _ _ _ _ H).
    reflexivity.
  - intros Hr a sep d b H. apply labeled_none_iff in Hr.
    rewrite extract_unfold, Hbare, Hr.
    unfold Re.search. rewrite (search_labeled_leftmost _ _ _ _ _ _ _ H).
    reflexivity.
  - intros Hr Hs a sep d b H.
    apply labeled_none_iff in Hr. apply labeled_none_iff in Hs.
    rewrite extract_unfold, Hbare, Hr, Hs.
    unfold Re.search. rewrite (search_labeled_leftmost _ _ _ _ _ _ _ H).
    reflexivity.
Qed.

Lemma scorer_label_priority_witness :
  Scorer._extract_numeric_value "My rating: 3rd of the scale"
  = Py.int_of_digit "3".
Proof.
  apply (proj1 (proj1 scorer_label_priority "My rating: 3rd of the scale"
                  ltac:(apply bare_none_places; reflexivity))
           "my " ": " "3"%char "rd of the scale").
  repeat split; try reflexivity; try discriminate.
  intros a' sep' d' b' E _ _ _.
  destruct a' as [|x1 [|x2 [|x3 a']]]; simpl; try lia.
  - exfalso. discriminate E.
  - exfalso. rewrite !app_cons in E. discriminate E.
  - exfalso. rewrite !app_cons in E. discriminate E.
Defined.

(** ** Sums and counts over the models *)

Lemma total_cons (x : Z) (l : list Z) :
  Aggregate.total (x :: l) = x + Aggregate.total l.
Proof. reflexivity. Qed.

Lemma total_map_add {A : Type} (f g : A -> Z) (l : list A) :
  Aggregate.total (map (fun x => f x + g x) l)
  = Aggregate.total (map f l) + Aggregate.total (map g l).
Proof.
  induction l as [|x l IH]; [reflexivity|].
  cbn [map]. rewrite !total_cons, IH. lia.
Qed.

Lemma total_map_zero {A : Type} (l : list A) :
  Aggregate.total (map (fun _ => 0) l) = 0.
Proof. induction l as [|x l IH]; [reflexivity|]. cbn [map]. by rewrite total_cons, IH. Qed.

Lemma total_map_ones {A : Type} (l : list A) :
  Aggregate.total (map (fun _ => 1) l) = Z.of_nat (length l).
Proof.
  induction l as [|x l IH]; [reflexivity|].
  cbn [map]. rewrite total_cons, IH, length_cons. lia.
Qed.

Lemma total_map_ext {A : Type} (f g : A -> Z) (l : list A) :
  (forall x, x ∈ l -> f x = g x) ->
  Aggregate.total (map f l) = Aggregate.total (map g l).
Proof.
  induction l as [|x l IH]; intros H; [reflexivity|].
  cbn [map]. rewrite !total_cons, (H x), IH; [reflexivity | |].
  - intros y Hy. apply H, elem_of_cons. right. exact Hy.
  - apply elem_of_cons. left. reflexivity.
Qed.

(** Over distinct names, the terms for the name [x] alone add up to [v]
    when [x] is among them. *)
Lemma total_indicator (x : string) (v : Z) (names : list string) :
  NoDup names ->
  Aggregate.total (map (fun m => if String.eqb x m then v else 0) names)
  = if bool_decide (x ∈ names) then v else 0.
Proof.
  induction 1 as [|m names Hm Hnd IH]; [reflexivity|].
  cbn [map]. rewrite total_cons, IH.
  destruct (String.eqb_spec x m) as [->|Hne].
  - rewrite (bool_decide_eq_false_2 (m ∈ names)) by exact Hm.
    rewrite bool_decide_eq_true_2 by (apply elem_of_cons; left; reflexivity).
    lia.
  - case_bool_decide as H1; case_bool_decide as H2; try lia; exfalso.
    + apply H2. apply elem_of_cons. right. exact H1.
    + apply elem_of_cons in H2 as [H2|H2]; [exact (Hne H2) | exact (H1 H2)].
Qed.

(** Summing per model and then over the models gives the sum over all
    records, when the names are distinct and cover the records. *)
Lemma total_by_model (w : QueryResult.t -> Z) (names : list string)
    (l : list QueryResult.t) :
  NoDup names ->
  (forall r, r ∈ l -> QueryResult.llm r ∈ names) ->
  Aggregate.total
    (map (fun m =>
            Aggregate.total
              (map w (List.filter
                        (fun r => String.eqb (QueryResult.llm r) m) l)))
       names)
  = Aggregate.total (map w l).
Proof.
  intros Hnd. induction l as [|r l IH]; intros Hcover.
  - simpl. apply total_map_zero.
  - rewrite (total_map_ext _
               (fun m =>
                  (if String.eqb (QueryResult.llm r) m then w r else 0)
                  + Aggregate.total
                      (map w (List.filter
                                (fun r => String.eqb (QueryResult.llm r) m)
                                l)))).
    + rewrite total_map_add, total_indicator by exact Hnd.
      rewrite bool_decide_eq_true_2
        by (apply Hcover, elem_of_cons; left; reflexivity).
      rewrite IH; [reflexivity|].
      intros r' Hr'. apply Hcover, elem_of_cons. right. exact Hr'.
    + intros m _. simpl.
      destruct (String.eqb (QueryResult.llm r) m); reflexivity.
Qed.

Lemma NoDup_model_names (rs : list QueryResult.t) :
  NoDup (Aggregate.model_names rs).
Proof.
  unfold Aggregate.model_names, Pandas.sorted.
  rewrite merge_sort_Permutation. apply NoDup_unique.
Qed.

Lemma model_sums_add_up (rs : list QueryResult.t) (f : string) :
  Aggregate.total
    (map (fun m => Aggregate.score_sum rs m f) (Aggregate.model_names rs))
  = Aggregate.foundation_sum rs f.
Proof.
  unfold Aggregate.foundation_sum.
  rewrite <- (total_by_model QueryResult.extracted_value
                (Aggregate.model_names rs)).
  - apply total_map_ext. intros m _. unfold Aggregate.score_sum.
    rewrite filter_filter. f_equal. f_equal.
    apply List.filter_ext. intros r. unfold Aggregate.matching.
    destruct (Aggregate.valid r), (String.eqb (QueryResult.llm r) m),
      (String.eqb (QueryResult.moral_foundation r) f); reflexivity.
  - apply NoDup_model_names.
  - intros r Hr. apply elem_of_List_filter in Hr as [Hr _].
    apply model_names_spec. exists r. auto.
Qed.

(** X4. In the statistics of a list of legal results, every total of
    [total_by_foundation] is the sum, over the models of the report, of
    the entries of [by_llm_foundation] for that foundation: the bars of
    the chart per foundation add up to the totals. *)
Theorem foundation_totals_add_up :
  forall (rs : list QueryResult.t) (st : Report.stats),
    Aggregate.legal_results rs ->
    Report.statistics rs = Ok st ->
    forall f v,
      Report.total_by_foundation st !! f = Some v ->
      v = Aggregate.total
            (map (fun m => default 0 (Aggregate.entry st m f))
               (Report.llms st)).
Proof.
  intros rs st Hlegal Hst f v Hv.
  rewrite (total_of_statistics rs st f Hst) in Hv.
  case_bool_decide as Hf; [|discriminate]. injection Hv as <-.
  rewrite frame_total_exact by exact Hlegal.
  rewrite <- model_sums_add_up.
  assert (Hllms : Report.llms st = Aggregate.model_names rs).
  { destruct rs as [|r rs]; [discriminate|].
    rewrite statistics_ok in Hst. injection Hst as <-. reflexivity. }
  rewrite Hllms. apply total_map_ext. intros m Hm.
  rewrite (entry_of_statistics rs st m f Hst).
  rewrite !bool_decide_eq_true_2 by assumption.
  simpl. symmetry. apply frame_sum_exact, Hlegal.
Qed.

Lemma foundation_totals_add_up_witness :
  let rs := [ QueryResult.Make "model-a" "q1" 1 "Harm-Care" "4" 4 "t1";
              QueryResult.Make "model-b" "q1" 1 "Harm-Care" "3" 3 "t2";
              QueryResult.Make "model-b" "q2" 2 "Harm-Care" "?" (-1) "t3" ] in
  exists st,
    Report.statistics rs = Ok st
    /\ Report.total_by_foundation st !! "Harm-Care" = Some 7
    /\ 7 = Aggregate.total
             (map (fun m => default 0 (Aggregate.entry st m "Harm-Care"))
                (Report.llms st)).
Proof.
  intros rs.
  destruct (Report.statistics rs) as [st|e] eqn:Hst;
    [|unfold rs in Hst; rewrite statistics_ok in Hst; discriminate].
  assert (Hlegal : Aggregate.legal_results rs).
  { split; [|vm_compute; reflexivity].
    repeat constructor; vm_compute; discriminate. }
  assert (Hv : Report.total_by_foundation st !! "Harm-Care" = Some 7).
  { rewrite (total_of_statistics rs st "Harm-Care" Hst).
    rewrite bool_decide_eq_true_2; [reflexivity|].
    apply foundation_names_spec. eexists. split; [left|]. auto. }
  exists st. split; [reflexivity|]. split; [exact Hv|].
  exact (foundation_totals_add_up rs st Hlegal Hst "Harm-Care" 7 Hv).
Defined.

Lemma filter_comm {A : Type} (p q : A -> bool) (l : list A) :
  List.filter p (List.filter q l) = List.filter q (List.filter p l).
Proof.
  rewrite !filter_filter. apply List.filter_ext. intros x.
  apply andb_comm.
Qed.

Lemma section_counts (rs : list QueryResult.t) (m : string) :
  Summary.llm (Aggregate.section_of rs m) = m
  /\ Summary.all_responses (Aggregate.section_of rs m)
     = Aggregate.total
         (map (fun _ => 1)
            (List.filter (fun r => String.eqb (QueryResult.llm r) m) rs))
  /\ Summary.valid_responses (Aggregate.section_of rs m)
     = Aggregate.total
         (map (fun _ => 1)
            (List.filter (fun r => String.eqb (QueryResult.llm r) m)
               (List.filter Aggregate.valid rs))).
Proof.
  unfold Aggregate.section_of. cbn [Summary.llm Summary.all_responses
    Summary.valid_responses]. rewrite !total_map_ones. auto.
Qed.

(** X5. The text summary has one section per model of the results, in
    ascending order of the names, and its counts partition the results:
    the counts of all responses add up to the number of results, the
    counts of valid responses add up to the number of valid results, and
    in every section the valid count is at most the count of all
    responses, which is at least 1. *)
Theorem summary_counts_partition :
  forall (rs : list QueryResult.t) (secs : list Summary.section),
    Summary._generate_summary rs = Ok secs ->
    map Summary.llm secs = Aggregate.model_names rs
    /\ StronglySorted String.le (map Summary.llm secs)
    /\ Aggregate.total (map Summary.all_responses secs)
       = Z.of_nat (length rs)
    /\ Aggregate.total (map Summary.valid_responses secs)
       = Z.of_nat (length (List.filter Aggregate.valid rs))
    /\ Forall (fun sec =>
                 0 <= Summary.valid_responses sec
                      <= Summary.all_responses sec
                 /\ 1 <= Summary.all_responses sec) secs.
Proof.
  intros rs secs Hsum.
  assert (Hsecs : secs = map (Aggregate.section_of rs)
                           (Aggregate.model_names rs)).
  { destruct rs as [|r rs]; [discriminate|].
    rewrite summary_ok in Hsum. congruence. }
  assert (Hnames : map Summary.llm secs = Aggregate.model_names rs).
  { rewrite Hsecs, map_map. rewrite <- (map_id (Aggregate.model_names rs)) at 2.
    apply map_ext. intros m. apply section_counts. }
  split; [exact Hnames|]. split; [|split; [|split]].
  - rewrite Hnames. apply StronglySorted_merge_sort; apply _.
  - rewrite Hsecs, map_map.
    rewrite (total_map_ext _ _ _
               (fun m _ => proj1 (proj2 (section_counts rs m)))).
    rewrite (total_by_model (fun _ => 1)), total_map_ones;
      [reflexivity | apply NoDup_model_names |].
    intros r Hr. apply model_names_spec. exists r. auto.
  - rewrite Hsecs, map_map.
    rewrite (total_map_ext _ _ _
               (fun m _ => proj2 (proj2 (section_counts rs m)))).
    rewrite (total_by_model (fun _ => 1)), total_map_ones;
      [reflexivity | apply NoDup_model_names |].
    intros r Hr. apply elem_of_List_filter in Hr as [Hr _].
    apply model_names_spec. exists r. auto.
  - rewrite Hsecs. apply Forall_forall. intros sec Hsec.
    apply list_elem_of_fmap in Hsec as (m & -> & Hm).
    unfold Aggregate.section_of.
    cbn [Summary.valid_responses Summary.all_responses].
    rewrite filter_comm.
    pose proof (filter_length_le Aggregate.valid
                  (List.filter
                     (fun r => String.eqb (QueryResult.llm r) m) rs)) as Hle.
    apply model_names_spec in Hm as (r & Hr & Hrm).
    assert (Hin : r ∈ List.filter
                        (fun r => String.eqb (QueryResult.llm r) m) rs).
    { apply elem_of_List_filter. split; [exact Hr|].
      apply String.eqb_eq. exact Hrm. }
    destruct (List.filter (fun r => String.eqb (QueryResult.llm r) m) rs)
      as [|x l]; [inversion Hin|].
    rewrite length_cons in *. lia.
Qed.

Lemma summary_counts_partition_witness :
  let rs := [ QueryResult.Make "model-a" "q1" 1 "Harm-Care" "4" 4 "t1";
              QueryResult.Make "model-b" "q1" 1 "Harm-Care" "3" 3 "t2";
              QueryResult.Make "model-b" "q2" 2 "Harm-Care" "?" (-1) "t3" ] in
  exists secs,
    Summary._generate_summary rs = Ok secs
    /\ Aggregate.total (map Summary.all_responses secs) = 3
    /\ Aggregate.total (map Summary.valid_responses secs) = 2.
Proof.
  intros rs.
  destruct (Summary._generate_summary rs) as [secs|e] eqn:Hsum;
    [|unfold rs in Hsum; rewrite summary_ok in Hsum; discriminate].
  destruct (summary_counts_partition rs secs Hsum) as (_ & _ & H1 & H2 & _).
  exists secs. split; [reflexivity|]. split; [exact H1 | exact H2].
Defined.

(** ** The characters of the written file *)

Lemma escape_char_plain (c : ascii) :
  Text.all_chars (fun x => Py.between 32 126 x || Ascii.eqb x Json.newline)
    (Json.escape_char c) = true.
Proof. destruct c as [[] [] [] [] [] [] [] []]; reflexivity. Qed.

Lemma escape_plain (s : string) :
  Text.all_chars (fun x => Py.between 32 126 x || Ascii.eqb x Json.newline)
    (Json.escape s) = true.
Proof.
  induction s as [|c s IH]; [reflexivity|].
  simpl. rewrite all_chars_app, escape_char_plain, IH. reflexivity.
Qed.

Lemma encode_string_plain (s : string) :
  Text.all_chars (fun x => Py.between 32 126 x || Ascii.eqb x Json.newline)
    (Json.encode_string s) = true.
Proof.
  unfold Json.encode_string. rewrite app_cons. simpl.
  rewrite all_chars_app, escape_plain. reflexivity.
Qed.

Lemma string_of_uint_plain (d : Decimal.uint) :
  Text.all_chars (fun x => Py.between 32 126 x || Ascii.eqb x Json.newline)
    (NilEmpty.string_of_uint d) = true.
Proof. induction d; simpl; auto. Qed.

Lemma encode_int_plain (z : Z) :
  Text.all_chars (fun x => Py.between 32 126 x || Ascii.eqb x Json.newline)
    (Json.encode_int z) = true.
Proof.
  unfold Json.encode_int, Json.digits.
  destruct (z <? 0); simpl; apply string_of_uint_plain.
Qed.

Lemma newline_indent_plain (level : nat) :
  Text.all_chars (fun x => Py.between 32 126 x || Ascii.eqb x Json.newline)
    (Json.newline_indent level) = true.
Proof.
  unfold Json.newline_indent.
  generalize (2 * level)%nat. intros n.
  change (Text.all_chars
            (fun x => Py.between 32 126 x || Ascii.eqb x Json.newline)
            (Json.spaces n) = true).
  induction n as [|n IH]; [reflexivity | exact IH].
Qed.

Lemma join_plain (sep : string) (parts : list string) :
  Text.all_chars (fun x => Py.between 32 126 x || Ascii.eqb x Json.newline)
    sep = true ->
  Forall (fun p =>
            Text.all_chars
              (fun x => Py.between 32 126 x || Ascii.eqb x Json.newline) p
            = true) parts ->
  Text.all_chars (fun x => Py.between 32 126 x || Ascii.eqb x Json.newline)
    (Json.join sep parts) = true.
Proof.
  intros Hsep. induction 1 as [|p parts Hp Hall IH]; [reflexivity|].
  destruct parts as [|q r]; [exact Hp|].
  rewrite join_more, !all_chars_app, Hp, Hsep, IH. reflexivity.
Qed.

Lemma all_chars_cons (cls : ascii -> bool) (c : ascii) (s : string) :
  Text.all_chars cls (String c s) = cls c && Text.all_chars cls s.
Proof. reflexivity. Qed.

Lemma dumps_plain (k : nat) :
  forall (v : Json.value) (level : nat),
  (Json.size v <= k)%nat ->
  Json.float_free v = true ->
  Text.all_chars (fun x => Py.between 32 126 x || Ascii.eqb x Json.newline)
    (Json.dumps_at level v) = true.
Proof.
  induction k as [|k IH]; intros v level Hk Hff.
  { pose proof (size_pos v). lia. }
  destruct v as [|[]|z|lit|s|items|members]; try reflexivity.
  - apply encode_int_plain.
  - discriminate.
  - apply encode_string_plain.
  - destruct items as [|x xs]; [reflexivity|].
    rewrite dumps_arr, app_cons, all_chars_cons.
    rewrite !all_chars_app, !newline_indent_plain.
    rewrite join_plain;
      [reflexivity
      | rewrite all_chars_cons; apply (newline_indent_plain (S level)) |].
    apply Forall_fmap.
    simpl in Hk, Hff.
    eapply Forall_impl;
      [apply (items_bounds k (x :: xs)); [simpl; lia | exact Hff]|].
    intros y [Hy1 Hy2]. apply IH; assumption.
  - destruct members as [|m ms]; [reflexivity|].
    rewrite dumps_obj, app_cons, all_chars_cons.
    rewrite !all_chars_app, !newline_indent_plain.
    rewrite join_plain;
      [reflexivity
      | rewrite all_chars_cons; apply (newline_indent_plain (S level)) |].
    apply Forall_fmap.
    simpl in Hk, Hff.
    eapply Forall_impl;
      [apply (members_bounds k (m :: ms)); [simpl; lia | exact Hff]|].
    intros y [Hy1 Hy2]. unfold compose.
    rewrite !all_chars_app, encode_string_plain, (IH _ _ Hy1 Hy2).
    reflexivity.
Qed.

(** X6. The text [save_results] writes to the JSON file holds printable
    ASCII characters and line feeds only, whatever characters the
    responses of the models hold: every other character is written as an
    escape. *)
Theorem saved_file_is_plain_ascii :
  forall results : list QueryResult.t,
    Text.all_chars
      (fun c => Py.between 32 126 c || Ascii.eqb c Json.newline)
      (Persist.save_results results) = true.
Proof.
  intros results. unfold Persist.save_results, Json.dumps.
  apply (dumps_plain _ _ 0%nat (le_n _)), saved_float_free.
Qed.

Lemma bounded_float_free (depth : nat) :
  forall v : Json.value,
  Bounded.value depth v = true -> Json.float_free v = true.
Proof.
  induction depth as [|depth IH]; intros v;
    destruct v as [|b|z|lit|t|items|members]; simpl; try reflexivity;
    try discriminate.
  - intros H. rewrite forallb_forall in H |- *.
    intros x Hx. apply IH, H, Hx.
  - intros H. apply andb_prop in H as [_ H].
    rewrite forallb_forall in H |- *.
    intros x Hx. apply IH, (H x Hx).
Qed.

(** X7. What [json.dump] writes with [indent=2], [json.load] reads back,
    for a value well within the default limits of the interpreter: for
    every value of lists and dicts nested at most 100 deep, with texts,
    booleans, None and integers of at most 4300 digits, loading the
    written text returns the value. *)
Theorem json_round_trip :
  forall v : Json.value,
    Bounded.value 100 v = true -> Json.loads (Json.dumps v) = Ok v.
Proof.
  intros v H. apply loads_dumps, (bounded_float_free 100 v H).
Qed.

Lemma json_round_trip_witness :
  let v := Json.Arr
             [ Json.Obj [ ("llm"%string, Json.Str "model-a");
                          ("tags"%string, Json.Arr [Json.Null; Json.Bool true]);
                          ("extracted_value"%string, Json.Int (-1)) ];
               Json.Obj [] ] in
  Json.loads (Json.dumps v) = Ok v.
Proof.
  intros v. apply (json_round_trip v). vm_compute. reflexivity.
Defined.

(** ** More on the dashboard index *)

Lemma mapM_length {A B : Type} (f : A -> result B) (l : list A) :
  forall l', mapM f l = Ok l' -> length l' = length l.
Proof.
  induction l as [|x l IH]; intros l'.
  - intros [= <-]. reflexivity.
  - rewrite mapM_cons. destruct (f x) as [y|e]; [|discriminate].
    rewrite bind_ok; cbv beta.
    destruct (mapM f l) as [k|e]; [|discriminate].
    rewrite bind_ok. intros [= <-]. simpl. rewrite (IH k); reflexivity.
Qed.

Lemma mapM_raise {A B : Type} (f : A -> result B) (l : list A) (x : A)
    (e : exn) :
  x ∈ l -> f x = Raise e -> exists e', mapM f l = Raise e'.
Proof.
  intros Hx Hfx. induction l as [|y l IH]; [inversion Hx|].
  rewrite mapM_cons. apply elem_of_cons in Hx as [<- | Hx].
  - rewrite Hfx. exists e. reflexivity.
  - destruct (f y) as [z|e1]; [|exists e1; reflexivity].
    rewrite bind_ok; cbv beta.
    destruct (IH Hx) as (e' & ->). exists e'. reflexivity.
Qed.

Lemma mapM_ok_elem {A B : Type} (f : A -> result B) (l : list A) (x : A) :
  forall l', mapM f l = Ok l' -> x ∈ l -> exists y, f x = Ok y /\ y ∈ l'.
Proof.
  induction l as [|z l IH]; intros l' Hl Hx; [inversion Hx|].
  rewrite mapM_cons in Hl. destruct (f z) as [y|e] eqn:Hz; [|discriminate].
  rewrite bind_ok in Hl; cbv beta in Hl.
  destruct (mapM f l) as [k|e]; [|discriminate].
  rewrite bind_ok in Hl. injection Hl as <-.
  apply elem_of_cons in Hx as [-> | Hx].
  - exists y. split; [exact Hz | apply elem_of_cons; left; reflexivity].
  - destruct (IH k eq_refl Hx) as (y' & Hy1 & Hy2). exists y'.
    split; [exact Hy1 | apply elem_of_cons; right; exact Hy2].
Qed.

(** What a file that adds an entry went through. *)
Lemma process_inv (f : Dashboard.file) (e : Dashboard.entry) :
  Dashboard.process f = Ok (Some e) ->
  exists data rs llm_names foundation_names validity questions,
    Json.loads (Dashboard.content f) = Ok data
    /\ Dashboard.truthy data = true
    /\ Dashboard.records data = Ok rs
    /\ mapM (Dashboard.name_of "llm") rs = Ok llm_names
    /\ mapM (Dashboard.name_of "moral_foundation") rs = Ok foundation_names
    /\ mapM Dashboard.is_valid rs = Ok validity
    /\ mapM (Dashboard.name_of "question") rs = Ok questions
    /\ e = Dashboard.Entry (Dashboard.basename (Dashboard.path f))
             (String "/" (Dashboard.replace_char "\" "/" (Dashboard.path f)))
             (head (Dashboard.timestamps rs))
             (Pandas.sorted (Pandas.unique llm_names))
             (Z.of_nat (length (Pandas.sorted (Pandas.unique llm_names))))
             (Pandas.sorted (Pandas.unique foundation_names))
             (Z.of_nat (length (Pandas.unique questions)))
             (Z.of_nat (length rs))
             (Z.of_nat (length (List.filter (fun b : bool => b) validity)))
             (Dashboard.mtime f).
Proof.
  unfold Dashboard.process.
  destruct (Json.loads (Dashboard.content f)) as [data|?] eqn:H1;
    [|discriminate].
  rewrite bind_ok; cbv beta.
  destruct (Dashboard.truthy data) eqn:Ht; [|discriminate]. cbn [negb].
  destruct (Dashboard.records data) as [rs|?] eqn:H2; [|discriminate].
  rewrite bind_ok; cbv beta.
  destruct (mapM (Dashboard.name_of "llm") rs) as [llm_names|?] eqn:H3;
    [|discriminate].
  rewrite bind_ok; cbv beta.
  destruct (mapM (Dashboard.name_of "moral_foundation") rs)
    as [foundation_names|?] eqn:H4; [|discriminate].
  rewrite bind_ok; cbv beta.
  destruct (mapM Dashboard.is_valid rs) as [validity|?] eqn:H5;
    [|discriminate].
  rewrite bind_ok; cbv beta.
  destruct (mapM (Dashboard.name_of "question") rs) as [questions|?] eqn:H6;
    [|discriminate].
  rewrite bind_ok; cbv beta.
  intros [= <-].
  exists data, rs, llm_names, foundation_names, validity, questions.
  repeat split; assumption.
Qed.

Lemma unique_length_le (l : list string) :
  (length (Pandas.unique l) <= length l)%nat.
Proof.
  induction l as [|x l IH]; [reflexivity|].
  simpl. pose proof (filter_length_le (fun y => negb (String.eqb x y))
                       (Pandas.unique l)). lia.
Qed.

Lemma unique_length_pos (l : list string) :
  l <> [] -> (1 <= length (Pandas.unique l))%nat.
Proof. destruct l as [|x l]; [contradiction|]. simpl. lia. Qed.

Lemma sorted_length (l : list string) :
  length (Pandas.sorted l) = length l.
Proof.
  unfold Pandas.sorted. apply Permutation_length, merge_sort_Permutation.
Qed.

Lemma NoDup_sorted_unique (l : list string) :
  NoDup (Pandas.sorted (Pandas.unique l)).
Proof.
  unfold Pandas.sorted. rewrite merge_sort_Permutation. apply NoDup_unique.
Qed.

Lemma replace_char_absent (old new : ascii) (s : string) :
  old <> new ->
  Str.contains old (Dashboard.replace_char old new s) = false.
Proof.
  intros Hne. induction s as [|c s IH]; [reflexivity|].
  simpl. rewrite IH, orb_false_r.
  destruct (Ascii.eqb_spec c old) as [->|Hc]; apply Ascii.eqb_neq; auto.
Qed.

Lemma basename_from_no_slash (s : string) :
  forall current,
  (Str.contains "/" s = false -> Str.contains "/" current = false) ->
  Str.contains "/" (Dashboard.basename_from current s) = false.
Proof.
  induction s as [|c s IH]; intros current H; simpl.
  - apply H. reflexivity.
  - destruct (Ascii.eqb c "/") eqn:Hc.
    + apply IH. auto.
    + apply IH. intros Hs. apply H. simpl. rewrite Hc. exact Hs.
Qed.

(** X8. Take a result file that the embedding reads as a list of
    records whose model, foundation and question are texts.  When it
    adds an entry to the index, the entry is coherent: it counts as many
    responses as the list has records, at least one; the valid
    responses, the models, the foundations and the questions are at most
    as many as the responses, and there is at least one of each of the
    last three; [llm_count] is the length of [llms]; the lists of models
    and foundations are in ascending order without repetition; the file
    name holds no slash, the path starts with a slash and holds no
    backslash.  Files with names that are no texts, or with characters
    beyond the range of the embedding, are not covered. *)
Theorem dashboard_entry_is_coherent :
  forall (f : Dashboard.file) (items : list Json.value)
         (e : Dashboard.entry),
    Json.loads (Dashboard.content f) = Ok (Json.Arr items) ->
    Forall Bounded.named_record items ->
    Dashboard.process f = Ok (Some e) ->
    Dashboard.total_responses e = Z.of_nat (length items)
    /\ 1 <= Dashboard.total_responses e
    /\ 0 <= Dashboard.valid_responses e <= Dashboard.total_responses e
    /\ Dashboard.llm_count e = Z.of_nat (length (Dashboard.llms e))
    /\ 1 <= Dashboard.llm_count e <= Dashboard.total_responses e
    /\ (1 <= length (Dashboard.foundations e))%nat
    /\ Z.of_nat (length (Dashboard.foundations e))
       <= Dashboard.total_responses e
    /\ 1 <= Dashboard.question_count e <= Dashboard.total_responses e
    /\ StronglySorted String.le (Dashboard.llms e)
    /\ NoDup (Dashboard.llms e)
    /\ StronglySorted String.le (Dashboard.foundations e)
    /\ NoDup (Dashboard.foundations e)
    /\ Str.contains "/" (Dashboard.filename e) = false
    /\ Str.startswith "/" (Dashboard.filepath e) = true
    /\ Str.contains "\" (Dashboard.filepath e) = false
    /\ Dashboard.date_generated e = Dashboard.mtime f.
Proof.
  intros f items e Hload _ Hp.
  apply process_inv in Hp
    as (data & rs & ls & fs & vs & qs & Hl & Ht & Hrs & Hls & Hfs & Hvs & Hqs
        & ->).
  rewrite Hload in Hl. injection Hl as <-.
  cbn [Dashboard.total_responses Dashboard.valid_responses
       Dashboard.llm_count Dashboard.llms Dashboard.foundations
       Dashboard.question_count Dashboard.filename Dashboard.filepath
       Dashboard.date_generated].
  apply mapM_length in Hls, Hfs, Hvs, Hqs.
  assert (Hlen : length rs = length items).
  { unfold Dashboard.records in Hrs. apply mapM_length in Hrs. exact Hrs. }
  assert (Hne : (1 <= length rs)%nat).
  { rewrite Hlen. destruct items as [|x items]; [discriminate Ht|].
    simpl. lia. }
  pose proof (unique_length_le ls) as Hl1.
  pose proof (unique_length_le fs) as Hf1.
  pose proof (unique_length_le qs) as Hq1.
  assert (Hl2 : (1 <= length (Pandas.unique ls))%nat).
  { apply unique_length_pos. intros ->. simpl in Hls. lia. }
  assert (Hf2 : (1 <= length (Pandas.unique fs))%nat).
  { apply unique_length_pos. intros ->. simpl in Hfs. lia. }
  assert (Hq2 : (1 <= length (Pandas.unique qs))%nat).
  { apply unique_length_pos. intros ->. simpl in Hqs. lia. }
  pose proof (filter_length_le (fun b : bool => b) vs) as Hv1.
  rewrite !sorted_length.
  repeat split; try lia.
  - apply StronglySorted_merge_sort; apply _.
  - apply NoDup_sorted_unique.
  - apply StronglySorted_merge_sort; apply _.
  - apply NoDup_sorted_unique.
  - apply basename_from_no_slash. auto.
  - simpl. apply replace_char_absent. discriminate.
Qed.

Lemma dashboard_entry_is_coherent_witness :
  let items :=
    [ Json.Obj [ ("llm"%string, Json.Str "model-a");
                 ("moral_foundation"%string, Json.Str "Harm-Care");
                 ("question"%string, Json.Str "q1") ] ] in
  let f :=
    Dashboard.File "results\moral_foundations_results_1.json"
      (Json.dumps (Json.Arr items)) "2025-01-01T09:00:00" in
  exists e,
    Dashboard.process f = Ok (Some e)
    /\ 0 <= Dashboard.valid_responses e <= Dashboard.total_responses e
    /\ Str.contains "\" (Dashboard.filepath e) = false.
Proof.
  intros items f.
  destruct (Dashboard.process f) as [[e|]|e] eqn:Hp;
    [|vm_compute in Hp; discriminate Hp..].
  exists e. split; [reflexivity|].
  assert (Hload : Json.loads (Dashboard.content f) = Ok (Json.Arr items))
    by (vm_compute; reflexivity).
  assert (Hitems : Forall Bounded.named_record items).
  { repeat constructor. eexists _, _, _, _. repeat split; reflexivity. }
  pose proof (dashboard_entry_is_coherent f items e Hload Hitems Hp) as H.
  split; [apply H | apply H].
Defined.

Lemma omap_none {A B : Type} (f : A -> option B) (l : list A) :
  (forall x, x ∈ l -> f x = None) -> omap f l = [].
Proof.
  induction l as [|x l IH]; intros H; [reflexivity|].
  rewrite omap_cons, (H x) by (apply elem_of_cons; left; reflexivity).
  apply IH. intros y Hy. apply H, elem_of_cons. right. exact Hy.
Qed.

Lemma process_empty (f : Dashboard.file) (data : Json.value) :
  Json.loads (Dashboard.content f) = Ok data ->
  Dashboard.truthy data = false ->
  Dashboard.process f = Ok None.
Proof.
  intros Hl Ht. unfold Dashboard.process.
  rewrite Hl, bind_ok; cbv beta. rewrite Ht. reflexivity.
Qed.

(** X9. A result file whose data is empty (an empty list, as
    [save_results] writes for no results, but also [{}], [null], [0] or
    an empty text) is passed over in silence: it adds no entry to the
    index and no warning is printed.  When every file is such, the index
    is empty and only the closing line is printed. *)
Theorem dashboard_passes_over_empty_data :
  (forall (f : Dashboard.file) (data : Json.value),
     Json.loads (Dashboard.content f) = Ok data ->
     Dashboard.truthy data = false ->
     Dashboard.process f = Ok None
     /\ Dashboard.indexed f = None
     /\ Dashboard.warned f = None)
  /\ (forall f : Dashboard.file,
        Dashboard.content f = Persist.save_results [] ->
        Dashboard.indexed f = None /\ Dashboard.warned f = None)
  /\ (forall files : list Dashboard.file,
        (forall f, f ∈ files ->
           exists data,
             Json.loads (Dashboard.content f) = Ok data
             /\ Dashboard.truthy data = false) ->
        Dashboard.update_dashboard_index files = ([], [Dashboard.Updated 0])).
Proof.
  assert (H : forall (f : Dashboard.file) (data : Json.value),
             Json.loads (Dashboard.content f) = Ok data ->
             Dashboard.truthy data = false ->
             Dashboard.process f = Ok None
             /\ Dashboard.indexed f = None
             /\ Dashboard.warned f = None).
  { intros f data Hl Ht. unfold Dashboard.indexed, Dashboard.warned.
    rewrite (process_empty f data Hl Ht). auto. }
  split; [exact H|]. split.
  - intros f Hc. apply (H f (Json.Arr [])); [rewrite Hc|]; reflexivity.
  - intros files Hall. rewrite update_unfold.
    rewrite !omap_none; [reflexivity | |];
      intros f Hf; rewrite newest_first_perm in Hf;
      destruct (Hall f Hf) as (data & Hl & Ht); apply (H f data Hl Ht).
Qed.

Lemma dashboard_passes_over_empty_data_witness :
  let f := Dashboard.File "results/moral_foundations_results_1.json" "{}"
             "2025-01-01T09:00:00" in
  Dashboard.process f = Ok None
  /\ Dashboard.update_dashboard_index [f] = ([], [Dashboard.Updated 0]).
Proof.
  intros f.
  assert (Hl : Json.loads (Dashboard.content f) = Ok (Json.Obj []))
    by reflexivity.
  split.
  - apply (proj1 dashboard_passes_over_empty_data f (Json.Obj []) Hl).
    reflexivity.
  - apply (proj2 (proj2 dashboard_passes_over_empty_data) [f]).
    intros g Hg. apply list_elem_of_singleton in Hg as ->.
    exists (Json.Obj []). split; [exact Hl | reflexivity].
Defined.

Lemma process_raises_after_records (f : Dashboard.file) (data : Json.value)
    (rs : list (list (string * Json.value))) (key : string) (e : exn) :
  Json.loads (Dashboard.content f) = Ok data ->
  Dashboard.truthy data = true ->
  Dashboard.records data = Ok rs ->
  key ∈ ["llm"; "moral_foundation"; "question"]%string ->
  mapM (Dashboard.name_of key) rs = Raise e ->
  exists e', Dashboard.process f = Raise e'.
Proof.
  intros Hl Ht Hrs Hkey Hraise. unfold Dashboard.process.
  rewrite Hl, bind_ok; cbv beta. rewrite Ht. cbn [negb].
  rewrite Hrs, bind_ok; cbv beta.
  destruct (mapM (Dashboard.name_of "llm") rs) as [ls|e1] eqn:H1;
    [|exists e1; reflexivity].
  rewrite bind_ok; cbv beta.
  destruct (mapM (Dashboard.name_of "moral_foundation") rs) as [fs|e2] eqn:H2;
    [|exists e2; reflexivity].
  rewrite bind_ok; cbv beta.
  destruct (mapM Dashboard.is_valid rs) as [vs|e3]; [|exists e3; reflexivity].
  rewrite bind_ok; cbv beta.
  destruct (mapM (Dashboard.name_of "question") rs) as [qs|e4] eqn:H4;
    [|exists e4; reflexivity].
  exfalso.
  apply elem_of_cons in Hkey as [-> | Hkey]; [congruence|].
  apply elem_of_cons in Hkey as [-> | Hkey]; [congruence|].
  apply elem_of_cons in Hkey as [-> | Hkey]; [congruence|].
  inversion Hkey.
Qed.

(** X10. A result file that is a list in which some record lacks the
    key 'llm', 'moral_foundation' or 'question' adds no entry to the
    index, whatever its other records hold: processing it raises, and
    the warning for the file is printed. *)
Theorem dashboard_warns_on_missing_key :
  forall (f : Dashboard.file) (items : list Json.value)
         (members : list (string * Json.value)) (key : string),
    Json.loads (Dashboard.content f) = Ok (Json.Arr items) ->
    Json.Obj members ∈ items ->
    key ∈ ["llm"; "moral_foundation"; "question"]%string ->
    Json.get members key = None ->
    exists e,
      Dashboard.process f = Raise e
      /\ Dashboard.indexed f = None
      /\ Dashboard.warned f = Some (Dashboard.Warning (Dashboard.path f) e).
Proof.
  intros f items members key Hl Hin Hkey Hget.
  assert (Hp : exists e, Dashboard.process f = Raise e).
  { assert (Ht : Dashboard.truthy (Json.Arr items) = true)
      by (destruct items; [inversion Hin | reflexivity]).
    destruct (Dashboard.records (Json.Arr items)) as [rs|e] eqn:Hrs.
    - destruct (mapM_ok_elem Dashboard.as_dict items (Json.Obj members) rs
                  Hrs Hin) as (r & Hr & Hrin).
      injection Hr as <-.
      assert (Hname : Dashboard.name_of key members
                      = Raise (Exception "KeyError" key))
        by (unfold Dashboard.name_of; rewrite Hget; reflexivity).
      destruct (mapM_raise (Dashboard.name_of key) rs members _ Hrin Hname)
        as (e' & He').
      exact (process_raises_after_records f _ rs key e' Hl Ht Hrs Hkey He').
    - exists e. unfold Dashboard.process.
      rewrite Hl, bind_ok; cbv beta. rewrite Ht. cbn [negb].
      rewrite Hrs. reflexivity. }
  destruct Hp as (e & Hp). exists e.
  unfold Dashboard.indexed, Dashboard.warned. rewrite Hp. auto.
Qed.

Lemma dashboard_warns_on_missing_key_witness :
  let good := [ ("llm"%string, Json.Str "model-a");
                ("moral_foundation"%string, Json.Str "Harm-Care");
                ("question"%string, Json.Str "q1") ] in
  let bad := [ ("llm"%string, Json.Str "model-a");
               ("question"%string, Json.Str "q2") ] in
  let f :=
    Dashboard.File "results/moral_foundations_results_1.json"
      (Json.dumps (Json.Arr [Json.Obj good; Json.Obj bad]))
      "2025-01-01T09:00:00" in
  exists e, Dashboard.process f = Raise e /\ Dashboard.indexed f = None.
Proof.
  intros good bad f.
  destruct (dashboard_warns_on_missing_key f [Json.Obj good; Json.Obj bad]
              bad "moral_foundation") as (e & Hp & Hi & _).
  - reflexivity.
  - apply elem_of_cons. right. apply elem_of_cons. left. reflexivity.
  - apply elem_of_cons. right. apply elem_of_cons. left. reflexivity.
  - reflexivity.
  - exists e. split; [exact Hp | exact Hi].
Defined.

#[local] Instance newest_first_transitive :
  Transitive (fun a b : Dashboard.file =>
                String.le (Dashboard.path b) (Dashboard.path a)).
Proof. intros a b c Hab Hbc. by transitivity (Dashboard.path b). Qed.

#[local] Instance newest_first_total :
  Total (fun a b : Dashboard.file =>
           String.le (Dashboard.path b) (Dashboard.path a)).
Proof.
  intros a b.
  destruct (total String.le (Dashboard.path a) (Dashboard.path b)); auto.
Qed.









(** ** Stripping and replacing *)

Lemma lstrip_of_head (cls : ascii -> bool) (s : string) (c : ascii)
    (rest : string) :
  Str.lstrip_of cls s = String c rest -> cls c = false.
Proof.
  induction s as [|a s IH]; simpl; [discriminate|].
  destruct (cls a) eqn:Ha; [exact IH|]. intros [= <- _]. exact Ha.
Qed.

Lemma lstrip_of_fix (cls : ascii -> bool) (s : string) :
  (forall c rest, s = String c rest -> cls c = false) ->
  Str.lstrip_of cls s = s.
Proof.
  destruct s as [|a s]; intros H; [reflexivity|].
  simpl. rewrite (H a s eq_refl). reflexivity.
Qed.

Lemma rstrip_of_head (cls : ascii -> bool) (s : string) (c : ascii)
    (rest : string) :
  Str.rstrip_of cls s = String c rest -> exists rest', s = String c rest'.
Proof.
  destruct s as [|a s]; simpl; [discriminate|].
  destruct (Str.rstrip_of cls s) as [|c' t].
  - destruct (cls a); [discriminate|]. intros [= <- _]. eauto.
  - intros [= <- _]. eauto.
Qed.

Lemma rstrip_of_idem (cls : ascii -> bool) (s : string) :
  Str.rstrip_of cls (Str.rstrip_of cls s) = Str.rstrip_of cls s.
Proof.
  induction s as [|a s IH]; [reflexivity|].
  simpl. destruct (Str.rstrip_of cls s) as [|c' t] eqn:E.
  - destruct (cls a) eqn:Ha; [reflexivity|]. simpl. rewrite Ha. reflexivity.
  - change (Str.rstrip_of cls (String a (String c' t)))
      with (match Str.rstrip_of cls (String c' t) with
            | EmptyString =>
                if cls a then EmptyString else String a EmptyString
            | String x u => String a (String x u)
            end).
    rewrite IH. reflexivity.
Qed.

Lemma strip_of_idem (cls : ascii -> bool) (s : string) :
  Str.strip_of cls (Str.strip_of cls s) = Str.strip_of cls s.
Proof.
  unfold Str.strip_of.
  rewrite (lstrip_of_fix cls (Str.rstrip_of cls (Str.lstrip_of cls s))).
  - apply rstrip_of_idem.
  - intros c rest H. apply rstrip_of_head in H as (rest' & H).
    exact (lstrip_of_head _ _ _ _ H).
Qed.

Lemma contains_lstrip (cls : ascii -> bool) (x : ascii) (s : string) :
  Str.contains x s = false -> Str.contains x (Str.lstrip_of cls s) = false.
Proof.
  induction s as [|a s IH]; [reflexivity|].
  simpl. destruct (cls a); [|auto].
  intros H. apply orb_false_iff in H as [_ H]. auto.
Qed.

Lemma contains_rstrip (cls : ascii -> bool) (x : ascii) (s : string) :
  Str.contains x s = false -> Str.contains x (Str.rstrip_of cls s) = false.
Proof.
  induction s as [|a s IH]; [reflexivity|].
  simpl. intros H. apply orb_false_iff in H as [Ha Hs].
  specialize (IH Hs).
  destruct (Str.rstrip_of cls s) as [|c' t].
  - destruct (cls a); [reflexivity|]. simpl. rewrite Ha. reflexivity.
  - change (Str.contains x (String a (String c' t)))
      with (Ascii.eqb a x || Str.contains x (String c' t)).
    rewrite Ha, IH. reflexivity.
Qed.

Lemma contains_app (x : ascii) (a b : string) :
  Str.contains x (a ++ b)%string = Str.contains x a || Str.contains x b.
Proof.
  induction a as [|c a IH]; [reflexivity|].
  rewrite app_cons. simpl. rewrite IH. apply orb_assoc.
Qed.

(** Replacing a character by a text that does not hold it leaves no
    occurrence. *)
Lemma replace_char_gone (x : ascii) (new s : string) :
  Str.contains x new = false ->
  Str.contains x (Str.replace (String x "") new s) = false.
Proof.
  intros Hnew. unfold Str.replace.
  induction s as [|c s IH]; [reflexivity|].
  cbn [Str.replace_from Str.startswith String.length Nat.sub].
  destruct (Ascii.eqb x c) eqn:E; cbn [andb].
  - rewrite contains_app, Hnew, IH. reflexivity.
  - simpl. rewrite IH, orb_false_r.
    rewrite Ascii.eqb_sym. exact E.
Qed.

(** ** The constructor of the analyzer *)

(** X12. The constructor fails when a prompt file cannot be read, with
    the exception of the read and before the keys are looked at.  With
    both prompts read it raises ValueError exactly when none of the
    three keys is set to a non-empty text.  Otherwise it returns an
    analyzer without questions and results, with the stripped prompts,
    and with at least one model: two for the OpenAI key and one each for
    the Anthropic and the Google key, under distinct names. *)
Theorem analyzer_needs_prompts_and_a_key :
  forall (read : string -> result string) (getenv : string -> option string)
         (connect : Setup.chat_model -> Analyzer.client),
    (forall e,
       read "moral_foundations_part1_prompt" = Raise e ->
       Setup.__init__ read getenv connect = Raise e)
    /\ (forall t1 e,
          read "moral_foundations_part1_prompt" = Ok t1 ->
          read "moral_foundations_part2_prompt" = Raise e ->
          Setup.__init__ read getenv connect = Raise e)
    /\ (forall t1 t2,
          read "moral_foundations_part1_prompt" = Ok t1 ->
          read "moral_foundations_part2_prompt" = Ok t2 ->
          (Setup.is_set (getenv "OPENAI_API_KEY") = false ->
           Setup.is_set (getenv "ANTHROPIC_API_KEY") = false ->
           Setup.is_set (getenv "GOOGLE_API_KEY") = false ->
           Setup.__init__ read getenv connect
           = Raise (Exception "ValueError"
                      "No API keys found. Please set at least one API key in .env file"))
          /\ (Setup.is_set (getenv "OPENAI_API_KEY")
              || Setup.is_set (getenv "ANTHROPIC_API_KEY")
              || Setup.is_set (getenv "GOOGLE_API_KEY") = true ->
              exists self,
                Setup.__init__ read getenv connect = Ok self
                /\ Analyzer.questions self = []
                /\ Analyzer.results self = []
                /\ Analyzer.part1_prompt self = Str.strip t1
                /\ Analyzer.part2_prompt self = Str.strip t2
                /\ Str.strip (Analyzer.part1_prompt self)
                   = Analyzer.part1_prompt self
                /\ Str.strip (Analyzer.part2_prompt self)
                   = Analyzer.part2_prompt self
                /\ NoDup (map fst (Analyzer.llms self))
                /\ length (Analyzer.llms self)
                   = ((if Setup.is_set (getenv "OPENAI_API_KEY")
                       then 2 else 0)
                      + (if Setup.is_set (getenv "ANTHROPIC_API_KEY")
                         then 1 else 0)
                      + (if Setup.is_set (getenv "GOOGLE_API_KEY")
                         then 1 else 0))%nat)).
Proof.
  intros read getenv connect. split; [|split].
  - intros e H. unfold Setup.__init__, Setup._load_prompt.
    rewrite H. reflexivity.
  - intros t1 e H1 H2. unfold Setup.__init__, Setup._load_prompt.
    rewrite H1, H2. reflexivity.
  - intros t1 t2 H1 H2.
    unfold Setup.__init__, Setup._load_prompt, Setup._initialize_llms.
    rewrite H1, H2, !bind_ok. cbv beta zeta.
    split.
    + intros -> -> ->. reflexivity.
    + intros Hset.
      destruct (Setup.is_set (getenv "OPENAI_API_KEY")),
        (Setup.is_set (getenv "ANTHROPIC_API_KEY")),
        (Setup.is_set (getenv "GOOGLE_API_KEY"));
        try discriminate Hset;
        (eexists; split; [reflexivity|];
         cbn [Analyzer.questions Analyzer.results Analyzer.part1_prompt
              Analyzer.part2_prompt Analyzer.llms];
         repeat split;
         try (unfold Str.strip; apply strip_of_idem);
         match goal with
         | |- NoDup ?l =>
             apply (@bool_decide_unpack (NoDup l) _); vm_compute; exact I
         end).
Qed.

Lemma analyzer_needs_prompts_and_a_key_witness :
  let read := fun name : string => Ok ("  Rate from 0 to 5. " ++ name)%string in
  let getenv := fun name : string =>
    if String.eqb name "ANTHROPIC_API_KEY" then Some "key"%string else None in
  let connect := fun _ : Setup.chat_model =>
    Analyzer.Client (fun _ => Ok (Analyzer.Response "4")) in
  exists self,
    Setup.__init__ read getenv connect = Ok self
    /\ length (Analyzer.llms self) = 1%nat.
Proof.
  intros read getenv connect.
  destruct (proj2 (proj2 (proj2 (analyzer_needs_prompts_and_a_key
                                    read getenv connect))
                     _ _ eq_refl eq_refl) eq_refl)
    as (self & H & _ & _ & _ & _ & _ & _ & _ & Hlen).
  exists self. split; [exact H | exact Hlen].
Defined.

(** ** Loading the questions *)

Lemma load_row_ok (r : Loader.row) (q : Loader.entry) :
  Loader.load_row r = Ok q ->
  exists text part_text,
    r !! "Question"%string = Some (Some text)
    /\ r !! "Part"%string = Some (Some part_text)
    /\ Str.int part_text = Ok (Loader.part q)
    /\ r !! "Moral"%string = Some (Loader.moral_foundation q)
    /\ r !! "Outputs"%string = Some (Loader.expected_output q)
    /\ Loader.question q
       = Str.strip (Str.replace (String Json.newline "") " " text).
Proof.
  unfold Loader.load_row, Loader.getitem.
  destruct (r !! "Question"%string) as [[text|]|] eqn:H1; [|discriminate..].
  rewrite !bind_ok; cbv beta zeta.
  destruct (r !! "Part"%string) as [[part_text|]|] eqn:H2; [|discriminate..].
  rewrite bind_ok; cbv beta.
  destruct (Str.int part_text) as [part|] eqn:H3; [|discriminate].
  rewrite bind_ok; cbv beta.
  destruct (r !! "Moral"%string) as [moral|] eqn:H4; [|discriminate].
  rewrite bind_ok; cbv beta.
  destruct (r !! "Outputs"%string) as [outputs|] eqn:H5; [|discriminate].
  rewrite bind_ok; cbv beta.
  intros [= <-]. exists text, part_text.
  cbn [Loader.part Loader.moral_foundation Loader.expected_output
       Loader.question].
  repeat split; assumption.
Qed.

Lemma load_row_clean (r : Loader.row) (q : Loader.entry) :
  Loader.load_row r = Ok q ->
  Str.contains Json.newline (Loader.question q) = false
  /\ Str.strip (Loader.question q) = Loader.question q.
Proof.
  intros H. apply load_row_ok in H as (text & p & _ & _ & _ & _ & _ & ->).
  split.
  - unfold Str.strip, Str.strip_of.
    apply contains_rstrip, contains_lstrip, replace_char_gone. reflexivity.
  - unfold Str.strip. apply strip_of_idem.
Qed.

Lemma load_loop_ok (rows : list Loader.row) :
  forall acc qs,
  Exn.foldM (fun questions r => q ← Loader.load_row r; mret (questions ++ [q]))
    acc rows = Ok qs ->
  exists new,
    qs = acc ++ new
    /\ Forall2 (fun r q => Loader.load_row r = Ok q) rows new.
Proof.
  induction rows as [|r rows IH]; intros acc qs.
  - intros [= <-]. exists []. rewrite app_nil_r. split; [reflexivity|].
    constructor.
  - cbn [Exn.foldM].
    destruct (Loader.load_row r) as [q|e] eqn:Hr; [|discriminate].
    rewrite !bind_ok. intros H.
    destruct (IH _ _ H) as (new & -> & Hnew).
    exists (q :: new). rewrite <- app_assoc. split; [reflexivity|].
    constructor; assumption.
Qed.

Lemma load_loop_raise (rows : list Loader.row) (r : Loader.row) (e : exn) :
  r ∈ rows -> Loader.load_row r = Raise e ->
  forall acc,
  exists e',
    Exn.foldM (fun questions r => q ← Loader.load_row r; mret (questions ++ [q]))
      acc rows = Raise e'.
Proof.
  intros Hin Hr. induction rows as [|x rows IH]; intros acc; [inversion Hin|].
  cbn [Exn.foldM]. apply elem_of_cons in Hin as [<- | Hin].
  - rewrite Hr. exists e. reflexivity.
  - destruct (Loader.load_row x) as [q|e1]; [|exists e1; reflexivity].
    rewrite !bind_ok. apply (IH Hin).
Qed.

(** X13. When [load_questions] returns, the questions held before are
    followed by one question per row, in the order of the rows, and the
    text of every loaded question holds no line feed and has no white
    space at either end.  A row loads exactly when the header has the
    four columns, the line reaches the Question and the Part, and
    [int] accepts the Part; a line that stops before the Moral or the
    Outputs loads with [None] there.  A row that does not load makes the
    whole call raise: KeyError without a column, AttributeError and
    TypeError where the Question and the Part are [None]. *)
Theorem loaded_questions_are_clean :
  forall (questions : list Loader.entry) (rows : list Loader.row),
    (forall qs,
       Loader.load_questions questions rows = Ok qs ->
       exists new,
         qs = questions ++ new
         /\ length new = length rows
         /\ Forall2 (fun r q => Loader.load_row r = Ok q) rows new
         /\ Forall (fun q =>
                      Str.contains Json.newline (Loader.question q) = false
                      /\ Str.strip (Loader.question q)
                         = Loader.question q) new)
    /\ (forall r e,
          r ∈ rows ->
          Loader.load_row r = Raise e ->
          exists e', Loader.load_questions questions rows = Raise e')
    /\ (forall r : Loader.row,
          (exists q, Loader.load_row r = Ok q) <->
          (exists text, r !! "Question"%string = Some (Some text))
          /\ (exists p z,
                r !! "Part"%string = Some (Some p) /\ Str.int p = Ok z)
          /\ is_Some (r !! "Moral"%string)
          /\ is_Some (r !! "Outputs"%string))
    /\ (forall (r : Loader.row) (q : Loader.entry),
          Loader.load_row r = Ok q ->
          r !! "Moral"%string = Some (Loader.moral_foundation q)
          /\ r !! "Outputs"%string = Some (Loader.expected_output q))
    /\ (forall r : Loader.row,
          (r !! "Question"%string = None ->
           exists message,
             Loader.load_row r = Raise (Exception "KeyError" message))
          /\ (r !! "Question"%string = Some None ->
              exists message,
                Loader.load_row r
                = Raise (Exception "AttributeError" message))
          /\ (forall text,
                r !! "Question"%string = Some (Some text) ->
                r !! "Part"%string = Some None ->
                exists message,
                  Loader.load_row r
                  = Raise (Exception "TypeError" message))).
Proof.
  intros questions rows. split; [|split; [|split; [|split]]].
  - intros qs H. apply load_loop_ok in H as (new & -> & Hnew).
    exists new. split; [reflexivity|].
    split; [symmetry; exact (Forall2_length _ _ _ Hnew)|].
    split; [exact Hnew|].
    clear -Hnew. induction Hnew as [|r q rows new Hr _ IH]; constructor.
    + exact (load_row_clean r q Hr).
    + exact IH.
  - intros r e Hin Hr. apply (load_loop_raise rows r e Hin Hr).
  - intros r. split.
    + intros (q & H).
      apply load_row_ok in H as (text & p & H1 & H2 & H3 & H4 & H5 & _).
      rewrite H1, H2, H4, H5. repeat split; eauto.
    + intros ((text & H1) & (p & z & H2 & H3) & (m & H4) & (o & H5)).
      unfold Loader.load_row, Loader.getitem.
      rewrite H1, H2, H4, H5, !bind_ok. cbv beta zeta.
      rewrite H3, !bind_ok. eauto.
  - intros r q H.
    apply load_row_ok in H as (text & p & _ & _ & _ & H4 & H5 & _). auto.
  - intros r. unfold Loader.load_row, Loader.getitem.
    split; [|split].
    + intros ->. eexists. reflexivity.
    + intros ->. eexists. reflexivity.
    + intros text -> ->. eexists. reflexivity.
Qed.

Lemma loaded_questions_are_clean_witness :
  let full : Loader.row :=
    <[ "Question"%string :=
         Some (" Whether someone" ++ String Json.newline "suffered ")%string ]>
      (<[ "Part"%string := Some " 1"%string ]>
         (<[ "Moral"%string := Some "Harm-Care"%string ]>
            (<[ "Outputs"%string := Some "0-5"%string ]> ∅))) in
  let short : Loader.row :=
    <[ "Question"%string := Some "Whether someone was cruel"%string ]>
      (<[ "Part"%string := Some "1"%string ]>
         (<[ "Moral"%string := None ]>
            (<[ "Outputs"%string := None ]> ∅))) in
  Loader.load_questions [] [full; short]
  = Ok [ Loader.Entry "Whether someone suffered" 1 (Some "Harm-Care"%string)
           (Some "0-5"%string);
         Loader.Entry "Whether someone was cruel" 1 None None ]
  /\ exists new,
       [ Loader.Entry "Whether someone suffered" 1 (Some "Harm-Care"%string)
           (Some "0-5"%string);
         Loader.Entry "Whether someone was cruel" 1 None None ]
       = [] ++ new
       /\ length new = 2%nat.
Proof.
  intros full short.
  assert (H : Loader.load_questions [] [full; short]
              = Ok [ Loader.Entry "Whether someone suffered" 1
                       (Some "Harm-Care"%string) (Some "0-5"%string);
                     Loader.Entry "Whether someone was cruel" 1 None None ])
    by (vm_compute; reflexivity).
  split; [exact H|].
  destruct (proj1 (loaded_questions_are_clean [] [full; short]) _ H)
    as (new & H1 & H2 & _).
  exists new. split; [exact H1 | exact H2].
Defined.

(** ** The path of the report *)

Lemma replace_from_absent (old new s : string) :
  Str.occurs old s = false -> Str.replace_from 0 old new s = s.
Proof.
  induction s as [|c s IH]; [reflexivity|].
  cbn [Str.occurs Str.replace_from]. intros H.
  apply orb_false_iff in H as [H1 H2]. rewrite H1, (IH H2). reflexivity.
Qed.

Lemma startswith_json_suffix (c : ascii) (rest : string) :
  Str.startswith ".json" (String c rest) = false ->
  Str.startswith ".json" (String c rest ++ ".json")%string = false.
Proof.
  destruct rest as [|r1 [|r2 [|r3 [|r4 rest]]]];
    rewrite ?app_cons, ?app_nil_l; cbn [Str.startswith];
    try (intros H; exact H);
    intros _;
    repeat match goal with
           | |- context [Ascii.eqb ?a ?b] =>
               first [ is_var b; destruct (Ascii.eqb a b)
                     | let v := eval vm_compute in (Ascii.eqb a b) in
                       change (Ascii.eqb a b) with v ]
           end;
    reflexivity.
Qed.

Lemma replace_json_suffix (stem : string) :
  Str.occurs ".json" stem = false ->
  Str.replace_from 0 ".json" ".html" (stem ++ ".json")%string
  = (stem ++ ".html")%string.
Proof.
  induction stem as [|c stem IH]; [reflexivity|].
  cbn [Str.occurs]. intros H. apply orb_false_iff in H as [H1 H2].
  pose proof (startswith_json_suffix c stem H1) as H3.
  rewrite app_cons in H3 |- *. cbn [Str.replace_from].
  rewrite H3, (IH H2), app_cons. reflexivity.
Qed.

(** X14. Without a path given, [generate_html] writes the report to the
    path of the results with every ".json" replaced by ".html".  For a
    path that ends in ".json" and holds no other ".json" this is the
    path with the suffix changed.  For a path that holds no ".json" it
    is the path of the results itself, so the report is written over the
    results; and a ".json" in a directory name is replaced too. *)
Theorem report_path_from_results_path :
  (forall stem : string,
     Str.occurs ".json" stem = false ->
     Html.output_path (stem ++ ".json")%string None
     = (stem ++ ".html")%string)
  /\ (forall json_path : string,
        Str.occurs ".json" json_path = false ->
        Html.output_path json_path None = json_path)
  /\ (forall json_path given : string,
        Html.output_path json_path (Some given) = given)
  /\ Html.output_path "runs.json/results_1.json" None
     = "runs.html/results_1.html"%string.
Proof.
  split; [|split; [|split]].
  - intros stem H. apply (replace_json_suffix stem H).
  - intros json_path H. apply (replace_from_absent _ _ _ H).
  - reflexivity.
  - reflexivity.
Qed.

Lemma report_path_from_results_path_witness :
  Html.output_path "results/moral_foundations_results_20250101_100000.json"
    None
  = "results/moral_foundations_results_20250101_100000.html"%string
  /\ Html.output_path "results/moral_foundations_results.txt" None
     = "results/moral_foundations_results.txt"%string.
Proof.
  split.
  - apply (proj1 report_path_from_results_path
             "results/moral_foundations_results_20250101_100000").
    reflexivity.
  - apply (proj1 (proj2 report_path_from_results_path)
             "results/moral_foundations_results.txt").
    reflexivity.
Defined.

(** ** The table of the report *)

Lemma foldM_ok_in {A B : Type} (f : B -> A -> result B) (g : B -> A -> B)
    (l : list A) :
  (forall b x, x ∈ l -> f b x = Ok (g b x)) ->
  forall b, Exn.foldM f b l = Ok (fold_left g l b).
Proof.
  induction l as [|x l IH]; intros H b; [reflexivity|].
  simpl. rewrite H, bind_ok by (apply elem_of_cons; left; reflexivity).
  apply IH. intros b' y Hy. apply H, elem_of_cons. right. exact Hy.
Qed.

Lemma header_loop (fs : list string) :
  forall html : string,
  fold_left
    (fun html foundation => (html ++ "<th>" ++ foundation ++ "</th>")%string)
    fs html
  = (html ++ Html.header_cells fs)%string.
Proof.
  induction fs as [|f fs IH]; intros html.
  - simpl. rewrite app_nil_r_s. reflexivity.
  - cbn [fold_left Html.header_cells foldr]. rewrite IH, !app_assoc_s.
    reflexivity.
Qed.

Lemma cells_loop (st : Report.stats) (m : string) (score : string -> Z)
    (fs : list string) :
  (forall f, f ∈ fs ->
     exists row,
       Report.by_llm_foundation st !! m = Some row
       /\ row !! f = Some (score f)) ->
  forall html : string,
  Exn.foldM
    (fun html foundation =>
       row ← Html.row_of st m;
       let score := default 0 (row !! foundation) in
       mret (html ++ "<td " ++ Html.attr "class" "score-cell" ++ ">"
             ++ Json.encode_int score ++ "</td>")%string)
    html fs
  = Ok (html ++ Html.score_cells score fs)%string.
Proof.
  induction fs as [|f fs IH]; intros H html.
  - simpl. rewrite app_nil_r_s. reflexivity.
  - cbn [Exn.foldM Html.score_cells foldr].
    destruct (H f) as (row & Hrow & Hf);
      [apply elem_of_cons; left; reflexivity|].
    assert (Hr : Html.row_of st m = Ok row)
      by (unfold Html.row_of; rewrite Hrow; reflexivity).
    rewrite Hr at 1. rewrite bind_ok; cbv beta zeta.
    rewrite Hf, bind_ok. cbn [default].
    rewrite IH.
    + rewrite !app_assoc_s. reflexivity.
    + intros f' Hf'. apply H, elem_of_cons. right. exact Hf'.
Qed.

Lemma rows_loop (st : Report.stats) (score : string -> string -> Z)
    (fs ms : list string) :
  (forall m f, m ∈ ms -> f ∈ fs ->
     exists row,
       Report.by_llm_foundation st !! m = Some row
       /\ row !! f = Some (score m f)) ->
  forall html : string,
  Exn.foldM
    (fun html llm =>
       let html :=
         (html ++ "<tr><td><span " ++ Html.attr "class" "llm-badge" ++ ">"
          ++ llm ++ "</span></td>")%string in
       html ←
         Exn.foldM
           (fun html foundation =>
              row ← Html.row_of st llm;
              let score := default 0 (row !! foundation) in
              mret (html ++ "<td " ++ Html.attr "class" "score-cell" ++ ">"
                    ++ Json.encode_int score ++ "</td>")%string)
           html fs;
       mret (html ++ "</tr>")%string)
    html ms
  = Ok (html ++ Html.table_rows score ms fs)%string.
Proof.
  induction ms as [|m ms IH]; intros H html.
  - simpl. rewrite app_nil_r_s. reflexivity.
  - cbn [Exn.foldM Html.table_rows foldr]. cbv zeta.
    rewrite (cells_loop st m (score m) fs), bind_ok; cbv beta.
    + rewrite bind_ok, IH.
      * rewrite !app_assoc_s. reflexivity.
      * intros m' f Hm' Hf. apply H; [|exact Hf].
        apply elem_of_cons. right. exact Hm'.
    + intros f Hf. apply H; [|exact Hf]. apply elem_of_cons. left. reflexivity.
Qed.

Lemma build_table_ok (st : Report.stats) (score : string -> string -> Z) :
  (forall m f, m ∈ Report.llms st -> f ∈ Report.foundations st ->
     exists row,
       Report.by_llm_foundation st !! m = Some row
       /\ row !! f = Some (score m f)) ->
  Html._build_foundation_table st
  = Ok (Html.table_of score (Report.llms st) (Report.foundations st)).
Proof.
  intros H. unfold Html._build_foundation_table. cbv zeta.
  rewrite header_loop, (rows_loop st score) by exact H.
  rewrite bind_ok. unfold Html.table_of. rewrite !app_assoc_s. reflexivity.
Qed.

(** X15. For the statistics of a list of legal results the table of the
    report is built without a missing key: it has one row per model and
    one cell per foundation, in the order of the statistics, and the
    cell of a model and a foundation shows the sum of the extracted
    values of the valid records of that model on that foundation. *)
Theorem foundation_table_shows_sums :
  forall (rs : list QueryResult.t) (st : Report.stats),
    Aggregate.legal_results rs ->
    Report.statistics rs = Ok st ->
    Html._build_foundation_table st
    = Ok (Html.table_of (Aggregate.score_sum rs)
            (Aggregate.model_names rs) (Aggregate.foundation_names rs)).
Proof.
  intros rs st Hlegal Hst.
  assert (Hnames : Report.llms st = Aggregate.model_names rs
                   /\ Report.foundations st = Aggregate.foundation_names rs).
  { destruct rs as [|r rs]; [discriminate|].
    rewrite statistics_ok in Hst. injection Hst as <-. auto. }
  destruct Hnames as [Hl Hf].
  rewrite (build_table_ok st (Aggregate.score_sum rs)).
  - rewrite Hl, Hf. reflexivity.
  - rewrite Hl, Hf. intros m f Hm Hfn.
    pose proof (entry_of_statistics rs st m f Hst) as He.
    rewrite !bool_decide_eq_true_2 in He by assumption.
    rewrite (frame_sum_exact rs m f Hlegal) in He.
    unfold Aggregate.entry in He.
    destruct (Report.by_llm_foundation st !! m) as [row|]; [|discriminate].
    exists row. split; [reflexivity | exact He].
Qed.

Lemma foundation_table_shows_sums_witness :
  let rs := [ QueryResult.Make "model-a" "q1" 1 "Harm-Care" "4" 4 "t1";
              QueryResult.Make "model-a" "q2" 2 "Harm-Care" "3" 3 "t2" ] in
  exists st,
    Report.statistics rs = Ok st
    /\ Html._build_foundation_table st
       = Ok (Html.table_of (fun _ _ => 7) ["model-a"%string]
               ["Harm-Care"%string]).
Proof.
  intros rs.
  destruct (Report.statistics rs) as [st|e] eqn:Hst;
    [|unfold rs in Hst; rewrite statistics_ok in Hst; discriminate].
  exists st. split; [reflexivity|].
  rewrite (foundation_table_shows_sums rs st); [reflexivity | | exact Hst].
  split; [|vm_compute; reflexivity].
  repeat constructor; vm_compute; discriminate.
Defined.

(** ** The question blocks of the report *)

Lemma unique_snoc (l : list string) (x : string) :
  Pandas.unique (l ++ [x])
  = Pandas.unique l ++ (if bool_decide (x ∈ l) then [] else [x]).
Proof.
  induction l as [|a l IH].
  - rewrite bool_decide_eq_false_2 by (intros H; inversion H). reflexivity.
  - cbn [app Pandas.unique]. rewrite IH, List.filter_app. cbn [app].
    f_equal. f_equal.
    destruct (String.eqb_spec a x) as [->|Hne].
    + rewrite (bool_decide_eq_true_2 (x ∈ x :: l))
        by (apply elem_of_cons; left; reflexivity).
      case_bool_decide; [reflexivity|].
      simpl. rewrite String.eqb_refl. reflexivity.
    + case_bool_decide as H1; case_bool_decide as H2; try reflexivity.
      * exfalso. apply H2, elem_of_cons. right. exact H1.
      * exfalso. apply elem_of_cons in H2 as [H2|H2]; [congruence | auto].
      * simpl. apply String.eqb_neq in Hne. rewrite Hne. reflexivity.
Qed.

Lemma has_key_map (g : string -> Html.group) (q : string)
    (keys : list string) :
  Html.has_key q (map (fun k => (k, g k)) keys) = bool_decide (q ∈ keys).
Proof.
  induction keys as [|k keys IH].
  - rewrite bool_decide_eq_false_2 by (intros H; inversion H). reflexivity.
  - cbn [map Html.has_key]. rewrite IH.
    destruct (String.eqb_spec k q) as [->|Hne].
    + rewrite (bool_decide_eq_true_2 (q ∈ q :: keys))
        by (apply elem_of_cons; left; reflexivity).
      reflexivity.
    + simpl. case_bool_decide as H1; case_bool_decide as H2; try reflexivity.
      * exfalso. apply H2, elem_of_cons. right. exact H1.
      * exfalso. apply elem_of_cons in H2 as [H2|H2]; [congruence | auto].
Qed.

Lemma append_response_absent (q : string) (r : QueryResult.t)
    (g : string -> Html.group) (keys : list string) (d : Html.questions) :
  q ∉ keys ->
  Html.append_response q r (map (fun k => (k, g k)) keys ++ d)
  = map (fun k => (k, g k)) keys ++ Html.append_response q r d.
Proof.
  induction keys as [|k keys IH]; intros Hq; [reflexivity|].
  cbn [map app Html.append_response].
  apply not_elem_of_cons in Hq as [Hne Hq].
  destruct (String.eqb_spec k q) as [->|_]; [contradiction|].
  rewrite (IH Hq). reflexivity.
Qed.

Lemma append_response_present (q : string) (r : QueryResult.t)
    (g : string -> Html.group) (keys : list string) :
  NoDup keys ->
  q ∈ keys ->
  Html.append_response q r (map (fun k => (k, g k)) keys)
  = map (fun k =>
           (k, if String.eqb k q
               then Html.Group (Html.moral_foundation (g k))
                      (Html.part (g k)) (Html.responses (g k) ++ [r])
               else g k))
      keys.
Proof.
  induction 1 as [|k keys Hk Hnd IH]; intros Hq; [inversion Hq|].
  cbn [map Html.append_response].
  destruct (String.eqb_spec k q) as [->|Hne].
  - f_equal. apply map_ext_in. intros k Hin.
    apply list_elem_of_In in Hin.
    destruct (String.eqb_spec k q) as [->|_]; [contradiction | reflexivity].
  - f_equal. apply IH.
    apply elem_of_cons in Hq as [Hq|Hq]; [congruence | exact Hq].
Qed.

Lemma group_of_snoc (done : list QueryResult.t) (r : QueryResult.t)
    (k : string) :
  Html.group_of (done ++ [r]) k
  = if String.eqb (QueryResult.question r) k
    then match List.filter
                 (fun x => String.eqb (QueryResult.question x) k) done with
         | [] => Html.Group (QueryResult.moral_foundation r)
                   (QueryResult.part r) [r]
         | x :: l =>
             Html.Group (Html.moral_foundation (Html.group_of done k))
               (Html.part (Html.group_of done k))
               (Html.responses (Html.group_of done k) ++ [r])
         end
    else Html.group_of done k.
Proof.
  unfold Html.group_of. rewrite List.filter_app. cbn [List.filter].
  destruct (String.eqb (QueryResult.question r) k).
  - destruct (List.filter _ done) as [|x l]; reflexivity.
  - rewrite app_nil_r. reflexivity.
Qed.

Lemma filter_question_nil (done : list QueryResult.t) (q : string) :
  q ∉ map QueryResult.question done ->
  List.filter (fun x => String.eqb (QueryResult.question x) q) done = [].
Proof.
  induction done as [|x done IH]; intros H; [reflexivity|].
  cbn [map] in H. apply not_elem_of_cons in H as [Hne H].
  simpl. destruct (String.eqb_spec (QueryResult.question x) q) as [E|_];
    [congruence | auto].
Qed.

Lemma filter_question_cons (done : list QueryResult.t) (q : string) :
  q ∈ map QueryResult.question done ->
  exists x l,
    List.filter (fun x => String.eqb (QueryResult.question x) q) done = x :: l.
Proof.
  intros H. apply list_elem_of_fmap in H as (r & -> & Hr).
  assert (Hin : r ∈ List.filter
                      (fun x => String.eqb (QueryResult.question x)
                                  (QueryResult.question r)) done).
  { apply elem_of_List_filter. split; [exact Hr | apply String.eqb_refl]. }
  destruct (List.filter _ done) as [|x l]; [inversion Hin | eauto].
Qed.

Lemma questions_dict_groups (rs : list QueryResult.t) :
  Html.questions_dict rs
  = map (fun q => (q, Html.group_of rs q))
      (Pandas.unique (map QueryResult.question rs)).
Proof.
  unfold Html.questions_dict.
  induction rs as [|r done IH] using rev_ind; [reflexivity|].
  rewrite fold_left_app. cbn [fold_left]. rewrite IH.
  rewrite map_app. cbn [map]. rewrite unique_snoc.
  unfold Html.group_step. cbv zeta. rewrite has_key_map.
  set (q := QueryResult.question r).
  set (keys := Pandas.unique (map QueryResult.question done)).
  assert (Hkeys : q ∈ keys <-> q ∈ map QueryResult.question done)
    by apply elem_of_unique.
  destruct (bool_decide (q ∈ keys)) eqn:Hk.
  - apply bool_decide_eq_true_1 in Hk.
    rewrite bool_decide_eq_true_2 by (apply Hkeys, Hk).
    rewrite app_nil_r.
    rewrite append_response_present; [|apply NoDup_unique | exact Hk].
    apply map_ext_in. intros k _. f_equal.
    rewrite group_of_snoc. fold q. rewrite String.eqb_sym.
    destruct (String.eqb_spec q k) as [<-|_]; [|reflexivity].
    destruct (filter_question_cons done q (proj1 Hkeys Hk)) as (x & l & ->).
    reflexivity.
  - apply bool_decide_eq_false_1 in Hk.
    rewrite bool_decide_eq_false_2 by (rewrite <- Hkeys; exact Hk).
    rewrite append_response_absent by exact Hk.
    rewrite map_app. cbn [map Html.append_response].
    rewrite String.eqb_refl. f_equal.
    + apply map_ext_in. intros k Hin. apply list_elem_of_In in Hin.
      f_equal. rewrite group_of_snoc. fold q.
      destruct (String.eqb_spec q k) as [<-|_]; [contradiction | reflexivity].
    + f_equal. f_equal. rewrite group_of_snoc. fold q.
      rewrite String.eqb_refl, filter_question_nil; [reflexivity|].
      rewrite <- Hkeys. exact Hk.
Qed.

Lemma map_imap_snd {A B C : Type} (f : nat -> A -> B) (g : B -> C)
    (h : A -> C) (l : list A) :
  (forall i x, g (f i x) = h x) -> map g (imap f l) = map h l.
Proof.
  revert f. induction l as [|x l IH]; intros f H; [reflexivity|].
  cbn [imap map]. rewrite H. f_equal. apply IH. intros i y. apply H.
Qed.

Lemma insert_by_llm_perm (r : QueryResult.t) (l : list QueryResult.t) :
  Html.insert_by_llm r l ≡ₚ r :: l.
Proof.
  induction l as [|x l IH]; [reflexivity|].
  simpl. destruct (String.leb _ _); [reflexivity|].
  rewrite IH. apply Permutation_swap.
Qed.

Lemma sorted_by_llm_perm (l : list QueryResult.t) :
  Html.sorted_by_llm l ≡ₚ l.
Proof.
  induction l as [|r l IH]; [reflexivity|].
  cbn [Html.sorted_by_llm foldr]. rewrite insert_by_llm_perm.
  constructor. exact IH.
Qed.

(** X16. The blocks of the detailed responses are one per distinct
    question text, in the order in which the texts first appear in the
    results.  The block of a text shows all results with that text and
    no other, and its foundation and part tags are those of the first
    such result: results that share the text of a question but differ in
    part or foundation are shown in one block, under the tags of the
    first. *)
Theorem responses_are_grouped_by_question_text :
  forall rs : list QueryResult.t,
    Html.questions_dict rs
    = map (fun q => (q, Html.group_of rs q))
        (Pandas.unique (map QueryResult.question rs))
    /\ map Html.full_question (Html.detailed_responses rs)
       = Pandas.unique (map QueryResult.question rs)
    /\ NoDup (map Html.full_question (Html.detailed_responses rs))
    /\ (forall it,
          it ∈ Html.detailed_responses rs ->
          Html.cards it
          = map Html.card_of
              (Html.sorted_by_llm
                 (List.filter
                    (fun r => String.eqb (QueryResult.question r)
                                (Html.full_question it)) rs))
          /\ exists first,
               head (List.filter
                       (fun r => String.eqb (QueryResult.question r)
                                   (Html.full_question it)) rs)
               = Some first
               /\ Html.foundation_tag it = QueryResult.moral_foundation first
               /\ Html.part_tag it = QueryResult.part first)
    /\ (forall r,
          r ∈ rs ->
          exists it,
            it ∈ Html.detailed_responses rs
            /\ Html.full_question it = QueryResult.question r
            /\ Html.card_of r ∈ Html.cards it).
Proof.
  intros rs.
  assert (Hq : map Html.full_question (Html.detailed_responses rs)
               = Pandas.unique (map QueryResult.question rs)).
  { unfold Html.detailed_responses. rewrite questions_dict_groups.
    rewrite (map_imap_snd _ _ fst) by (intros i [q g]; reflexivity).
    rewrite map_map. apply map_id. }
  assert (Hit : forall it,
             it ∈ Html.detailed_responses rs ->
             Html.full_question it ∈ map QueryResult.question rs
             /\ Html.foundation_tag it
                = Html.moral_foundation
                    (Html.group_of rs (Html.full_question it))
             /\ Html.part_tag it
                = Html.part (Html.group_of rs (Html.full_question it))
             /\ Html.cards it
                = map Html.card_of
                    (Html.sorted_by_llm
                       (Html.responses
                          (Html.group_of rs (Html.full_question it))))).
  { intros it Hin.
    assert (Hfq : Html.full_question it
                  ∈ map Html.full_question (Html.detailed_responses rs))
      by (apply list_elem_of_fmap; eauto).
    rewrite Hq, elem_of_unique in Hfq.
    split; [exact Hfq|].
    unfold Html.detailed_responses in Hin.
    rewrite questions_dict_groups in Hin.
    apply list_elem_of_lookup in Hin as (i & Hi).
    rewrite list_lookup_imap in Hi.
    destruct (map _ _ !! i) as [[q g]|] eqn:E; [|discriminate].
    injection Hi as <-. cbn.
    apply list_elem_of_lookup_2 in E.
    apply list_elem_of_fmap in E as (q' & [= -> ->] & _). auto. }
  split; [apply questions_dict_groups|]. split; [exact Hq|].
  split; [rewrite Hq; apply NoDup_unique|]. split.
  - intros it Hin. destruct (Hit it Hin) as (Hfq & Hf & Hp & Hc).
    split; [exact Hc|].
    destruct (filter_question_cons rs _ Hfq) as (x & l & E).
    exists x. rewrite Hf, Hp. unfold Html.group_of. rewrite E. auto.
  - intros r Hr.
    assert (Hfq : QueryResult.question r
                  ∈ map Html.full_question (Html.detailed_responses rs)).
    { rewrite Hq. apply elem_of_unique, list_elem_of_fmap. eauto. }
    apply list_elem_of_fmap in Hfq as (it & Hfq & Hin).
    exists it. split; [exact Hin|]. split; [symmetry; exact Hfq|].
    destruct (Hit it Hin) as (_ & _ & _ & ->).
    apply list_elem_of_fmap. exists r. split; [reflexivity|].
    rewrite sorted_by_llm_perm. unfold Html.group_of.
    cbn [Html.responses]. apply elem_of_List_filter.
    split; [exact Hr|]. rewrite <- Hfq. apply String.eqb_refl.
Qed.

Lemma insert_by_llm_sorted (r : QueryResult.t) (l : list QueryResult.t) :
  Sorted (fun a b => String.le (QueryResult.llm a) (QueryResult.llm b)) l ->
  Sorted (fun a b => String.le (QueryResult.llm a) (QueryResult.llm b))
    (Html.insert_by_llm r l).
Proof.
  induction 1 as [|x l Hs IH Hhd]; [repeat constructor|].
  simpl. destruct (String.leb (QueryResult.llm r) (QueryResult.llm x)) eqn:E.
  - constructor; [constructor; assumption|].
    constructor. unfold String.le. rewrite E. exact I.
  - assert (Hxr : String.le (QueryResult.llm x) (QueryResult.llm r)).
    { destruct (total String.le (QueryResult.llm x) (QueryResult.llm r))
        as [H|H]; [exact H|].
      unfold String.le in H. rewrite E in H. contradiction. }
    constructor; [exact IH|].
    destruct l as [|y l]; simpl.
    + constructor. exact Hxr.
    + destruct (String.leb (QueryResult.llm r) (QueryResult.llm y));
        constructor; [exact Hxr|].
      inversion Hhd. assumption.
Qed.

Lemma insert_by_llm_filter (m : string) (r : QueryResult.t)
    (l : list QueryResult.t) :
  List.filter (fun x => String.eqb (QueryResult.llm x) m)
    (Html.insert_by_llm r l)
  = List.filter (fun x => String.eqb (QueryResult.llm x) m) (r :: l).
Proof.
  induction l as [|x l IH]; [reflexivity|].
  cbn [Html.insert_by_llm].
  destruct (String.leb (QueryResult.llm r) (QueryResult.llm x)) eqn:E;
    [reflexivity|].
  cbn [List.filter] in IH |- *. rewrite IH.
  destruct (String.eqb_spec (QueryResult.llm x) m) as [Hx|_];
    [|reflexivity].
  destruct (String.eqb_spec (QueryResult.llm r) m) as [Hr|_];
    [|reflexivity].
  exfalso. rewrite Hx, Hr in E.
  pose proof (reflexivity (R := String.le) m) as H.
  unfold String.le in H. rewrite E in H. exact H.
Qed.

#[local] Instance by_llm_transitive :
  Transitive (fun a b : QueryResult.t =>
                String.le (QueryResult.llm a) (QueryResult.llm b)).
Proof. intros a b c Hab Hbc. by transitivity (QueryResult.llm b). Qed.

(** X17. In a block the responses are shown in ascending order of the
    model names; the responses of one model keep the order they have in
    the results, and no response is lost or shown twice. *)
Theorem responses_are_sorted_by_model :
  forall l : list QueryResult.t,
    Html.sorted_by_llm l ≡ₚ l
    /\ StronglySorted
         (fun a b => String.le (QueryResult.llm a) (QueryResult.llm b))
         (Html.sorted_by_llm l)
    /\ forall m,
         List.filter (fun x => String.eqb (QueryResult.llm x) m)
           (Html.sorted_by_llm l)
         = List.filter (fun x => String.eqb (QueryResult.llm x) m) l.
Proof.
  intros l. split; [apply sorted_by_llm_perm|]. split.
  - apply Sorted_StronglySorted; [apply _|].
    induction l as [|r l IH]; [constructor|].
    cbn [Html.sorted_by_llm foldr]. apply insert_by_llm_sorted, IH.
  - intros m. induction l as [|r l IH]; [reflexivity|].
    cbn [Html.sorted_by_llm foldr]. rewrite insert_by_llm_filter.
    cbn [List.filter]. fold (Html.sorted_by_llm l). rewrite IH. reflexivity.
Qed.

(** ** The choice of the number of questions *)

Lemma limit_of_choice_cases (typed : string) :
  Loader.limit_of_choice typed
  = if String.eqb (Str.strip typed) "2" then Some 5
    else if String.eqb (Str.strip typed) "3" then Some 10
    else None.
Proof.
  unfold Loader.limit_of_choice.
  destruct (Str.strip typed) as [|c s] eqn:E; [reflexivity|].
  cbn [Loader.limit_map Loader.get].
  rewrite !(String.eqb_sym _ (String c s)).
  destruct (String.eqb (String c s) "1") eqn:E1.
  - apply String.eqb_eq in E1. rewrite E1. reflexivity.
  - destruct (String.eqb (String c s) "2"); [reflexivity|].
    destruct (String.eqb (String c s) "3"); reflexivity.
Qed.

(** X18. What is typed at the menu of [main] decides how many questions
    are put to the models: the first 5 for "2" and the first 10 for "3"
    (all of them when fewer are loaded), white space around the digit
    left aside, and every loaded question for anything else, an empty
    or unknown choice included.  [analyze_all] then adds one record per
    such question and model. *)
Theorem menu_choice_bounds_the_batch :
  forall (self : Analyzer.analyzer) (clock : nat -> string) (typed : string),
    Analyzer.questions_to_analyze self (Loader.limit_of_choice typed)
    = (if String.eqb (Str.strip typed) "2"
       then take 5 (Analyzer.questions self)
       else if String.eqb (Str.strip typed) "3"
            then take 10 (Analyzer.questions self)
            else Analyzer.questions self)
    /\ exists new,
         Analyzer.analyze_all self clock (Loader.limit_of_choice typed)
         = Ok (Analyzer.results self ++ new)
         /\ length new
            = ((if String.eqb (Str.strip typed) "2"
                then Nat.min 5 (length (Analyzer.questions self))
                else if String.eqb (Str.strip typed) "3"
                     then Nat.min 10 (length (Analyzer.questions self))
                     else length (Analyzer.questions self))
               * length (Analyzer.llms self))%nat.
Proof.
  intros self clock typed.
  assert (Hq : Analyzer.questions_to_analyze self
                 (Loader.limit_of_choice typed)
               = (if String.eqb (Str.strip typed) "2"
                  then take 5 (Analyzer.questions self)
                  else if String.eqb (Str.strip typed) "3"
                       then take 10 (Analyzer.questions self)
                       else Analyzer.questions self)).
  { rewrite limit_of_choice_cases.
    destruct (String.eqb (Str.strip typed) "2"); [reflexivity|].
    destruct (String.eqb (Str.strip typed) "3"); reflexivity. }
  split; [exact Hq|].
  destruct (analyze_questions_ok self clock
              (Analyzer.questions_to_analyze self
                 (Loader.limit_of_choice typed))
              (Analyzer.results self) 0%nat) as (new & k & Heq & Hlen).
  exists new. unfold Analyzer.analyze_all. rewrite Heq.
  split; [reflexivity|]. rewrite Hlen, Hq.
  destruct (String.eqb (Str.strip typed) "2");
    [rewrite length_take; reflexivity|].
  destruct (String.eqb (Str.strip typed) "3");
    [rewrite length_take; reflexivity | reflexivity].
Qed.

(** ** The keys of the statistics and the lines of the summary *)

Lemma NoDup_foundation_names (rs : list QueryResult.t) :
  NoDup (Aggregate.foundation_names rs).
Proof. apply NoDup_sorted_unique. Qed.

(** X19. The statistics of the report list every model of the results,
    also one without a valid response, and the foundations of the valid
    responses only, both in ascending order without repetition.  The
    table [by_llm_foundation] has a row for exactly these models and, in
    every row, an entry for exactly these foundations; a pair without a
    matching valid record has the entry 0 of the empty sum.
    [total_by_foundation] has an entry for exactly these foundations. *)
Theorem statistics_tables_are_complete :
  forall (rs : list QueryResult.t) (st : Report.stats),
    Report.statistics rs = Ok st ->
    (forall m, m ∈ Report.llms st <->
               exists r, r ∈ rs /\ QueryResult.llm r = m)
    /\ (forall f, f ∈ Report.foundations st <->
                  exists r, r ∈ rs /\ Aggregate.valid r = true
                            /\ QueryResult.moral_foundation r = f)
    /\ StronglySorted String.le (Report.llms st)
    /\ NoDup (Report.llms st)
    /\ StronglySorted String.le (Report.foundations st)
    /\ NoDup (Report.foundations st)
    /\ (forall m, is_Some (Report.by_llm_foundation st !! m) <->
                  m ∈ Report.llms st)
    /\ (forall m row f,
          Report.by_llm_foundation st !! m = Some row ->
          (is_Some (row !! f) <-> f ∈ Report.foundations st))
    /\ (forall m row f,
          Report.by_llm_foundation st !! m = Some row ->
          f ∈ Report.foundations st ->
          (forall r, r ∈ rs -> Aggregate.matching m f r = false) ->
          row !! f = Some 0)
    /\ (forall f, is_Some (Report.total_by_foundation st !! f) <->
                  f ∈ Report.foundations st).
Proof.
  intros rs st Hst.
  destruct rs as [|r0 rs0]; [discriminate|].
  set (rs := r0 :: rs0) in *.
  unfold rs in Hst. rewrite statistics_ok in Hst. fold rs in Hst.
  injection Hst as <-.
  cbn [Report.llms Report.foundations Report.by_llm_foundation
       Report.total_by_foundation].
  split; [intros m; apply model_names_spec|].
  split; [intros f; apply foundation_names_spec|].
  split; [apply StronglySorted_merge_sort; apply _|].
  split; [apply NoDup_model_names|].
  split; [apply StronglySorted_merge_sort; apply _|].
  split; [apply NoDup_foundation_names|].
  split; [|split; [|split]].
  - intros m.
    rewrite (lookup_fold_insert
               (fun m => fold_left
                           (fun row f =>
                              <[f := Aggregate.frame_sum rs m f]> row)
                           (Aggregate.foundation_names rs) ∅)).
    case_bool_decide as H; split; intros H'; try done.
    + rewrite lookup_empty in H'. destruct H' as [? H']. discriminate H'.
  - intros m row f.
    rewrite (lookup_fold_insert
               (fun m => fold_left
                           (fun row f =>
                              <[f := Aggregate.frame_sum rs m f]> row)
                           (Aggregate.foundation_names rs) ∅)).
    case_bool_decide as H; [|rewrite lookup_empty; discriminate].
    intros [= <-].
    rewrite (lookup_fold_insert (fun f => Aggregate.frame_sum rs m f)).
    case_bool_decide as H'; split; intros H''; try done.
    rewrite lookup_empty in H''. destruct H'' as [? H'']. discriminate H''.
  - intros m row f.
    rewrite (lookup_fold_insert
               (fun m => fold_left
                           (fun row f =>
                              <[f := Aggregate.frame_sum rs m f]> row)
                           (Aggregate.foundation_names rs) ∅)).
    case_bool_decide as H; [|rewrite lookup_empty; discriminate].
    intros [= <-] Hf Hnone.
    rewrite (lookup_fold_insert (fun f => Aggregate.frame_sum rs m f)).
    rewrite bool_decide_eq_true_2 by exact Hf. f_equal.
    rewrite frame_sum_matching.
    assert (E : List.filter (Aggregate.matching m f) rs = []).
    { clear -Hnone. induction rs as [|x l IH]; [reflexivity|].
      simpl. rewrite (Hnone x) by (apply elem_of_cons; left; reflexivity).
      apply IH. intros y Hy. apply Hnone, elem_of_cons. right. exact Hy. }
    rewrite E. reflexivity.
  - intros f.
    rewrite (lookup_fold_insert (fun f => Aggregate.frame_total rs f)).
    case_bool_decide as H; split; intros H'; try done.
    rewrite lookup_empty in H'. destruct H' as [? H']. discriminate H'.
Qed.

Lemma statistics_tables_are_complete_witness :
  let rs := [ QueryResult.Make "model-a" "q1" 1 "Harm-Care" "4" 4 "t1";
              QueryResult.Make "model-b" "q1" 1 "Harm-Care" "?" (-1) "t2" ] in
  exists st,
    Report.statistics rs = Ok st
    /\ "model-b"%string ∈ Report.llms st
    /\ NoDup (Report.llms st).
Proof.
  intros rs.
  destruct (Report.statistics rs) as [st|e] eqn:Hst;
    [|unfold rs in Hst; rewrite statistics_ok in Hst; discriminate].
  exists st. split; [reflexivity|].
  destruct (statistics_tables_are_complete rs st Hst)
    as (Hm & _ & _ & Hnd & _).
  split; [|exact Hnd].
  apply Hm. eexists. split; [right; left|]. reflexivity.
Defined.

(** X20. The section of a model in the text summary has one score line
    per foundation on which the model has a valid response, in ascending
    order of the foundations and without repetition; a foundation on
    which the model has none gets no line, and a model without a valid
    response gets no score line at all. *)
Theorem summary_lines_follow_valid_responses :
  forall (rs : list QueryResult.t) (secs : list Summary.section),
    Summary._generate_summary rs = Ok secs ->
    forall sec,
      sec ∈ secs ->
      StronglySorted String.le (map fst (Summary.scores sec))
      /\ NoDup (map fst (Summary.scores sec))
      /\ (forall f,
            f ∈ map fst (Summary.scores sec) <->
            exists r, r ∈ rs
                      /\ Aggregate.matching (Summary.llm sec) f r = true)
      /\ (Summary.valid_responses sec = 0 <-> Summary.scores sec = []).
Proof.
  intros rs secs Hsum sec Hsec.
  assert (Hsecs : secs = map (Aggregate.section_of rs)
                           (Aggregate.model_names rs)).
  { destruct rs as [|r rs]; [discriminate|].
    rewrite summary_ok in Hsum. congruence. }
  subst secs. apply list_elem_of_fmap in Hsec as (m & -> & _).
  unfold Aggregate.section_of.
  cbn [Summary.scores Summary.llm Summary.valid_responses].
  set (rows := List.filter (fun r => String.eqb (QueryResult.llm r) m)
                 (List.filter Aggregate.valid rs)).
  assert (Hfst : map fst
                   (if 0 <? Z.of_nat (length rows)
                    then map (fun f => (f, Aggregate.frame_sum rs m f))
                           (Pandas.sorted
                              (Pandas.unique
                                 (map QueryResult.moral_foundation rows)))
                    else [])
                 = Pandas.sorted
                     (Pandas.unique
                        (map QueryResult.moral_foundation rows))).
  { destruct rows as [|x l]; [reflexivity|].
    change (0 <? Z.of_nat (length (x :: l))) with true. cbv iota.
    rewrite map_map. apply map_id. }
  rewrite Hfst.
  split; [apply StronglySorted_merge_sort; apply _|].
  split; [apply NoDup_sorted_unique|]. split.
  - intros f. rewrite elem_of_sorted, elem_of_unique, list_elem_of_fmap.
    split.
    + intros (r & -> & Hr). unfold rows in Hr.
      apply elem_of_List_filter in Hr as [Hr Hm].
      apply elem_of_List_filter in Hr as [Hr Hv].
      exists r. split; [exact Hr|]. unfold Aggregate.matching.
      rewrite Hv, Hm, String.eqb_refl. reflexivity.
    + intros (r & Hr & Hmatch).
      apply matching_cases in Hmatch as (Hv & Hm & Hf).
      exists r. split; [symmetry; exact Hf|]. unfold rows.
      apply elem_of_List_filter. split.
      * apply elem_of_List_filter. auto.
      * apply String.eqb_eq. exact Hm.
  - destruct rows as [|x l]; [split; reflexivity|].
    change (0 <? Z.of_nat (length (x :: l))) with true. cbv iota.
    split; [rewrite length_cons; lia|].
    intros H. apply map_eq_nil in H. apply (f_equal length) in H.
    rewrite sorted_length in H. cbn [map Pandas.unique length] in H.
    discriminate H.
Qed.

Lemma summary_lines_follow_valid_responses_witness :
  let rs := [ QueryResult.Make "model-a" "q1" 1 "Harm-Care" "4" 4 "t1";
              QueryResult.Make "model-b" "q1" 1 "Harm-Care" "?" (-1) "t2" ] in
  exists secs,
    Summary._generate_summary rs = Ok secs
    /\ forall sec, sec ∈ secs -> NoDup (map fst (Summary.scores sec)).
Proof.
  intros rs.
  destruct (Summary._generate_summary rs) as [secs|e] eqn:Hsum;
    [|unfold rs in Hsum; rewrite summary_ok in Hsum; discriminate].
  exists secs. split; [reflexivity|].
  intros sec Hsec.
  apply (summary_lines_follow_valid_responses rs secs Hsum sec Hsec).
Defined.

(** ** The index entry of a saved file *)



Lemma analyze_all_record_order_witness :
  let answering := Analyzer.Client (fun _ => Ok (Analyzer.Response "4")) in
  let failing :=
    Analyzer.Client (fun _ => Raise (Exception "TimeoutError" "timeout")) in
  let q1 := Question.Make "q1" 1 "Harm-Care" "0-5" in
  let q2 := Question.Make "q2" 2 "Fairness-Reciprocity" "0-5" in
  let self :=
    Analyzer.MoralFoundationsAnalyzer "p1" "p2" [q1; q2]
      [("model-a", answering); ("model-b", failing)] [] in
  exists new r,
    Analyzer.analyze_all self (fun k => Json.digits (N.of_nat k)) None
    = Ok new
    /\ new !! 3%nat = Some r
    /\ r = QueryResult.Make "model-b" "q2" 2 "Fairness-Reciprocity"
             "ERROR: timeout" (-1) "4".
Proof.
  intros answering failing q1 q2 self.
  destruct (analyze_all_record_order self
              (fun k => Json.digits (N.of_nat k)) None) as (new & H & Hnew).
  destruct (Hnew 1%nat 1%nat q2 "model-b"%string failing eq_refl eq_refl)
    as (r & Hr & Hq).
  exists new, r. split; [exact H|]. split; [exact Hr|].
  vm_compute in Hq. injection Hq as <-. reflexivity.
Defined.

Lemma responses_are_grouped_by_question_text_witness :
  let r1 := QueryResult.Make "model-b" "q1" 1 "Harm-Care" "4" 4 "t1" in
  let r2 := QueryResult.Make "model-a" "q1" 2 "Purity-Sanctity" "?" (-1)
              "t2" in
  exists it,
    it ∈ Html.detailed_responses [r1; r2]
    /\ Html.full_question it = "q1"%string
    /\ Html.card_of r2 ∈ Html.cards it.
Proof.
  intros r1 r2.
  apply (proj2 (proj2 (proj2 (proj2
           (responses_are_grouped_by_question_text [r1; r2])))) r2).
  apply elem_of_cons. right. apply elem_of_cons. left. reflexivity.
Defined.
